(** * UnWallet / Bond.Credit deployment scripts: a shallow embedding

    The repository holds three copies of one flow (pre-compute a Nexus
    account address, mint to it, then deploy the account and run an attested
    30-30-40 distribution in one Multicall3 transaction):

    - [Viem]    : the stand-alone viem script, scripts/viem/deployBondModule.ts
                  (unwallet-bond-credit/index.ts, lines 1-612);
    - [Index]   : index.ts proper, viem with the deployments.json ledger
                  (unwallet-bond-credit/index.ts, lines 613-1177);
    - [Hardhat] : the ethers/hardhat script, scripts/hardhat/deployBondModule.ts.

    Byte strings are lists of integers in [0,256); addresses are 160-bit
    integers, written by the scripts as hexadecimal text; the calls to the
    chain, the wallet, the clock and the file system are events of a small
    free monad, answered by a handler.  [console.log] is not modelled. *)

From Stdlib Require Import ZArith String Ascii List Lia Bool DecimalString.
Import ListNotations.
Local Open Scope Z_scope.
Set Warnings "-register-all".

(** ** Byte strings *)

Definition bytes := list Z.

(** [toBytes] / [toUtf8Bytes] / [toHex] of a string of ASCII characters. *)
Definition toBytes (s : string) : bytes :=
  map (fun c => Z.of_nat (nat_of_ascii c)) (list_ascii_of_string s).

(** Big-endian bytes of [x], [n] of them (the low [8n] bits). *)
Fixpoint be_bytes (n : nat) (x : Z) : bytes :=
  match n with
  | O => []
  | S k => Z.land (Z.shiftr x (8 * Z.of_nat k)) 255 :: be_bytes k x
  end.

Definition be_word (bs : bytes) : Z :=
  fold_left (fun acc b => acc * 256 + b) bs 0.

(** Decimal text of a non-negative integer, as a template literal prints it. *)
Definition decimal (n : Z) : string :=
  NilZero.string_of_uint (N.to_uint (Z.to_N n)).

Definition len (bs : bytes) : Z := Z.of_nat (length bs).

(** ** Keccak-256 (the hash of viem's and ethers' [keccak256]) *)

Module Keccak.

Definition mask64 : Z := Z.ones 64.

Definition rotl64 (x n : Z) : Z :=
  Z.lor (Z.land (Z.shiftl x n) mask64) (Z.shiftr x (64 - n)).

Definition lane (st : list Z) (i : nat) : Z := nth i st 0.

Definition RC : list Z :=
  [0x0000000000000001; 0x0000000000008082; 0x800000000000808A; 0x8000000080008000;
   0x000000000000808B; 0x0000000080000001; 0x8000000080008081; 0x8000000000008009;
   0x000000000000008A; 0x0000000000000088; 0x0000000080008009; 0x000000008000000A;
   0x000000008000808B; 0x800000000000008B; 0x8000000000008089; 0x8000000000008003;
   0x8000000000008002; 0x8000000000000080; 0x000000000000800A; 0x800000008000000A;
   0x8000000080008081; 0x8000000000008080; 0x0000000080000001; 0x8000000080008008].

(** Rotation offsets, lane (x, y) at index x + 5 y. *)
Definition ROT : list Z :=
  [ 0;  1; 62; 28; 27;
   36; 44;  6; 55; 20;
    3; 10; 43; 25; 39;
   41; 45; 15; 21;  8;
   18;  2; 61; 56; 14].

Definition idx25 : list nat := seq 0 25.

Definition theta (a : list Z) : list Z :=
  let c := map (fun x =>
                  Z.lxor (lane a x)
                    (Z.lxor (lane a (x + 5))
                       (Z.lxor (lane a (x + 10))
                          (Z.lxor (lane a (x + 15)) (lane a (x + 20))))))
               (seq 0 5) in
  let d := map (fun x =>
                  Z.lxor (lane c ((x + 4) mod 5)) (rotl64 (lane c ((x + 1) mod 5)) 1))
               (seq 0 5) in
  map (fun i => Z.lxor (lane a i) (lane d (i mod 5))) idx25.

(** B[y, 2x+3y] = rot(A[x, y]); read from the target side. *)
Definition rho_pi (a : list Z) : list Z :=
  map (fun i =>
         let X := (i mod 5)%nat in
         let Y := (i / 5)%nat in
         let src := (((X + 3 * Y) mod 5) + 5 * X)%nat in
         rotl64 (lane a src) (nth src ROT 0))
      idx25.

Definition chi (b : list Z) : list Z :=
  map (fun i =>
         let x := (i mod 5)%nat in
         let y := (i / 5)%nat in
         Z.lxor (lane b i)
           (Z.land (Z.lxor (lane b ((x + 1) mod 5 + 5 * y)) mask64)
                   (lane b ((x + 2) mod 5 + 5 * y))))
      idx25.

Definition iota (rc : Z) (a : list Z) : list Z :=
  match a with
  | [] => []
  | a0 :: r => Z.lxor a0 rc :: r
  end.

Definition round (a : list Z) (rc : Z) : list Z :=
  iota rc (chi (rho_pi (theta a))).

Definition keccak_f (a : list Z) : list Z := fold_left round RC a.

Fixpoint le_bytes (n : nat) (x : Z) : bytes :=
  match n with
  | O => []
  | S k => Z.land x 255 :: le_bytes k (Z.shiftr x 8)
  end.

Fixpoint le_word (bs : bytes) : Z :=
  match bs with
  | [] => 0
  | b :: r => Z.lor b (Z.shiftl (le_word r) 8)
  end.

Fixpoint chunks (fuel n : nat) (bs : bytes) : list bytes :=
  match fuel with
  | O => []
  | S f =>
      match bs with
      | [] => []
      | _ => firstn n bs :: chunks f n (skipn n bs)
      end
  end.

Definition rate : nat := 136.

(** Keccak's pad10*1 with the original domain bit (0x01, not SHA-3's 0x06). *)
Definition pad (m : bytes) : bytes :=
  let q := (rate - (length m mod rate))%nat in
  if Nat.eqb q 1 then m ++ [0x81]
  else m ++ [0x01] ++ repeat 0 (q - 2) ++ [0x80].

Definition absorb (st : list Z) (block : bytes) : list Z :=
  let ws := map le_word (chunks 17 8 block) in
  keccak_f (map (fun i => Z.lxor (lane st i) (lane ws i)) idx25).

Definition keccak256 (m : bytes) : bytes :=
  let p := pad m in
  let st := fold_left absorb (chunks (length p) rate p) (repeat 0 25) in
  flat_map (le_bytes 8) (firstn 4 st).

End Keccak.

Definition keccak256 : bytes -> bytes := Keccak.keccak256.

(** ** Contract ABI encoding *)

Definition Address := Z.

(** A value together with its Solidity type. *)
Inductive abi_val : Type :=
| VUint (bits : Z) (n : Z)        (* uint<bits> *)
| VAddress (a : Address)          (* address *)
| VBool (b : bool)                (* bool *)
| VBytes32 (bs : bytes)           (* bytes32 *)
| VBytes (bs : bytes)             (* bytes *)
| VArray (vs : list abi_val)      (* T[] *)
| VTuple (vs : list abi_val).     (* tuple(...) *)

Definition in_uint (bits n : Z) : bool := (0 <=? n) && (n <? 2 ^ bits).

Definition is_address (a : Address) : bool := in_uint 160 a.

(** The encoders throw on an integer out of its range, on an address that is
    not 20 bytes and on a bytes32 that is not 32 bytes. *)
Fixpoint valid (v : abi_val) : bool :=
  match v with
  | VUint bits n => in_uint bits n
  | VAddress a => is_address a
  | VBool _ => true
  | VBytes32 bs => Nat.eqb (length bs) 32
  | VBytes _ => true
  | VArray vs => forallb valid vs
  | VTuple vs => forallb valid vs
  end.

(** *** Packed encoding ([encodePacked], [solidityPacked]) *)

Definition packed1 (v : abi_val) : option bytes :=
  match v with
  | VUint bits n =>
      if in_uint bits n then Some (be_bytes (Z.to_nat (bits / 8)) n) else None
  | VAddress a => if is_address a then Some (be_bytes 20 a) else None
  | VBool b => Some [if b then 1 else 0]
  | VBytes32 bs => if Nat.eqb (length bs) 32 then Some bs else None
  | VBytes bs => Some bs
  | VArray _ => None          (* the scripts pack no array and no tuple *)
  | VTuple _ => None
  end.

Fixpoint encodePacked (vs : list abi_val) : option bytes :=
  match vs with
  | [] => Some []
  | v :: r =>
      match packed1 v, encodePacked r with
      | Some b, Some bs => Some (b ++ bs)
      | _, _ => None
      end
  end.

(** *** Standard encoding ([encodeAbiParameters], [AbiCoder.encode]) *)

Fixpoint is_dynamic (v : abi_val) : bool :=
  match v with
  | VBytes _ => true
  | VArray _ => true
  | VTuple vs => existsb is_dynamic vs
  | _ => false
  end.

Definition pad32 (n : Z) : bytes := be_bytes 32 n.

(** Zero padding on the right up to a multiple of 32 bytes. *)
Definition pad_right (bs : bytes) : bytes :=
  bs ++ repeat 0 ((32 - length bs mod 32) mod 32)%nat.

Definition head_size (parts : list (bool * bytes)) : Z :=
  fold_right (fun (p : bool * bytes) acc => (if fst p then 32 else len (snd p)) + acc) 0 parts.

(** Heads and tails of a sequence of encoded components; [off] is the offset
    of the next tail from the start of the sequence. *)
Fixpoint enc_parts (off : Z) (parts : list (bool * bytes)) : bytes * bytes :=
  match parts with
  | [] => ([], [])
  | (dyn, e) :: r =>
      if dyn then
        let '(h, t) := enc_parts (off + len e) r in (pad32 off ++ h, e ++ t)
      else
        let '(h, t) := enc_parts off r in (e ++ h, t)
  end.

Definition enc_seq (parts : list (bool * bytes)) : bytes :=
  let '(h, t) := enc_parts (head_size parts) parts in h ++ t.

Fixpoint enc (v : abi_val) : bytes :=
  match v with
  | VUint _ n => pad32 n
  | VAddress a => pad32 a
  | VBool b => pad32 (if b then 1 else 0)
  | VBytes32 bs => bs
  | VBytes bs => pad32 (len bs) ++ pad_right bs
  | VArray vs =>
      pad32 (Z.of_nat (length vs)) ++ enc_seq (map (fun x => (is_dynamic x, enc x)) vs)
  | VTuple vs => enc_seq (map (fun x => (is_dynamic x, enc x)) vs)
  end.

Definition encodeAbiParameters (vs : list abi_val) : option bytes :=
  if forallb valid vs then Some (enc (VTuple vs)) else None.

(** The first four bytes of the hash of the signature. *)
Definition selector (signature : string) : bytes :=
  firstn 4 (keccak256 (toBytes signature)).

(** [encodeFunctionData] for the function with this signature. *)
Definition encodeFunctionData (signature : string) (args : list abi_val) : option bytes :=
  match encodeAbiParameters args with
  | Some b => Some (selector signature ++ b)
  | None => None
  end.




(** ** Addresses as the scripts write them *)

Definition hex_digit (c : ascii) : option Z :=
  let n := Z.of_nat (nat_of_ascii c) in
  if (48 <=? n) && (n <=? 57) then Some (n - 48)
  else if (97 <=? n) && (n <=? 102) then Some (n - 87)
  else if (65 <=? n) && (n <=? 70) then Some (n - 55)
  else None.

Fixpoint hex_value (acc : Z) (s : string) : option Z :=
  match s with
  | EmptyString => Some acc
  | String c r =>
      match hex_digit c with
      | Some d => hex_value (acc * 16 + d) r
      | None => None
      end
  end.

(** The value of a ["0x..."] literal of 40 hexadecimal digits. *)
Definition parseAddress (s : string) : option Address :=
  match s with
  | String "0" (String "x" r) =>
      if Nat.eqb (String.length r) 40 then hex_value 0 r else None
  | _ => None
  end.

Definition addressOf (s : string) : Address :=
  match parseAddress s with
  | Some a => a
  | None => 0
  end.

Definition hex_char (upper : bool) (d : Z) : ascii :=
  ascii_of_nat (Z.to_nat (if d <? 10 then 48 + d else (if upper then 55 else 87) + d)).

Fixpoint nibbles (n : nat) (x : Z) : list Z :=
  match n with
  | O => []
  | S k => Z.land (Z.shiftr x (4 * Z.of_nat k)) 15 :: nibbles k x
  end.

Definition lower_hex (ds : list Z) : string :=
  string_of_list_ascii (map (hex_char false) ds).

(** The checksummed text (EIP-55) in which viem and ethers return an address. *)
Definition addressText (a : Address) : string :=
  let ds := nibbles 40 a in
  let h := flat_map (fun b => [Z.shiftr b 4; Z.land b 15])
                    (keccak256 (toBytes (lower_hex ds))) in
  String "0" (String "x"
    (string_of_list_ascii
       (map (fun p : Z * Z => hex_char (8 <=? snd p) (fst p)) (combine ds h)))).

Record DeployedAddresses : Type := {
  K1Validator : string;
  MockRegistry : string;
  NexusBootstrap : string;
  NexusImplementation : string;
  NexusAccountFactory : string;
  BiconomyMetaFactory : string;
  BondModule : string;
  MockToken : string;
  EscrowZyFAI : string;
  EscrowGiza : string;
  EscrowCod3x : string
}.

(** ** Configuration (the same constants in the three scripts) *)

Definition MULTICALL3 : string := "0xcA11bde05977b3631167028862bE2a173976CA11".
Definition INITIAL_TOKEN_BALANCE : Z := 10000000000.
Definition ALLOWANCE_CAP : Z := 10000000000.

Definition ALLOCATION_ZYFAI : Z := 3000.
Definition ALLOCATION_GIZA : Z := 3000.
Definition ALLOCATION_COD3X : Z := 4000.
Definition TOTAL_PERCENTAGE : Z := 10000.

(** ** Distribution amounts

    [(accountBalance * BigInt(ALLOCATION_X)) / BigInt(TOTAL_PERCENTAGE)]:
    BigInt division truncates towards zero. *)

Definition amountZyFAI (accountBalance : Z) : Z :=
  (accountBalance * ALLOCATION_ZYFAI) ÷ TOTAL_PERCENTAGE.
Definition amountGiza (accountBalance : Z) : Z :=
  (accountBalance * ALLOCATION_GIZA) ÷ TOTAL_PERCENTAGE.
Definition amountCod3x (accountBalance : Z) : Z :=
  (accountBalance * ALLOCATION_COD3X) ÷ TOTAL_PERCENTAGE.

(** The same formula over an arbitrary list of basis-point shares. *)
Definition planAmounts (accountBalance : Z) (shares : list Z) : list Z :=
  map (fun s => (accountBalance * s) ÷ TOTAL_PERCENTAGE) shares.

Definition sumZ (l : list Z) : Z := fold_right Z.add 0 l.

(** ** Sub-calls *)

Module Execution.

Record t : Type := { target : Address; value : Z; callData : bytes }.

Definition to_abi (e : t) : abi_val :=
  VTuple [VAddress (target e); VUint 256 (value e); VBytes (callData e)].

End Execution.

Module Call3.

Record t : Type := { target : Address; allowFailure : bool; callData : bytes }.

Definition to_abi (c : t) : abi_val :=
  VTuple [VAddress (target c); VBool (allowFailure c); VBytes (callData c)].

End Call3.

(** ** Personal-message hashing *)

Definition messagePrefix (size : Z) : bytes :=
  [0x19] ++ toBytes "Ethereum Signed Message:" ++ [0x0a] ++ toBytes (decimal size).

(** viem's [hashMessage({ raw })]: the prefix carries the byte length. *)
Definition hashMessage (raw : bytes) : bytes :=
  keccak256 (messagePrefix (len raw) ++ raw).


(** ** JSON documents as the scripts hold them in memory

    An object keeps its keys in insertion order.  An array can carry named
    properties in memory; [JSON.stringify] does not write them. *)

Inductive json : Type :=
| JNull
| JBool (b : bool)
| JNumber (n : Z)
| JString (s : string)
| JArray (elems : list json) (props : list (string * json))
| JObject (fields : list (string * json)).

Fixpoint lookup (k : string) (fs : list (string * json)) : option json :=
  match fs with
  | [] => None
  | (k', v) :: r => if String.eqb k k' then Some v else lookup k r
  end.

(** Assignment to a key: in place when the key exists, appended otherwise. *)
Fixpoint assign (k : string) (x : json) (fs : list (string * json)) : list (string * json) :=
  match fs with
  | [] => [(k, x)]
  | (k', v) :: r => if String.eqb k k' then (k, x) :: r else (k', v) :: assign k x r
  end.

Inductive Exn : Type :=
| Error (message : string)      (* throw new Error(message) *)
| TypeError                     (* property access on null or undefined, assignment to a primitive *)
| EncodingError                 (* the ABI encoder rejects a value *)
| CallException                 (* ethers: the awaited transaction reverted *)
| Rejected.                     (* an awaited external call failed *)

(** [!v] is false exactly on these. *)
Definition truthy (v : option json) : bool :=
  match v with
  | None => false
  | Some JNull => false
  | Some (JBool b) => b
  | Some (JNumber n) => negb (n =? 0)
  | Some (JString s) => negb (String.eqb s "")
  | Some (JArray _ _) => true
  | Some (JObject _) => true
  end.

(** [v.k], for a key that is no array index and no built-in property. *)
Definition getProp (v : option json) (k : string) : Exn + option json :=
  match v with
  | None => inl TypeError
  | Some JNull => inl TypeError
  | Some (JObject fs) => inr (lookup k fs)
  | Some (JArray _ ps) => inr (lookup k ps)
  | Some _ => inr None
  end.

(** [v.k = x] in strict mode. *)
Definition setProp (v : option json) (k : string) (x : json) : Exn + json :=
  match v with
  | Some (JObject fs) => inr (JObject (assign k x fs))
  | Some (JArray es ps) => inr (JArray es (assign k x ps))
  | _ => inl TypeError
  end.

(** [d.p1.p2...], evaluated left to right. *)
Fixpoint getPath (v : option json) (path : list string) : Exn + option json :=
  match path with
  | [] => inr v
  | k :: r =>
      match getProp v k with
      | inl e => inl e
      | inr v' => getPath v' r
      end
  end.

(** [d.p1.p2....k = x]: the object reached by the path is updated in place. *)
Fixpoint setPath (d : option json) (path : list string) (k : string) (x : json) : Exn + json :=
  match path with
  | [] => setProp d k x
  | p :: r =>
      match getProp d p with
      | inl e => inl e
      | inr child =>
          match setPath child r k x with
          | inl e => inl e
          | inr child' => setProp d p child'
          end
      end
  end.

(** What [JSON.stringify] keeps of a document. *)
Fixpoint stringified (d : json) : json :=
  match d with
  | JArray es _ => JArray (map stringified es) []
  | JObject fs => JObject (map (fun kv : string * json => (fst kv, stringified (snd kv))) fs)
  | _ => d
  end.

(** ** External calls *)

Record Receipt : Type := { status : bool; transactionHash : bytes; gasUsed : Z }.

Inductive Event : Type -> Type :=
| GetCode (address : Address) : Event bytes
| GetChainId : Event Z
| ComputeAccountAddress (factory : Address) (initData salt : bytes) : Event Address
| BalanceOf (token account : Address) : Event Z
| IsInitialized (module account : Address) : Event bool
| IsAgentModeActivated (module account : Address) : Event bool
| WriteContract (address : Address) (functionName : string) (args : list abi_val)
                (gas : option Z) : Event bytes
| WaitForTransactionReceipt (hash : bytes) (confirmations : Z) : Event Receipt
| Sleep (ms : Z) : Event unit
| DateNow : Event Z
| DateISOString : Event string
| WalletAddress : Event Address
| EcdsaSign (digest : bytes) : Event bytes
| ExistsSync (path : string) : Event bool
| ReadJson (path : string) : Event json
| WriteJson (path : string) (doc : json) : Event unit.

Inductive Prog (A : Type) : Type :=
| Ret (a : A)
| Throw (e : Exn)
| Vis {R : Type} (ev : Event R) (k : R -> Prog A).

Arguments Ret {A} a.
Arguments Throw {A} e.
Arguments Vis {A R} ev k.

Fixpoint bind {A B : Type} (p : Prog A) (f : A -> Prog B) : Prog B :=
  match p with
  | Ret a => f a
  | Throw e => Throw e
  | Vis ev k => Vis ev (fun r => bind (k r) f)
  end.

Definition call {R : Type} (ev : Event R) : Prog R := Vis ev Ret.

Definition lift {A : Type} (o : option A) : Prog A :=
  match o with
  | Some a => Ret a
  | None => Throw EncodingError
  end.

Declare Scope prog_scope.
Delimit Scope prog_scope with prog.
Notation "x <- p ;; k" := (bind p (fun x => k))
  (at level 61, p at next level, right associativity) : prog_scope.
Notation "p ;; k" := (bind p (fun _ => k))
  (at level 61, right associativity) : prog_scope.
Local Open Scope prog_scope.

(** *** Running a program against an environment *)

Inductive Step : Type :=
| step {R : Type} (ev : Event R) (answer : option R).

Inductive Outcome (A : Type) : Type :=
| Returned (a : A)
| Raised (e : Exn).

Arguments Returned {A} a.
Arguments Raised {A} e.

(** The environment answers every request, or lets it fail. *)
Definition Handler (S : Type) : Type := forall R : Type, Event R -> S -> option R * S.

Fixpoint run {S A : Type} (h : Handler S) (p : Prog A) (s : S)
  : list Step * Outcome A * S :=
  match p with
  | Ret a => ([], Returned a, s)
  | Throw e => ([], Raised e, s)
  | Vis ev k =>
      match h _ ev s with
      | (None, s') => ([step ev None], Raised Rejected, s')
      | (Some r, s') =>
          let '(tr, o, s'') := run h (k r) s' in
          (step ev (Some r) :: tr, o, s'')
      end
  end.

Definition trace_of {S A : Type} (x : list Step * Outcome A * S) : list Step := fst (fst x).
Definition outcome_of {S A : Type} (x : list Step * Outcome A * S) : Outcome A := snd (fst x).
Definition state_of {S A : Type} (x : list Step * Outcome A * S) : S := snd x.

(** The transactions submitted in a trace: contract, function, arguments. *)
Definition submitted (st : Step) : list (Address * string * list abi_val) :=
  match st with
  | step (WriteContract a f args _) _ => [(a, f, args)]
  | step _ _ => []
  end.

Definition transactions (tr : list Step) : list (Address * string * list abi_val) :=
  flat_map submitted tr.

(** The digests handed to the signing key in a trace, with its answers. *)
Definition signed (st : Step) : list (bytes * option bytes) :=
  match st with
  | @step R ev answer =>
      match ev in Event R return option R -> list (bytes * option bytes) with
      | EcdsaSign d => fun answer => [(d, answer)]
      | _ => fun _ => []
      end answer
  end.

Definition signedDigests (tr : list Step) : list (bytes * option bytes) :=
  flat_map signed tr.

(** [!process.env.X]: the variable is missing or empty. *)
Definition unset (v : option string) : bool :=
  match v with
  | None => true
  | Some s => String.eqb s ""
  end.

(** viem's [signMessage({ message: { raw } })]: hash with the prefix, then sign. *)
Definition signMessage (raw : bytes) : Prog bytes :=
  call (EcdsaSign (hashMessage raw)).

(** ** The stand-alone viem script (scripts/viem/deployBondModule.ts) *)

Module Viem.

Definition DEPLOYED_ADDRESSES : DeployedAddresses := {|
  K1Validator := "0xaCEeEa78b9E1ACc06F5B6Cc527a3FE71A722CedB";
  MockRegistry := "0x6feaFAbB6ba2a46A62eBb8A39354C73A6e1c283e";
  NexusBootstrap := "0x7B5DED478B61C7Cb54F980A4FFcbEf4CC03B65Ef";
  NexusImplementation := "0x2BF411df5165A1F41D9a5a78b5Fc1Cf1ce83C2E6";
  NexusAccountFactory := "0x123221fd520687f78e556c0F594aaA7030e09F6C";
  BiconomyMetaFactory := "0x74e32771e3dc456D18797df513A1181e166940C2";
  BondModule := "0x29195B26D9C4253C7e956e8ac4556697F7718C6D";
  MockToken := "0x0B1Cddc846C5b1aC1293F943aFd8F642418D6f48";
  EscrowZyFAI := "0x87aadB3aC964d1E50Be5025f08f4AF876DA81d10";
  EscrowGiza := "0x4ad7da42761456f701d44322D25165629F5d795B";
  EscrowCod3x := "0xA15bD240D25721687A90e70C193a7d42e8C5FF6c"
|}.

(** [baseSepolia.id] *)
Definition baseSepolia_id : Z := 84532.

Definition preComputeAccountAddress (owner : Address) : Prog (Address * bytes * bytes) :=
  executorInstallData <-
    lift (encodeAbiParameters
            [VArray [VAddress (addressOf (MockToken DEPLOYED_ADDRESSES))];
             VArray [VUint 256 ALLOWANCE_CAP]]) ;;
  let executors :=
    VArray [VTuple [VAddress (addressOf (BondModule DEPLOYED_ADDRESSES));
                    VBytes executorInstallData]] in
  let registryConfig :=
    VTuple [VAddress (addressOf (MockRegistry DEPLOYED_ADDRESSES));
            VArray [VAddress owner];
            VUint 8 1] in
  initCall <-
    lift (encodeAbiParameters
            [VBytes (be_bytes 20 owner);
             VArray [];
             executors;
             VTuple [VAddress 0; VBytes []];
             VArray [];
             VArray [];
             registryConfig]) ;;
  let functionSelector :=
    selector "initNexusWithDefaultValidatorAndOtherModules(bytes,(address,bytes)[],(address,bytes)[],(address,bytes),(address,bytes)[],(uint256,address,bytes)[],(address,address[],uint8))" in
  let encodedInitCall := functionSelector ++ initCall in
  initData <-
    lift (encodeAbiParameters
            [VAddress (addressOf (NexusBootstrap DEPLOYED_ADDRESSES));
             VBytes encodedInitCall]) ;;
  now <- call DateNow ;;
  let timestamp := now / 1000 in
  let salt := keccak256 (toBytes ("nexus-bondmodule-viem-" ++ decimal timestamp)) in
  accountAddress <-
    call (ComputeAccountAddress (addressOf (NexusAccountFactory DEPLOYED_ADDRESSES))
                                initData salt) ;;
  Ret (accountAddress, initData, salt).

(** The retry loop: [i] rounds left, [balance] the last value read. *)
Fixpoint retryBalance (i : nat) (balance : Z) (accountAddress : Address) : Prog Z :=
  match i with
  | O => Ret balance
  | S i' =>
      balance' <- call (BalanceOf (addressOf (MockToken DEPLOYED_ADDRESSES)) accountAddress) ;;
      if balance' >? 0 then Ret balance'
      else (call (Sleep 2000) ;; retryBalance i' balance' accountAddress)
  end.

Definition mintTokensToAccount (accountAddress : Address) : Prog unit :=
  hash <- call (WriteContract (addressOf (MockToken DEPLOYED_ADDRESSES)) "mint"
                  [VAddress accountAddress; VUint 256 INITIAL_TOKEN_BALANCE] None) ;;
  call (WaitForTransactionReceipt hash 2) ;;
  call (Sleep 3000) ;;
  balance <- retryBalance 10 0 accountAddress ;;
  if balance =? 0
  then Throw (Error "Balance still 0 after retries - state propagation issue")
  else Ret tt.

Definition approveSelector : bytes := selector "approve(address,uint256)".
Definition depositSelector : bytes := selector "deposit(uint256)".

Definition executions (accountBalance : Z) : Prog (list Execution.t) :=
  let amountZyFAI := amountZyFAI accountBalance in
  let amountGiza := amountGiza accountBalance in
  let amountCod3x := amountCod3x accountBalance in
  a0 <- lift (encodeAbiParameters
                [VAddress (addressOf (EscrowZyFAI DEPLOYED_ADDRESSES)); VUint 256 amountZyFAI]) ;;
  d0 <- lift (encodeAbiParameters [VUint 256 amountZyFAI]) ;;
  a1 <- lift (encodeAbiParameters
                [VAddress (addressOf (EscrowGiza DEPLOYED_ADDRESSES)); VUint 256 amountGiza]) ;;
  d1 <- lift (encodeAbiParameters [VUint 256 amountGiza]) ;;
  a2 <- lift (encodeAbiParameters
                [VAddress (addressOf (EscrowCod3x DEPLOYED_ADDRESSES)); VUint 256 amountCod3x]) ;;
  d2 <- lift (encodeAbiParameters [VUint 256 amountCod3x]) ;;
  Ret [ {| Execution.target := addressOf (MockToken DEPLOYED_ADDRESSES);
           Execution.value := 0;
           Execution.callData := approveSelector ++ a0 |};
        {| Execution.target := addressOf (EscrowZyFAI DEPLOYED_ADDRESSES);
           Execution.value := 0;
           Execution.callData := depositSelector ++ d0 |};
        {| Execution.target := addressOf (MockToken DEPLOYED_ADDRESSES);
           Execution.value := 0;
           Execution.callData := approveSelector ++ a1 |};
        {| Execution.target := addressOf (EscrowGiza DEPLOYED_ADDRESSES);
           Execution.value := 0;
           Execution.callData := depositSelector ++ d1 |};
        {| Execution.target := addressOf (MockToken DEPLOYED_ADDRESSES);
           Execution.value := 0;
           Execution.callData := approveSelector ++ a2 |};
        {| Execution.target := addressOf (EscrowCod3x DEPLOYED_ADDRESSES);
           Execution.value := 0;
           Execution.callData := depositSelector ++ d2 |} ].

Definition attestationPreimage (chainId : Z) (accountAddress token : Address)
    (allowedPercentageBps nonce : Z) (executionBatch : bytes) : option bytes :=
  encodePacked [VUint 256 chainId; VAddress accountAddress; VAddress token;
                VUint 256 allowedPercentageBps; VUint 256 nonce; VBytes executionBatch].

Definition deployAccountAndExecuteDistribution
    (accountAddress : Address) (initData salt : bytes) (owner : Address) : Prog unit :=
  factoryData <- lift (encodeAbiParameters [VBytes initData; VBytes32 salt]) ;;
  let createAccountSelector := selector "createAccount(bytes,bytes32)" in
  let encodedFactoryData := createAccountSelector ++ factoryData in
  accountBalance <-
    call (BalanceOf (addressOf (MockToken DEPLOYED_ADDRESSES)) accountAddress) ;;
  executions <- executions accountBalance ;;
  executionBatch <- lift (encodeAbiParameters [VArray (map Execution.to_abi executions)]) ;;
  now <- call DateNow ;;
  let nonce := now / 1000 in
  let allowedPercentageBps := TOTAL_PERCENTAGE in
  let chainId := baseSepolia_id in
  packed <- lift (attestationPreimage chainId accountAddress
                    (addressOf (MockToken DEPLOYED_ADDRESSES))
                    allowedPercentageBps nonce executionBatch) ;;
  let attestationHash := keccak256 packed in
  signature <- signMessage attestationHash ;;
  batchExecutionData <-
    lift (encodeAbiParameters
            [VAddress accountAddress; VBytes executionBatch;
             VAddress (addressOf (MockToken DEPLOYED_ADDRESSES));
             VUint 256 allowedPercentageBps; VUint 256 nonce; VBytes signature]) ;;
  let executeBatchSelector :=
    selector "executeBatchWithAttestation(address,bytes,address,uint256,uint256,bytes)" in
  let encodedBatchExecution := executeBatchSelector ++ batchExecutionData in
  deployArgs <-
    lift (encodeAbiParameters
            [VAddress (addressOf (NexusAccountFactory DEPLOYED_ADDRESSES));
             VBytes encodedFactoryData]) ;;
  let deployWithFactorySelector := selector "deployWithFactory(address,bytes)" in
  let calls :=
    [ {| Call3.target := addressOf (BiconomyMetaFactory DEPLOYED_ADDRESSES);
         Call3.allowFailure := false;
         Call3.callData := deployWithFactorySelector ++ deployArgs |};
      {| Call3.target := addressOf (BondModule DEPLOYED_ADDRESSES);
         Call3.allowFailure := false;
         Call3.callData := encodedBatchExecution |} ] in
  hash <- call (WriteContract (addressOf MULTICALL3) "aggregate3"
                  [VArray (map Call3.to_abi calls)] None) ;;
  receipt <- call (WaitForTransactionReceipt hash 2) ;;
  if status receipt then Ret tt else Throw (Error "Transaction failed").

Definition main (PRIVATE_KEY : option string) : Prog unit :=
  if unset PRIVATE_KEY then Throw (Error "PRIVATE_KEY environment variable not set")
  else
    owner <- call WalletAddress ;;
    pre <- preComputeAccountAddress owner ;;
    let '(accountAddress, initData, salt) := pre in
    existingCode <- call (GetCode accountAddress) ;;
    match existingCode with
    | _ :: _ => Ret tt
    | [] =>
        mintTokensToAccount accountAddress ;;
        deployAccountAndExecuteDistribution accountAddress initData salt owner ;;
        Ret tt
    end.

End Viem.

(** ** The deployment ledger (deployments.json)

    The statements and the object literal of [updateDeploymentsJson] are the
    same text in index.ts and in the hardhat script. *)

Local Open Scope string_scope.

(** [s.split("T")[0]] *)
Fixpoint beforeT (s : string) : string :=
  match s with
  | EmptyString => EmptyString
  | String c r => if Ascii.eqb c "T" then EmptyString else String c (beforeT r)
  end.

Definition basescanLink (address : string) : json :=
  JString ("https://sepolia.basescan.org/address/" ++ address).

Definition bondModuleRecord (D : DeployedAddresses) (isoString nexusAccountAddress : string)
  : json :=
  JObject [
    ("address", JString (BondModule D));
    ("transactionHash", JString "Latest deployment via Foundry");
    ("blockNumber", JString "Latest");
    ("verified", JBool false);
    ("basescanLink", basescanLink (BondModule D));
    ("deploymentDate", JString (beforeT isoString));
    ("features", JObject [
       ("agentMode", JBool true);
       ("percentageBasedLimits", JBool true);
       ("teeAttestation", JBool true);
       ("replayProtection", JBool true);
       ("yieldProtocolIntegration", JBool true);
       ("atomicMulticall3Deployment", JBool true)]);
    ("demoAccount", JObject [
       ("preComputedAddress", JString nexusAccountAddress);
       ("basescanLink", basescanLink nexusAccountAddress)]);
    ("escrowVaults", JObject [
       ("zyfai", JObject [
          ("address", JString (EscrowZyFAI D));
          ("allocation", JString "30%");
          ("basescanLink", basescanLink (EscrowZyFAI D))]);
       ("giza", JObject [
          ("address", JString (EscrowGiza D));
          ("allocation", JString "30%");
          ("basescanLink", basescanLink (EscrowGiza D))]);
       ("cod3x", JObject [
          ("address", JString (EscrowCod3x D));
          ("allocation", JString "40%");
          ("basescanLink", basescanLink (EscrowCod3x D))])]);
    ("mockToken", JObject [
       ("address", JString (MockToken D));
       ("name", JString "Test USDC");
       ("symbol", JString "USDC");
       ("decimals", JNumber 6);
       ("basescanLink", basescanLink (MockToken D))]);
    ("coreContracts", JObject [
       ("k1Validator", JString (K1Validator D));
       ("mockRegistry", JString (MockRegistry D));
       ("nexusBootstrap", JString (NexusBootstrap D));
       ("nexusImplementation", JString (NexusImplementation D));
       ("nexusAccountFactory", JString (NexusAccountFactory D));
       ("biconomyMetaFactory", JString (BiconomyMetaFactory D))])
  ].

Local Close Scope string_scope.

(** [if (!d.p1...pn.k) d.p1...pn.k = {}] *)
Definition ensureObject (d : json) (path : list string) (k : string) : Exn + json :=
  match getPath (Some d) (path ++ [k]) with
  | inl e => inl e
  | inr v => if truthy v then inr d else setPath (Some d) path k (JObject [])
  end.

Definition modulesPath : list string :=
  ["networks"%string; "baseSepolia"%string; "modules"%string].

(** The three guards of [updateDeploymentsJson]. *)
Definition ensureModules (deployments : json) : Exn + json :=
  match ensureObject deployments [] "networks" with
  | inl e => inl e
  | inr d1 =>
      match ensureObject d1 ["networks"%string] "baseSepolia" with
      | inl e => inl e
      | inr d2 => ensureObject d2 ["networks"%string; "baseSepolia"%string] "modules"
      end
  end.

(** [deployments.networks.baseSepolia.modules.bondModule = record] *)
Definition setBondModule (deployments record : json) : Exn + json :=
  setPath (Some deployments) modulesPath "bondModule" record.

(** Guards, then the assignment, then the document that is written. *)
Definition upsert (D : DeployedAddresses) (isoString nexusAccountAddress : string)
    (deployments : json) : Exn + json :=
  match ensureModules deployments with
  | inl e => inl e
  | inr d =>
      match setBondModule d (bondModuleRecord D isoString nexusAccountAddress) with
      | inl e => inl e
      | inr d' => inr (stringified d')
      end
  end.

Definition liftE {A : Type} (r : Exn + A) : Prog A :=
  match r with
  | inl e => Throw e
  | inr a => Ret a
  end.

(** The part of [updateDeploymentsJson] after the document is read. *)
Definition writeDeployments (D : DeployedAddresses) (deploymentsPath : string)
    (deployments : json) (nexusAccountAddress : string) : Prog unit :=
  d <- liftE (ensureModules deployments) ;;
  isoString <- call DateISOString ;;
  d' <- liftE (setBondModule d (bondModuleRecord D isoString nexusAccountAddress)) ;;
  call (WriteJson deploymentsPath (stringified d')).

(** The record a document holds for the module, if any. *)
Definition storedRecord (deployments : json) : option json :=
  match getPath (Some deployments) (modulesPath ++ ["bondModule"%string]) with
  | inr v => v
  | inl _ => None
  end.



(** ** index.ts of unwallet-bond-credit (viem)

    [loadABI] reads the ABIs from build artifacts; they are taken to be the
    ones of contracts/interfaces.sol, and the Multicall3 ABI is the fallback
    the script pushes. *)

Module Index.

Definition DEPLOYED_ADDRESSES : DeployedAddresses := Viem.DEPLOYED_ADDRESSES.

Definition deploymentsPath : string := "deployments.json".

Definition preComputeAccountAddress (owner : Address) : Prog (Address * bytes * bytes) :=
  let tokenAddresses := [VAddress (addressOf (MockToken DEPLOYED_ADDRESSES))] in
  let totalAmounts := [VUint 256 ALLOWANCE_CAP] in
  executorInstallData <-
    lift (encodeAbiParameters [VArray tokenAddresses; VArray totalAmounts]) ;;
  let executors :=
    VArray [VTuple [VAddress (addressOf (BondModule DEPLOYED_ADDRESSES));
                    VBytes executorInstallData]] in
  let registryConfig :=
    VTuple [VAddress (addressOf (MockRegistry DEPLOYED_ADDRESSES));
            VArray [VAddress owner];
            VUint 256 1] in
  initCall <-
    lift (encodeFunctionData
            "initNexusWithDefaultValidatorAndOtherModules(address,address[],(address,bytes)[],(address,bytes),(address,bytes)[],(address,bytes)[],(address,address[],uint256))"
            [VAddress owner;
             VArray [];
             executors;
             VTuple [VAddress 0; VBytes []];
             VArray [];
             VArray [];
             registryConfig]) ;;
  initData <-
    lift (encodeAbiParameters
            [VAddress (addressOf (NexusBootstrap DEPLOYED_ADDRESSES)); VBytes initCall]) ;;
  now <- call DateNow ;;
  let timestamp := now / 1000 in
  let saltInput := ("nexus-bondmodule-hardhat-" ++ decimal timestamp)%string in
  let salt := keccak256 (toBytes saltInput) in
  accountAddress <-
    call (ComputeAccountAddress (addressOf (NexusAccountFactory DEPLOYED_ADDRESSES))
                                initData salt) ;;
  Ret (accountAddress, initData, salt).

Definition mintTokensToAccount (accountAddress : Address) : Prog unit :=
  code <- call (GetCode accountAddress) ;;
  hash <- call (WriteContract (addressOf (MockToken DEPLOYED_ADDRESSES)) "mint"
                  [VAddress accountAddress; VUint 256 INITIAL_TOKEN_BALANCE] None) ;;
  receipt <- call (WaitForTransactionReceipt hash 1) ;;
  call (Sleep 1000) ;;
  balance <- call (BalanceOf (addressOf (MockToken DEPLOYED_ADDRESSES)) accountAddress) ;;
  Ret tt.

Definition executions (accountBalance : Z) : Prog (list Execution.t) :=
  let amountZyFAI := amountZyFAI accountBalance in
  let amountGiza := amountGiza accountBalance in
  let amountCod3x := amountCod3x accountBalance in
  c0 <- lift (encodeFunctionData "approve(address,uint256)"
                [VAddress (addressOf (EscrowZyFAI DEPLOYED_ADDRESSES)); VUint 256 amountZyFAI]) ;;
  c1 <- lift (encodeFunctionData "deposit(uint256)" [VUint 256 amountZyFAI]) ;;
  c2 <- lift (encodeFunctionData "approve(address,uint256)"
                [VAddress (addressOf (EscrowGiza DEPLOYED_ADDRESSES)); VUint 256 amountGiza]) ;;
  c3 <- lift (encodeFunctionData "deposit(uint256)" [VUint 256 amountGiza]) ;;
  c4 <- lift (encodeFunctionData "approve(address,uint256)"
                [VAddress (addressOf (EscrowCod3x DEPLOYED_ADDRESSES)); VUint 256 amountCod3x]) ;;
  c5 <- lift (encodeFunctionData "deposit(uint256)" [VUint 256 amountCod3x]) ;;
  Ret [ {| Execution.target := addressOf (MockToken DEPLOYED_ADDRESSES);
           Execution.value := 0; Execution.callData := c0 |};
        {| Execution.target := addressOf (EscrowZyFAI DEPLOYED_ADDRESSES);
           Execution.value := 0; Execution.callData := c1 |};
        {| Execution.target := addressOf (MockToken DEPLOYED_ADDRESSES);
           Execution.value := 0; Execution.callData := c2 |};
        {| Execution.target := addressOf (EscrowGiza DEPLOYED_ADDRESSES);
           Execution.value := 0; Execution.callData := c3 |};
        {| Execution.target := addressOf (MockToken DEPLOYED_ADDRESSES);
           Execution.value := 0; Execution.callData := c4 |};
        {| Execution.target := addressOf (EscrowCod3x DEPLOYED_ADDRESSES);
           Execution.value := 0; Execution.callData := c5 |} ].

Definition packedData (chainId : Z) (accountAddress token : Address)
    (allowedPercentageBps nonce : Z) (executionBatch : bytes) : option bytes :=
  encodePacked [VUint 256 chainId; VAddress accountAddress; VAddress token;
                VUint 256 allowedPercentageBps; VUint 256 nonce; VBytes executionBatch].

Definition deployAccountAndExecuteDistribution
    (accountAddress : Address) (initData salt : bytes) (owner : Address) : Prog unit :=
  factoryData <-
    lift (encodeFunctionData "createAccount(bytes,bytes32)" [VBytes initData; VBytes32 salt]) ;;
  accountBalance <-
    call (BalanceOf (addressOf (MockToken DEPLOYED_ADDRESSES)) accountAddress) ;;
  executions <- executions accountBalance ;;
  executionBatch <- lift (encodeAbiParameters [VArray (map Execution.to_abi executions)]) ;;
  now <- call DateNow ;;
  let nonce := now / 1000 in
  let allowedPercentageBps := TOTAL_PERCENTAGE in
  chainId <- call GetChainId ;;
  packedData <- lift (packedData chainId accountAddress
                        (addressOf (MockToken DEPLOYED_ADDRESSES))
                        allowedPercentageBps nonce executionBatch) ;;
  let attestationHash := keccak256 packedData in
  let messagePrefix := messagePrefix 32 in
  let ethSignedHash := keccak256 (messagePrefix ++ attestationHash) in
  signature <- signMessage ethSignedHash ;;
  batchExecutionData <-
    lift (encodeFunctionData
            "executeBatchWithAttestation(address,bytes,address,uint256,uint256,bytes)"
            [VAddress accountAddress; VBytes executionBatch;
             VAddress (addressOf (MockToken DEPLOYED_ADDRESSES));
             VUint 256 allowedPercentageBps; VUint 256 nonce; VBytes signature]) ;;
  deployData <-
    lift (encodeFunctionData "deployWithFactory(address,bytes)"
            [VAddress (addressOf (NexusAccountFactory DEPLOYED_ADDRESSES));
             VBytes factoryData]) ;;
  let calls :=
    [ {| Call3.target := addressOf (BiconomyMetaFactory DEPLOYED_ADDRESSES);
         Call3.allowFailure := false;
         Call3.callData := deployData |};
      {| Call3.target := addressOf (BondModule DEPLOYED_ADDRESSES);
         Call3.allowFailure := false;
         Call3.callData := batchExecutionData |} ] in
  hash <- call (WriteContract (addressOf MULTICALL3) "aggregate3"
                  [VArray (map Call3.to_abi calls)] (Some 5000000)) ;;
  receipt <- call (WaitForTransactionReceipt hash 1) ;;
  deployedCode <- call (GetCode accountAddress) ;;
  match deployedCode with
  | [] => Throw (Error "Account deployment failed - no code at address")
  | _ :: _ =>
      isInitialized <-
        call (IsInitialized (addressOf (BondModule DEPLOYED_ADDRESSES)) accountAddress) ;;
      isAgentMode <-
        call (IsAgentModeActivated (addressOf (BondModule DEPLOYED_ADDRESSES)) accountAddress) ;;
      Ret tt
  end.

Definition updateDeploymentsJson (nexusAccountAddress : string) : Prog unit :=
  exists_ <- call (ExistsSync deploymentsPath) ;;
  deployments <- (if exists_ : bool then call (ReadJson deploymentsPath) else Ret (JObject [])) ;;
  writeDeployments DEPLOYED_ADDRESSES deploymentsPath deployments nexusAccountAddress.

Definition main (PRIVATE_KEY : option string) : Prog unit :=
  if unset PRIVATE_KEY then Throw (Error "PRIVATE_KEY environment variable not set")
  else
    owner <- call WalletAddress ;;
    chainId <- call GetChainId ;;
    pre <- preComputeAccountAddress owner ;;
    let '(accountAddress, initData, salt) := pre in
    existingCode <- call (GetCode accountAddress) ;;
    match existingCode with
    | _ :: _ => updateDeploymentsJson (addressText accountAddress)
    | [] =>
        mintTokensToAccount accountAddress ;;
        deployAccountAndExecuteDistribution accountAddress initData salt owner ;;
        updateDeploymentsJson (addressText accountAddress)
    end.

End Index.

(** ** The ethers/hardhat script (scripts/hardhat/deployBondModule.ts)

    The contract objects come from the hardhat project's artifacts.  The
    functions the script encodes have the signatures of
    contracts/interfaces.sol, except the bootstrap call, whose ABI is not part
    of the sources: its encoding is a parameter. *)

Module Hardhat.

Definition DEPLOYED_ADDRESSES : DeployedAddresses := {|
  K1Validator := "0x282605a7ea3892f9a83cf0be621199a6be28ec88";
  MockRegistry := "0x33d9cd23ac7045ab2ccd5f573d6546c2d7e2e6b6";
  NexusBootstrap := "0x646d0a1573b0cc77e0e818b1e828fc6578d224c5";
  NexusImplementation := "0x4ef716f2cd47645b9e37c74a25b8ddcc4b9d3736";
  NexusAccountFactory := "0x8eace774786a98dcb84f7322f43d2108973625e7";
  BiconomyMetaFactory := "0x707c7d8332595014ff814125f10a356685b60a2a";
  BondModule := "0xe0146a494c24775ab07e58107f6e96456ad62dca";
  MockToken := "0x24063f25a4b37047e69bdd029efcba5f298700b7";
  EscrowZyFAI := "0x4064db9a9bab77df20f223e13dac784bb43b4386";
  EscrowGiza := "0x558eaafb72be735e5e6f5a4280e948a6109c26bc";
  EscrowCod3x := "0x1ea3939bcc4c1fce86b14ba6dd893a4796c38f59"
|}.

Definition deploymentsPath : string := "../../deployments.json".

(** [await tx.wait()]: the receipt, or an exception when the transaction reverted. *)
Definition wait (hash : bytes) : Prog Receipt :=
  receipt <- call (WaitForTransactionReceipt hash 1) ;;
  if status receipt then Ret receipt else Throw CallException.

Section Artifacts.

(** [nexusBootstrap.interface.encodeFunctionData("initNexusWithDefaultValidatorAndOtherModules", ...)]
    for an owner and the executor installation data. *)
Variable encodeInitCall : Address -> bytes -> option bytes.

Definition preComputeAccountAddress (owner : Address) : Prog (Address * bytes * bytes) :=
  let tokenAddresses := [VAddress (addressOf (MockToken DEPLOYED_ADDRESSES))] in
  let totalAmounts := [VUint 256 ALLOWANCE_CAP] in
  executorInstallData <-
    lift (encodeAbiParameters [VArray tokenAddresses; VArray totalAmounts]) ;;
  initCall <- lift (encodeInitCall owner executorInstallData) ;;
  initData <-
    lift (encodeAbiParameters
            [VAddress (addressOf (NexusBootstrap DEPLOYED_ADDRESSES)); VBytes initCall]) ;;
  now <- call DateNow ;;
  let timestamp := now / 1000 in
  let salt := keccak256 (toBytes ("nexus-bondmodule-hardhat-" ++ decimal timestamp)) in
  accountAddress <-
    call (ComputeAccountAddress (addressOf (NexusAccountFactory DEPLOYED_ADDRESSES))
                                initData salt) ;;
  Ret (accountAddress, initData, salt).

Definition mintTokensToAccount (accountAddress : Address) : Prog unit :=
  code <- call (GetCode accountAddress) ;;
  tx <- call (WriteContract (addressOf (MockToken DEPLOYED_ADDRESSES)) "mint"
                [VAddress accountAddress; VUint 256 INITIAL_TOKEN_BALANCE] None) ;;
  wait tx ;;
  balance <- call (BalanceOf (addressOf (MockToken DEPLOYED_ADDRESSES)) accountAddress) ;;
  Ret tt.

Definition executions (accountBalance : Z) : Prog (list Execution.t) :=
  let amountZyFAI := amountZyFAI accountBalance in
  let amountGiza := amountGiza accountBalance in
  let amountCod3x := amountCod3x accountBalance in
  c0 <- lift (encodeFunctionData "approve(address,uint256)"
                [VAddress (addressOf (EscrowZyFAI DEPLOYED_ADDRESSES)); VUint 256 amountZyFAI]) ;;
  c1 <- lift (encodeFunctionData "deposit(uint256)" [VUint 256 amountZyFAI]) ;;
  c2 <- lift (encodeFunctionData "approve(address,uint256)"
                [VAddress (addressOf (EscrowGiza DEPLOYED_ADDRESSES)); VUint 256 amountGiza]) ;;
  c3 <- lift (encodeFunctionData "deposit(uint256)" [VUint 256 amountGiza]) ;;
  c4 <- lift (encodeFunctionData "approve(address,uint256)"
                [VAddress (addressOf (EscrowCod3x DEPLOYED_ADDRESSES)); VUint 256 amountCod3x]) ;;
  c5 <- lift (encodeFunctionData "deposit(uint256)" [VUint 256 amountCod3x]) ;;
  Ret [ {| Execution.target := addressOf (MockToken DEPLOYED_ADDRESSES);
           Execution.value := 0; Execution.callData := c0 |};
        {| Execution.target := addressOf (EscrowZyFAI DEPLOYED_ADDRESSES);
           Execution.value := 0; Execution.callData := c1 |};
        {| Execution.target := addressOf (MockToken DEPLOYED_ADDRESSES);
           Execution.value := 0; Execution.callData := c2 |};
        {| Execution.target := addressOf (EscrowGiza DEPLOYED_ADDRESSES);
           Execution.value := 0; Execution.callData := c3 |};
        {| Execution.target := addressOf (MockToken DEPLOYED_ADDRESSES);
           Execution.value := 0; Execution.callData := c4 |};
        {| Execution.target := addressOf (EscrowCod3x DEPLOYED_ADDRESSES);
           Execution.value := 0; Execution.callData := c5 |} ].

(** The bytes [solidityPackedKeccak256] hashes. *)
Definition solidityPacked (chainId : Z) (accountAddress token : Address)
    (allowedPercentageBps nonce : Z) (executionBatch : bytes) : option bytes :=
  encodePacked [VUint 256 chainId; VAddress accountAddress; VAddress token;
                VUint 256 allowedPercentageBps; VUint 256 nonce; VBytes executionBatch].

Definition deployAccountAndExecuteDistribution
    (accountAddress : Address) (initData salt : bytes) (owner : Address) : Prog unit :=
  factoryData <-
    lift (encodeFunctionData "createAccount(bytes,bytes32)" [VBytes initData; VBytes32 salt]) ;;
  accountBalance <-
    call (BalanceOf (addressOf (MockToken DEPLOYED_ADDRESSES)) accountAddress) ;;
  executions <- executions accountBalance ;;
  executionBatch <- lift (encodeAbiParameters [VArray (map Execution.to_abi executions)]) ;;
  now <- call DateNow ;;
  let nonce := now / 1000 in
  let allowedPercentageBps := TOTAL_PERCENTAGE in
  chainId <- call GetChainId ;;
  packed <- lift (solidityPacked chainId accountAddress
                    (addressOf (MockToken DEPLOYED_ADDRESSES))
                    allowedPercentageBps nonce executionBatch) ;;
  let attestationHash := keccak256 packed in
  let ethSignedHash := keccak256 (messagePrefix 32 ++ attestationHash) in
  signature <- call (EcdsaSign ethSignedHash) ;;
  batchExecutionData <-
    lift (encodeFunctionData
            "executeBatchWithAttestation(address,bytes,address,uint256,uint256,bytes)"
            [VAddress accountAddress; VBytes executionBatch;
             VAddress (addressOf (MockToken DEPLOYED_ADDRESSES));
             VUint 256 allowedPercentageBps; VUint 256 nonce; VBytes signature]) ;;
  deployData <-
    lift (encodeFunctionData "deployWithFactory(address,bytes)"
            [VAddress (addressOf (NexusAccountFactory DEPLOYED_ADDRESSES));
             VBytes factoryData]) ;;
  let calls :=
    [ {| Call3.target := addressOf (BiconomyMetaFactory DEPLOYED_ADDRESSES);
         Call3.allowFailure := false;
         Call3.callData := deployData |};
      {| Call3.target := addressOf (BondModule DEPLOYED_ADDRESSES);
         Call3.allowFailure := false;
         Call3.callData := batchExecutionData |} ] in
  tx <- call (WriteContract (addressOf MULTICALL3) "aggregate3"
                [VArray (map Call3.to_abi calls)] (Some 5000000)) ;;
  receipt <- wait tx ;;
  deployedCode <- call (GetCode accountAddress) ;;
  match deployedCode with
  | [] => Throw (Error "Account deployment failed - no code at address")
  | _ :: _ =>
      isInitialized <-
        call (IsInitialized (addressOf (BondModule DEPLOYED_ADDRESSES)) accountAddress) ;;
      isAgentMode <-
        call (IsAgentModeActivated (addressOf (BondModule DEPLOYED_ADDRESSES)) accountAddress) ;;
      Ret tt
  end.

Definition updateDeploymentsJson (nexusAccountAddress : string) : Prog unit :=
  deployments <- call (ReadJson deploymentsPath) ;;
  writeDeployments DEPLOYED_ADDRESSES deploymentsPath deployments nexusAccountAddress.

Definition main (PRIVATE_KEY : option string) : Prog unit :=
  if unset PRIVATE_KEY then Throw (Error "PRIVATE_KEY environment variable not set")
  else
    owner <- call WalletAddress ;;
    teeServer <- call WalletAddress ;;
    chainId <- call GetChainId ;;
    pre <- preComputeAccountAddress owner ;;
    let '(accountAddress, initData, salt) := pre in
    existingCode <- call (GetCode accountAddress) ;;
    match existingCode with
    | _ :: _ => updateDeploymentsJson (addressText accountAddress)
    | [] =>
        mintTokensToAccount accountAddress ;;
        deployAccountAndExecuteDistribution accountAddress initData salt owner ;;
        updateDeploymentsJson (addressText accountAddress)
    end.

End Artifacts.

End Hardhat.

(** ** The plan and the batch, in the words of the specification *)

(** Target vault and share in basis points, in plan order. *)
Definition AllocationPlan : Type := list (Address * Z).

(** The plan the scripts hard-code. *)
Definition allocationPlan (D : DeployedAddresses) : AllocationPlan :=
  [ (addressOf (EscrowZyFAI D), ALLOCATION_ZYFAI);
    (addressOf (EscrowGiza D), ALLOCATION_GIZA);
    (addressOf (EscrowCod3x D), ALLOCATION_COD3X) ].

(** floor(balance * share / 10000) *)
Definition floorShare (balance share : Z) : Z := (balance * share) / 10000.

(** approve(vault, amount) on the token. *)
Definition approveSubCall (token vault : Address) (amount : Z) : Execution.t :=
  {| Execution.target := token;
     Execution.value := 0;
     Execution.callData := selector "approve(address,uint256)" ++ pad32 vault ++ pad32 amount |}.

(** deposit(amount) on the vault. *)
Definition depositSubCall (vault : Address) (amount : Z) : Execution.t :=
  {| Execution.target := vault;
     Execution.value := 0;
     Execution.callData := selector "deposit(uint256)" ++ pad32 amount |}.

(** For every entry, in plan order: the approval, then the deposit. *)
Definition planBatch (token : Address) (plan : AllocationPlan) (balance : Z)
  : list Execution.t :=
  flat_map (fun e : Address * Z =>
              [approveSubCall token (fst e) (floorShare balance (snd e));
               depositSubCall (fst e) (floorShare balance (snd e))])
           plan.

(** createAccount(initData, salt), deployed through the meta factory. *)
Definition deploySubCall (D : DeployedAddresses) (initData salt : bytes) : option Call3.t :=
  match encodeFunctionData "createAccount(bytes,bytes32)" [VBytes initData; VBytes32 salt] with
  | Some factoryData =>
      match encodeFunctionData "deployWithFactory(address,bytes)"
              [VAddress (addressOf (NexusAccountFactory D)); VBytes factoryData] with
      | Some data =>
          Some {| Call3.target := addressOf (BiconomyMetaFactory D);
                  Call3.allowFailure := false;
                  Call3.callData := data |}
      | None => None
      end
  | None => None
  end.

(** executeBatchWithAttestation(account, batch, token, capBps, nonce, signature)
    on the verifier module. *)
Definition attestedSubCall (D : DeployedAddresses) (account : Address) (batch : bytes)
    (token : Address) (capBps nonce : Z) (signature : bytes) : option Call3.t :=
  match encodeFunctionData
          "executeBatchWithAttestation(address,bytes,address,uint256,uint256,bytes)"
          [VAddress account; VBytes batch; VAddress token;
           VUint 256 capBps; VUint 256 nonce; VBytes signature] with
  | Some data =>
      Some {| Call3.target := addressOf (BondModule D);
              Call3.allowFailure := false;
              Call3.callData := data |}
  | None => None
  end.

(** The one multi-call transaction: the two sub-calls, in this order. *)
Definition atomicSubmission (first second : Call3.t) : Address * string * list abi_val :=
  (addressOf MULTICALL3, "aggregate3"%string,
   [VArray [Call3.to_abi first; Call3.to_abi second]]).

(** The digest binding (chain, account, token, cap, nonce, batch). *)
Definition attestationDigest (chainId : Z) (account token : Address) (capBps nonce : Z)
    (batch : bytes) : option bytes :=
  option_map keccak256
    (encodePacked [VUint 256 chainId; VAddress account; VAddress token;
                   VUint 256 capBps; VUint 256 nonce; VBytes batch]).

(** The digest under the personal-message prefix, once. *)
Definition personalDigest (digest : bytes) : bytes :=
  keccak256 (messagePrefix 32 ++ digest).

(** ** What a run shows *)

(** The answers to [getCode] in a trace. *)
Definition codeAnswer (st : Step) : list bytes :=
  match st with
  | @step R ev answer =>
      match ev in Event R return option R -> list bytes with
      | GetCode _ => fun answer => match answer with Some c => [c] | None => [] end
      | _ => fun _ => []
      end answer
  end.

(** The code found by the first [getCode] of a run: the existing-code check
    of [main]. *)
Definition existingCode (tr : list Step) : option bytes :=
  hd_error (flat_map codeAnswer tr).

(** The answers to [balanceOf] in a trace. *)
Definition balanceAnswer (st : Step) : list Z :=
  match st with
  | @step R ev answer =>
      match ev in Event R return option R -> list Z with
      | BalanceOf _ _ => fun answer => match answer with Some b => [b] | None => [] end
      | _ => fun _ => []
      end answer
  end.

Definition balanceReads (tr : list Step) : list Z := flat_map balanceAnswer tr.

(** The documents written to the ledger file in a trace. *)
Definition written (st : Step) : list (string * json) :=
  match st with
  | step (WriteJson path d) _ => [(path, d)]
  | step _ _ => []
  end.

Definition ledgerWrites (tr : list Step) : list (string * json) := flat_map written tr.

(** The pauses of a trace. *)
Definition slept (st : Step) : list Z :=
  match st with
  | step (Sleep ms) _ => [ms]
  | step _ _ => []
  end.

Definition sleeps (tr : list Step) : list Z := flat_map slept tr.

Definition prefixed {S A : Type} (st : Step) (x : list Step * Outcome A * S)
  : list Step * Outcome A * S :=
  (st :: trace_of x, outcome_of x, state_of x).

(** What a run of the executor shows: nothing; or a digest handed to the
    key, [wrap] being what the script does to the attestation digest before
    the key signs it; or that and the one transaction carrying the signature. *)
Definition DeployShape (D : DeployedAddresses) (wrap : bytes -> bytes)
    (account : Address) (initData salt : bytes)
    (S : list (bytes * option bytes)) (T : list (Address * string * list abi_val))
    (o : Outcome unit) : Prop :=
  (S = [] /\ T = [] /\ o <> Returned tt)
  \/ exists chainId nonce batch digest,
       attestationDigest chainId account (addressOf (MockToken D)) TOTAL_PERCENTAGE nonce batch
         = Some digest
       /\ ((S = [(wrap digest, None)] /\ T = [] /\ o <> Returned tt)
           \/ exists signature,
                S = [(wrap digest, Some signature)]
                /\ ((T = [] /\ o <> Returned tt)
                    \/ exists first second,
                         deploySubCall D initData salt = Some first
                         /\ attestedSubCall D account batch (addressOf (MockToken D))
                              TOTAL_PERCENTAGE nonce signature = Some second
                         /\ T = [atomicSubmission first second])).

(** ** A scripted environment *)

Record Sim : Type := {
  sim_code : bytes;            (* the code at the pre-computed address *)
  sim_balances : list Z;       (* the next answers of balanceOf; the last one stays *)
  sim_now : Z;                 (* Date.now() *)
  sim_iso : string;            (* new Date().toISOString() *)
  sim_chain : Z;
  sim_owner : Address;
  sim_account : Address;       (* what computeAccountAddress answers *)
  sim_file : option json       (* deployments.json *)
}.

Definition with_code (s : Sim) (c : bytes) : Sim :=
  {| sim_code := c; sim_balances := sim_balances s; sim_now := sim_now s;
     sim_iso := sim_iso s; sim_chain := sim_chain s; sim_owner := sim_owner s;
     sim_account := sim_account s; sim_file := sim_file s |}.

Definition with_balances (s : Sim) (bs : list Z) : Sim :=
  {| sim_code := sim_code s; sim_balances := bs; sim_now := sim_now s;
     sim_iso := sim_iso s; sim_chain := sim_chain s; sim_owner := sim_owner s;
     sim_account := sim_account s; sim_file := sim_file s |}.

Definition with_file (s : Sim) (d : json) : Sim :=
  {| sim_code := sim_code s; sim_balances := sim_balances s; sim_now := sim_now s;
     sim_iso := sim_iso s; sim_chain := sim_chain s; sim_owner := sim_owner s;
     sim_account := sim_account s; sim_file := Some d |}.

(** Every call is answered; a multi-call transaction deploys the account; the
    signature is a stand-in of 65 bytes. *)
Definition simulate : Handler Sim :=
  fun R ev s =>
    match ev in Event R return option R * Sim with
    | GetCode _ => (Some (sim_code s), s)
    | GetChainId => (Some (sim_chain s), s)
    | ComputeAccountAddress _ _ _ => (Some (sim_account s), s)
    | BalanceOf _ _ =>
        match sim_balances s with
        | [] => (Some 0, s)
        | [b] => (Some b, s)
        | b :: r => (Some b, with_balances s r)
        end
    | IsInitialized _ _ => (Some true, s)
    | IsAgentModeActivated _ _ => (Some true, s)
    | WriteContract _ f _ _ =>
        (Some (repeat 0xab 32),
         if String.eqb f "aggregate3" then with_code s [0x60; 0x80] else s)
    | WaitForTransactionReceipt hash _ =>
        (Some {| status := true; transactionHash := hash; gasUsed := 21000 |}, s)
    | Sleep _ => (Some tt, s)
    | DateNow => (Some (sim_now s), s)
    | DateISOString => (Some (sim_iso s), s)
    | WalletAddress => (Some (sim_owner s), s)
    | EcdsaSign d => (Some (d ++ d ++ [27]), s)
    | ExistsSync _ => (Some (match sim_file s with Some _ => true | None => false end), s)
    | ReadJson _ => (sim_file s, s)
    | WriteJson _ d => (Some tt, with_file s d)
    end.

(** A funded, not yet deployed account on Base Sepolia, and no ledger file. *)
Definition sim0 : Sim :=
  {| sim_code := [];
     sim_balances := [10000000000];
     sim_now := 1762000000123;
     sim_iso := "2025-11-01T12:26:40.123Z";
     sim_chain := 84532;
     sim_owner := 0x1111111111111111111111111111111111111111;
     sim_account := 0x2222222222222222222222222222222222222222;
     sim_file := None |}.

(** ** The ledger claims, as stated *)






(** What is hashed into the digest handed to the key is what the second
    sub-call carries. *)
Definition AttestationBinds (D : DeployedAddresses) (wrap : bytes -> bytes)
    (account : Address) (S : list (bytes * option bytes))
    (T : list (Address * string * list abi_val)) (o : Outcome unit) : Prop :=
  (T = [] /\ o <> Returned tt)
  \/ exists chainId nonce batch digest signature first second,
       attestationDigest chainId account (addressOf (MockToken D))
         TOTAL_PERCENTAGE nonce batch = Some digest
       /\ S = [(wrap digest, Some signature)]
       /\ attestedSubCall D account batch (addressOf (MockToken D))
            TOTAL_PERCENTAGE nonce signature = Some second
       /\ T = [atomicSubmission first second].



(** A ledger that holds a record written on an earlier day. *)
Definition ledgerOf (D : DeployedAddresses) (isoString account : string) : json :=
  JObject [("networks"%string,
            JObject [("baseSepolia"%string,
                      JObject [("modules"%string,
                                JObject [("bondModule"%string,
                                          bondModuleRecord D isoString account)])])])].


(** mint(account, INITIAL_TOKEN_BALANCE) on the token. *)
Definition mintSubmission (D : DeployedAddresses) (account : Address)
  : Address * string * list abi_val :=
  (addressOf (MockToken D), "mint"%string,
   [VAddress account; VUint 256 INITIAL_TOKEN_BALANCE]).


(** ** Documents as they are read from the file *)

Definition parsed (d : json) : Prop := stringified d = d.

Definition parsed_fields (fs : list (string * json)) : Prop :=
  map (fun kv : string * json => (fst kv, stringified (snd kv))) fs = fs.



(** * Further definitions *)

(** ** More observations of a run *)

(** The questions put to the account factory, with its answers. *)
Definition computed (st : Step) : list (Address * bytes * bytes * option Address) :=
  match st with
  | @step R ev answer =>
      match ev in Event R return option R -> list (Address * bytes * bytes * option Address) with
      | ComputeAccountAddress factory initData salt =>
          fun answer => [(factory, initData, salt, answer)]
      | _ => fun _ => []
      end answer
  end.

Definition factoryQueries (tr : list Step)
  : list (Address * bytes * bytes * option Address) := flat_map computed tr.

(** The answers of the clock. *)
Definition clockAnswer (st : Step) : list Z :=
  match st with
  | @step R ev answer =>
      match ev in Event R return option R -> list Z with
      | DateNow => fun answer => match answer with Some t => [t] | None => [] end
      | _ => fun _ => []
      end answer
  end.

Definition clockReads (tr : list Step) : list Z := flat_map clockAnswer tr.

(** The status of the receipts a run waited for. *)
Definition receiptStatus (st : Step) : list bool :=
  match st with
  | @step R ev answer =>
      match ev in Event R return option R -> list bool with
      | WaitForTransactionReceipt _ _ =>
          fun answer => match answer with Some r => [status r] | None => [] end
      | _ => fun _ => []
      end answer
  end.

Definition receipts (tr : list Step) : list bool := flat_map receiptStatus tr.

(** Every answer to [getCode], in order. *)
Definition codeReads (tr : list Step) : list bytes := flat_map codeAnswer tr.

(** The files probed with [existsSync], with the answers. *)
Definition probed (st : Step) : list (string * option bool) :=
  match st with
  | @step R ev answer =>
      match ev in Event R return option R -> list (string * option bool) with
      | ExistsSync path => fun answer => [(path, answer)]
      | _ => fun _ => []
      end answer
  end.

Definition probes (tr : list Step) : list (string * option bool) := flat_map probed tr.

(** The probe found the file. *)
Definition found (p : string * option bool) : bool :=
  match snd p with
  | Some true => true
  | _ => false
  end.

(** The files read, with what was read. *)
Definition readFile (st : Step) : list (string * option json) :=
  match st with
  | @step R ev answer =>
      match ev in Event R return option R -> list (string * option json) with
      | ReadJson path => fun answer => [(path, answer)]
      | _ => fun _ => []
      end answer
  end.

Definition fileReads (tr : list Step) : list (string * option json) := flat_map readFile tr.

(** ** The ABI loader of index.ts *)

Module Contract.

Record t : Type := { address : string; abi : json }.

End Contract.

Record DeployedContracts : Type := {
  k1Validator : Contract.t;
  mockRegistry : Contract.t;
  nexusBootstrap : Contract.t;
  nexusAccountFactory : Contract.t;
  biconomyMetaFactory : Contract.t;
  bondModule : Contract.t;
  mockToken : Contract.t
}.

Definition artifactPaths (contractName : string) : list string :=
  [ ("artifacts/contracts/modules/validators/" ++ contractName ++ ".sol/" ++ contractName ++ ".json")%string;
    ("artifacts/contracts/modules/executors/" ++ contractName ++ ".sol/" ++ contractName ++ ".json")%string;
    ("artifacts/contracts/mocks/" ++ contractName ++ ".sol/" ++ contractName ++ ".json")%string;
    ("artifacts/contracts/utils/" ++ contractName ++ ".sol/" ++ contractName ++ ".json")%string;
    ("artifacts/contracts/factory/" ++ contractName ++ ".sol/" ++ contractName ++ ".json")%string;
    ("artifacts/contracts/interfaces.sol/I" ++ contractName ++ ".json")%string ].

Section Coercion.

(** [v > 0] for the value [v] of an own [length] property of a plain object:
    the number coercion of JavaScript, which is not modelled. *)
Variable positive : json -> bool.

(** [abi && abi.length > 0] *)
Definition nonEmptyAbi (abi : option json) : bool :=
  truthy abi &&
  match abi with
  | Some (JArray es _) => negb (Nat.eqb (length es) 0)
  | Some (JString s) => negb (Nat.eqb (String.length s) 0)
  | Some (JObject fs) =>
      match lookup "length" fs with
      | Some v => positive v
      | None => false
      end
  | _ => false
  end.

(** The loop over the candidate paths. *)
Fixpoint loadFrom (paths : list string) : Prog json :=
  match paths with
  | [] => Ret (JArray [] [])
  | fullPath :: rest =>
      found <- call (ExistsSync fullPath) ;;
      if found : bool then
        artifact <- call (ReadJson fullPath) ;;
        abi <- liftE (getProp (Some artifact) "abi") ;;
        if nonEmptyAbi abi
        then match abi with Some a => Ret a | None => loadFrom rest end
        else loadFrom rest
      else loadFrom rest
  end.

Definition loadABI (contractName : string) : Prog json :=
  loadFrom (artifactPaths contractName).

(** The ABI an artifact offers: its [abi] property, when that is not empty. *)
Definition abiOf (artifact : json) : list json :=
  match getProp (Some artifact) "abi" with
  | inr (Some a) => if nonEmptyAbi (Some a) then [a] else []
  | _ => []
  end.

(** The ABIs offered by the artifacts read in a trace. *)
Definition offered (tr : list Step) : list json :=
  flat_map (fun r : string * option json =>
              match snd r with
              | Some artifact => abiOf artifact
              | None => []
              end)
           (fileReads tr).

(** [connectToDeployedContracts] of index.ts: each contract is its address
    and the ABI the loader finds for its name. *)
Definition connectToDeployedContracts : Prog DeployedContracts :=
  let D := Index.DEPLOYED_ADDRESSES in
  a1 <- loadABI "K1Validator" ;;
  a2 <- loadABI "MockRegistry" ;;
  a3 <- loadABI "NexusBootstrap" ;;
  a4 <- loadABI "NexusAccountFactory" ;;
  a5 <- loadABI "BiconomyMetaFactory" ;;
  a6 <- loadABI "BondModule" ;;
  a7 <- loadABI "MockToken" ;;
  Ret {| k1Validator := {| Contract.address := K1Validator D; Contract.abi := a1 |};
         mockRegistry := {| Contract.address := MockRegistry D; Contract.abi := a2 |};
         nexusBootstrap := {| Contract.address := NexusBootstrap D; Contract.abi := a3 |};
         nexusAccountFactory :=
           {| Contract.address := NexusAccountFactory D; Contract.abi := a4 |};
         biconomyMetaFactory :=
           {| Contract.address := BiconomyMetaFactory D; Contract.abi := a5 |};
         bondModule := {| Contract.address := BondModule D; Contract.abi := a6 |};
         mockToken := {| Contract.address := MockToken D; Contract.abi := a7 |} |}.

End Coercion.

(** The names [connectToDeployedContracts] loads, in its order. *)
Definition contractNames : list string :=
  [ "K1Validator"%string; "MockRegistry"%string; "NexusBootstrap"%string;
    "NexusAccountFactory"%string; "BiconomyMetaFactory"%string; "BondModule"%string;
    "MockToken"%string ].

(** The contracts with the empty ABI the loader falls back to. *)
Definition withoutAbis (D : DeployedAddresses) : DeployedContracts :=
  let bare a := {| Contract.address := a; Contract.abi := JArray [] [] |} in
  {| k1Validator := bare (K1Validator D);
     mockRegistry := bare (MockRegistry D);
     nexusBootstrap := bare (NexusBootstrap D);
     nexusAccountFactory := bare (NexusAccountFactory D);
     biconomyMetaFactory := bare (BiconomyMetaFactory D);
     bondModule := bare (BondModule D);
     mockToken := bare (MockToken D) |}.

(** No probe of the trace found a file. *)
Definition nothingFound (tr : list Step) : bool :=
  forallb (fun p : string * option bool =>
             match snd p with
             | Some false => true
             | _ => false
             end)
          (probes tr).

(** ** Shapes of ledger values *)

(** A value that [!v] takes for present and that has no properties to set:
    [true], a non-zero number, a non-empty string. *)
Definition truthyPrimitive (v : json) : bool :=
  match v with
  | JBool b => b
  | JNumber n => negb (n =? 0)
  | JString s => negb (String.eqb s "")
  | _ => false
  end.

(** A value the guards replace by an empty object: [null], [false], [0], [""]. *)
Definition falsyValue (v : json) : bool :=
  match v with
  | JNull => true
  | JBool b => negb b
  | JNumber n => n =? 0
  | JString s => String.eqb s ""
  | _ => false
  end.



(** The slots the guards of [updateDeploymentsJson] test. *)
Definition guardedSlots : list (list string) :=
  [ ["networks"%string];
    ["networks"%string; "baseSepolia"%string];
    modulesPath ].


(** The answers of the module's status checks. *)
Definition moduleAnswer (st : Step) : list bool :=
  match st with
  | @step R ev answer =>
      match ev in Event R return option R -> list bool with
      | IsInitialized _ _ => fun answer => match answer with Some b => [b] | None => [] end
      | IsAgentModeActivated _ _ =>
          fun answer => match answer with Some b => [b] | None => [] end
      | _ => fun _ => []
      end answer
  end.

Definition moduleChecks (tr : list Step) : list bool := flat_map moduleAnswer tr.

(** ** Kinds of requests *)

(** The request reads or writes a file. *)
Definition fileAccess (R : Type) (ev : Event R) : bool :=
  match ev with
  | ExistsSync _ | ReadJson _ | WriteJson _ _ => true
  | _ => false
  end.

(** The request stays on the machine: a file, or the local date. *)
Definition localOnly (R : Type) (ev : Event R) : bool :=
  match ev with
  | ExistsSync _ | ReadJson _ | WriteJson _ _ | DateISOString => true
  | _ => false
  end.

(** The request reads: the clock, or the answer of the account factory. *)
Definition clockOrFactory (R : Type) (ev : Event R) : bool :=
  match ev with
  | DateNow | ComputeAccountAddress _ _ _ => true
  | _ => false
  end.

Definition offFile (R : Type) (ev : Event R) : bool := negb (fileAccess R ev).

(** Every request a program can make is of kind [P]. *)
Inductive Emits {A : Type} (P : forall R : Type, Event R -> bool) : Prog A -> Prop :=
| emits_ret (a : A) : Emits P (Ret a)
| emits_throw (e : Exn) : Emits P (Throw e)
| emits_vis (R : Type) (ev : Event R) (k : R -> Prog A) :
    P R ev = true -> (forall r, Emits P (k r)) -> Emits P (Vis ev k).

(** Every request of a trace is of kind [P]. *)
Definition within (P : forall R : Type, Event R -> bool) (tr : list Step) : bool :=
  forallb (fun st => match st with @step R ev _ => P R ev end) tr.

(** Whatever the environment answers, the requests of [p] are of kind [P]. *)
Definition Confined {A : Type} (P : forall R : Type, Event R -> bool) (p : Prog A) : Prop :=
  forall (S : Type) (h : Handler S) (s : S), within P (trace_of (run h p s)) = true.

(** ** What the address pre-computation shows *)

(** One question to the clock, one to the factory, about the data returned;
    the salt is the hash of the prefix followed by the clock's second. *)
Definition PreComputed (D : DeployedAddresses) (saltPrefix : string)
    (tr : list Step) (o : Outcome (Address * bytes * bytes)) : Prop :=
  forall account initData salt,
    o = Returned (account, initData, salt) ->
    exists now,
      clockReads tr = [now]
      /\ salt = keccak256 (toBytes (saltPrefix ++ decimal (now / 1000)))
      /\ length salt = 32%nat
      /\ factoryQueries tr
         = [(addressOf (NexusAccountFactory D), initData, salt, Some account)].

(** ** When the ledger is written *)

(** What a run that wrote the ledger has done before: it found code at the
    start and submitted nothing; or it found none, submitted two
    transactions, and then found code and got the module's two answers.
    With [checked], both receipts reported success. *)
Definition WroteLedgerAfter (checked : bool) (tr : list Step) : Prop :=
  ledgerWrites tr = []
  \/ (exists c cs, codeReads tr = [c :: cs] /\ transactions tr = [])
  \/ (exists c0 c cs,
        codeReads tr = [[]; c0; c :: cs]
        /\ length (transactions tr) = 2%nat
        /\ length (moduleChecks tr) = 2%nat
        /\ (if checked then receipts tr = [true; true] else True)).

(** A program that, where no probe finds a file, returns [a] after probing
    [paths] and reading nothing. *)
Definition FallsBack {S A} (h : Handler S) (p : Prog A) (a : A) (paths : list string) : Prop :=
  forall s,
    nothingFound (trace_of (run h p s)) = true ->
    outcome_of (run h p s) = Returned a
    /\ fileReads (trace_of (run h p s)) = []
    /\ map fst (probes (trace_of (run h p s))) = paths.


(** ** How transactions are sent and awaited *)

(** The stand-alone viem script: no gas limit is set, and every receipt is
    awaited with two confirmations. *)
Definition viemPolicy (R : Type) (ev : Event R) : bool :=
  match ev with
  | WriteContract _ _ _ gas => match gas with None => true | Some _ => false end
  | WaitForTransactionReceipt _ confirmations => confirmations =? 2
  | _ => true
  end.

(** index.ts and the hardhat script: the multi-call is sent with a gas limit
    of 5000000, the mint with none, and every receipt is awaited with the
    default of one confirmation. *)
Definition indexPolicy (R : Type) (ev : Event R) : bool :=
  match ev with
  | WriteContract _ functionName _ gas =>
      match gas with
      | None => negb (String.eqb functionName "aggregate3")
      | Some g => String.eqb functionName "aggregate3" && (g =? 5000000)
      end
  | WaitForTransactionReceipt _ confirmations => confirmations =? 1
  | _ => true
  end.

(** ** What is left in the account *)

(** The part of the balance the three deposits do not move. *)
Definition undistributed (accountBalance : Z) : Z :=
  accountBalance
  - (amountZyFAI accountBalance + amountGiza accountBalance + amountCod3x accountBalance).

(** ** What a successful run has done *)

(** The request looks neither at the code of an account, nor at the module,
    nor at a file. *)
Definition unchecked (R : Type) (ev : Event R) : bool :=
  match ev with
  | GetCode _ | IsInitialized _ _ | IsAgentModeActivated _ _
  | ExistsSync _ | ReadJson _ | WriteJson _ _ => false
  | _ => true
  end.

(** The request reads a balance or pauses. *)
Definition polling (R : Type) (ev : Event R) : bool :=
  match ev with
  | BalanceOf _ _ | Sleep _ => true
  | _ => false
  end.

(** The run found code at the account and submitted and signed nothing; or
    it found none, submitted two transactions, and the receipt of the second
    reported success. *)
Definition ViemSucceeded (tr : list Step) : Prop :=
  (exists c cs, codeReads tr = [c :: cs] /\ transactions tr = [] /\ signedDigests tr = [])
  \/ (codeReads tr = [[]]
      /\ length (transactions tr) = 2%nat
      /\ exists minted, receipts tr = [minted; true]).

(** * Properties *)

(** ** The encoders on known values *)

Example keccak256_empty :
  be_word (keccak256 []) =
  0xc5d2460186f7233c927e7db2dcc703c0e500b653ca82273b7bfad8045d85a470.
Proof. vm_compute. reflexivity. Qed.

Example keccak256_fox :
  be_word (keccak256 (toBytes "The quick brown fox jumps over the lazy dog")) =
  0x4d741b6f1eb29cb2a9b9911c82f56fa8d73b04959d3d9d222895df6c0b28aa15.
Proof. vm_compute. reflexivity. Qed.

Example selector_approve : selector "approve(address,uint256)" = [0x09; 0x5e; 0xa7; 0xb3].
Proof. vm_compute. reflexivity. Qed.

Example selector_deposit : selector "deposit(uint256)" = [0xb6; 0xb5; 0x5f; 0x25].
Proof. vm_compute. reflexivity. Qed.

Example enc_dynamic_example :
  encodeAbiParameters [VUint 256 1; VBytes [0xAA; 0xBB]; VArray [VUint 256 7]] =
  Some (pad32 1 ++ pad32 96 ++ pad32 160
        ++ pad32 2 ++ [0xAA; 0xBB] ++ repeat 0 30
        ++ pad32 1 ++ pad32 7).
Proof. vm_compute. reflexivity. Qed.

Example addressText_checksum :
  addressText (addressOf "0xcA11bde05977b3631167028862bE2a173976CA11") =
  "0xcA11bde05977b3631167028862bE2a173976CA11"%string.
Proof. vm_compute. reflexivity. Qed.

(** ** Fixed-width big-endian fields *)






Lemma Some_inj {A} (x y : A) : Some x = Some y -> x = y.
Proof. congruence. Qed.

Lemma in_uint_spec bits n : in_uint bits n = true <-> 0 <= n < 2 ^ bits.
Proof. unfold in_uint. rewrite andb_true_iff, Z.leb_le, Z.ltb_lt. tauto. Qed.



(** ** Amounts and the batch *)

Lemma quot_floor b s : 0 <= b -> 0 <= s -> (b * s) ÷ TOTAL_PERCENTAGE = floorShare b s.
Proof.
  intros Hb Hs. unfold floorShare, TOTAL_PERCENTAGE.
  apply Z.quot_div_nonneg; nia.
Qed.

Lemma floorShare_bounds b s :
  10000 * floorShare b s <= b * s < 10000 * floorShare b s + 10000.
Proof.
  unfold floorShare.
  pose proof (Z.div_mod (b * s) 10000 ltac:(lia)).
  pose proof (Z.mod_pos_bound (b * s) 10000 ltac:(lia)). lia.
Qed.

Lemma planAmounts_floor b shares :
  0 <= b -> Forall (fun s => 0 <= s) shares ->
  planAmounts b shares = map (floorShare b) shares.
Proof.
  intros Hb H. unfold planAmounts. apply map_ext_in.
  intros s Hin. rewrite Forall_forall in H. apply quot_floor; auto.
Qed.

Lemma floor_sum_bounds b shares :
  10000 * sumZ (map (floorShare b) shares) <= b * sumZ shares
  /\ b * sumZ shares - 10000 * sumZ (map (floorShare b) shares)
     <= 9999 * Z.of_nat (length shares).
Proof.
  induction shares as [|s r [IH1 IH2]].
  - simpl. lia.
  - cbn [map sumZ fold_right length]. fold (sumZ r). fold (sumZ (map (floorShare b) r)).
    rewrite Nat2Z.inj_succ, Z.mul_add_distr_l.
    pose proof (floorShare_bounds b s). lia.
Qed.

(** C3. For a balance B >= 0 and shares (basis points, none negative) that sum
    to 10000, every amount the formula of the scripts gives is
    floor(B * share / 10000), the amounts sum to at most B, and B minus their
    sum is less than the number of shares: nothing of the remainder goes to
    any amount.  The three amounts of the scripts are this formula at the
    shares 3000, 3000, 4000. *)
Theorem amounts_floor_sum_shortfall (accountBalance : Z) (shares : list Z) :
  0 <= accountBalance ->
  Forall (fun s => 0 <= s) shares ->
  sumZ shares = TOTAL_PERCENTAGE ->
  planAmounts accountBalance shares = map (floorShare accountBalance) shares
  /\ sumZ (planAmounts accountBalance shares) <= accountBalance
  /\ accountBalance - sumZ (planAmounts accountBalance shares) < Z.of_nat (length shares)
  /\ [amountZyFAI accountBalance; amountGiza accountBalance; amountCod3x accountBalance]
     = planAmounts accountBalance [ALLOCATION_ZYFAI; ALLOCATION_GIZA; ALLOCATION_COD3X].
Proof.
  intros Hb Hs Hsum.
  rewrite (planAmounts_floor _ _ Hb Hs).
  destruct (floor_sum_bounds accountBalance shares) as [H1 H2].
  rewrite Hsum in H1, H2. unfold TOTAL_PERCENTAGE in *.
  split; [reflexivity|]. split; [lia|]. split; [|reflexivity].
  destruct shares as [|s r]; [simpl in Hsum; discriminate|].
  rewrite length_cons, Nat2Z.inj_succ in *. lia.
Qed.

Lemma amounts_floor_sum_shortfall_witness :
  planAmounts 10 [3333; 3333; 3334] = [3; 3; 3]
  /\ 10 - sumZ (planAmounts 10 [3333; 3333; 3334]) < 3.
Proof.
  destruct (amounts_floor_sum_shortfall 10 [3333; 3333; 3334]) as (H1 & H2 & H3 & H4).
  - lia.
  - repeat constructor; lia.
  - reflexivity.
  - split; [exact H1 | exact H3].
Defined.

(** C9. At the balance 10,000,000,000 that the scripts mint, the amounts are
    3,000,000,000, 3,000,000,000 and 4,000,000,000, and they sum to the
    balance. *)
Theorem concrete_distribution :
  INITIAL_TOKEN_BALANCE = 10000000000
  /\ amountZyFAI 10000000000 = 3000000000
  /\ amountGiza 10000000000 = 3000000000
  /\ amountCod3x 10000000000 = 4000000000
  /\ amountZyFAI 10000000000 + amountGiza 10000000000 + amountCod3x 10000000000 = 10000000000.
Proof. repeat split; reflexivity. Qed.

Opaque keccak256.

Lemma valid_address_uint a n :
  is_address a = true -> in_uint 256 n = true ->
  encodeAbiParameters [VAddress a; VUint 256 n] = Some (pad32 a ++ pad32 n).
Proof.
  intros Ha Hn. unfold encodeAbiParameters. cbn [forallb valid]. rewrite Ha, Hn.
  cbn [andb].
  cbv beta iota delta [enc map is_dynamic existsb orb enc_seq enc_parts].
  now rewrite ?app_nil_r.
Qed.

Lemma valid_uint n :
  in_uint 256 n = true -> encodeAbiParameters [VUint 256 n] = Some (pad32 n).
Proof.
  intros Hn. unfold encodeAbiParameters. cbn [forallb valid]. rewrite Hn.
  cbn [andb].
  cbv beta iota delta [enc map is_dynamic existsb orb enc_seq enc_parts].
  now rewrite ?app_nil_r.
Qed.

Lemma amount_in_uint b s :
  0 <= b < 2 ^ 256 -> 0 <= s <= 10000 -> in_uint 256 ((b * s) ÷ TOTAL_PERCENTAGE) = true.
Proof.
  intros Hb Hs. rewrite quot_floor by lia. apply in_uint_spec.
  pose proof (floorShare_bounds b s).
  assert (0 <= b * s) by nia. assert (b * s <= b * 10000) by nia. lia.
Qed.


Lemma share_amounts b :
  0 <= b < 2 ^ 256 ->
  (amountZyFAI b = floorShare b ALLOCATION_ZYFAI
   /\ amountGiza b = floorShare b ALLOCATION_GIZA
   /\ amountCod3x b = floorShare b ALLOCATION_COD3X)
  /\ (in_uint 256 (floorShare b ALLOCATION_ZYFAI) = true
      /\ in_uint 256 (floorShare b ALLOCATION_GIZA) = true
      /\ in_uint 256 (floorShare b ALLOCATION_COD3X) = true).
Proof.
  intros Hb. unfold amountZyFAI, amountGiza, amountCod3x.
  split; [repeat split; apply quot_floor; unfold ALLOCATION_ZYFAI, ALLOCATION_GIZA, ALLOCATION_COD3X; lia|].
  rewrite <- !quot_floor by (unfold ALLOCATION_ZYFAI, ALLOCATION_GIZA, ALLOCATION_COD3X; lia).
  repeat split; apply amount_in_uint;
    unfold ALLOCATION_ZYFAI, ALLOCATION_GIZA, ALLOCATION_COD3X; lia.
Qed.

Ltac known_address := vm_compute; reflexivity.

(** C4. For a balance that a uint256 holds, the batch of each script is, for
    the entries of the plan in their order (ZyFAI, Giza, Cod3x), the
    approve(vault, amount) sub-call on the token immediately followed by the
    deposit(amount) sub-call on that vault, with amount = floor(balance *
    share / 10000), and nothing else. *)
Theorem executions_follow_plan (accountBalance : Z) :
  0 <= accountBalance < 2 ^ 256 ->
  Viem.executions accountBalance =
    Ret (planBatch (addressOf (MockToken Viem.DEPLOYED_ADDRESSES))
                   (allocationPlan Viem.DEPLOYED_ADDRESSES) accountBalance)
  /\ Index.executions accountBalance =
    Ret (planBatch (addressOf (MockToken Index.DEPLOYED_ADDRESSES))
                   (allocationPlan Index.DEPLOYED_ADDRESSES) accountBalance)
  /\ Hardhat.executions accountBalance =
    Ret (planBatch (addressOf (MockToken Hardhat.DEPLOYED_ADDRESSES))
                   (allocationPlan Hardhat.DEPLOYED_ADDRESSES) accountBalance).
Proof.
  intros Hb. destruct (share_amounts _ Hb) as ((HZ & HG & HC) & (UZ & UG & UC)).
  repeat split.
  - unfold Viem.executions. rewrite HZ, HG, HC.
    rewrite !valid_address_uint, !valid_uint by (assumption || known_address).
    reflexivity.
  - unfold Index.executions, encodeFunctionData. rewrite HZ, HG, HC.
    rewrite !valid_address_uint, !valid_uint by (assumption || known_address).
    reflexivity.
  - unfold Hardhat.executions, encodeFunctionData. rewrite HZ, HG, HC.
    rewrite !valid_address_uint, !valid_uint by (assumption || known_address).
    reflexivity.
Qed.

(** ** Runs *)

Lemma run_vis {S A R} (h : Handler S) (ev : Event R) (k : R -> Prog A) s :
  run h (Vis ev k) s =
  match h _ ev s with
  | (None, s') => ([step ev None], Raised Rejected, s')
  | (Some r, s') => prefixed (step ev (Some r)) (run h (k r) s')
  end.
Proof.
  cbn [run]. destruct (h R ev s) as [[r|] s']; [|reflexivity].
  destruct (run h (k r) s') as [[tr o] s'']. reflexivity.
Qed.

Lemma run_bind_call {S A R} (h : Handler S) (ev : Event R) (f : R -> Prog A) s :
  run h (bind (call ev) f) s =
  match h _ ev s with
  | (None, s') => ([step ev None], Raised Rejected, s')
  | (Some r, s') => prefixed (step ev (Some r)) (run h (f r) s')
  end.
Proof. unfold call. cbn [bind]. apply run_vis. Qed.

Lemma trace_prefixed {S A} st (x : list Step * Outcome A * S) :
  trace_of (prefixed st x) = st :: trace_of x.
Proof. reflexivity. Qed.

Lemma outcome_prefixed {S A} st (x : list Step * Outcome A * S) :
  outcome_of (prefixed st x) = outcome_of x.
Proof. reflexivity. Qed.

Lemma signedDigests_cons st tr : signedDigests (st :: tr) = signed st ++ signedDigests tr.
Proof. reflexivity. Qed.

Lemma transactions_cons st tr : transactions (st :: tr) = submitted st ++ transactions tr.
Proof. reflexivity. Qed.

Lemma viem_executions_cases b :
  (exists l, Viem.executions b = Ret l) \/ Viem.executions b = Throw EncodingError.
Proof.
  unfold Viem.executions.
  repeat match goal with
         | |- context [lift ?o] => destruct o; cbn [lift bind]; [|now right]
         end.
  left. eexists. reflexivity.
Qed.

Ltac observe :=
  rewrite ?trace_prefixed, ?outcome_prefixed, ?signedDigests_cons, ?transactions_cons;
  cbn [signed submitted app].

Ltac halt :=
  cbn [run trace_of outcome_of fst snd signedDigests transactions flat_map signed submitted app].

Ltac stopped := halt; try (left; repeat split; discriminate).

(** The next request: its answer [r] and the state [s'] after it. *)
Tactic Notation "ask" constr(h) constr(s) "as" ident(r) ident(s') :=
  match goal with
  | |- context [run h (bind (call ?ev) _) s] =>
      rewrite run_bind_call; destruct (h _ ev s) as [[r|] s']; [observe | stopped]
  end.

(** The next encoding: its result [x], kept in [E]. *)
Tactic Notation "pure" "as" ident(x) ident(E) :=
  match goal with
  | |- context [bind (lift ?o) _] => destruct o as [x|] eqn:E; cbn [lift bind]; [ | stopped]
  end.

Lemma attestationDigest_packed c a t cap n b p :
  encodePacked [VUint 256 c; VAddress a; VAddress t; VUint 256 cap; VUint 256 n; VBytes b]
    = Some p ->
  attestationDigest c a t cap n b = Some (keccak256 p).
Proof. intros E. unfold attestationDigest. now rewrite E. Qed.

Lemma viem_deploy_shape {S} (h : Handler S) s account initData salt owner :
  let r := run h (Viem.deployAccountAndExecuteDistribution account initData salt owner) s in
  DeployShape Viem.DEPLOYED_ADDRESSES hashMessage account initData salt
    (signedDigests (trace_of r)) (transactions (trace_of r)) (outcome_of r).
Proof.
  cbv zeta. unfold Viem.deployAccountAndExecuteDistribution.
  pure as factoryData E1.
  ask h s as balance s1.
  destruct (viem_executions_cases balance) as [[execs ->] | ->]; cbn [bind]; [|stopped].
  pure as batch E2.
  ask h s1 as now s2.
  pure as packed E3.
  apply attestationDigest_packed in E3.
  unfold signMessage. rewrite run_bind_call.
  destruct (h _ (EcdsaSign (hashMessage (keccak256 packed))) s2) as [[signature|] s3].
  2:{ halt. right. do 4 eexists. split; [exact E3|]. left. repeat split. discriminate. }
  observe. right. do 4 eexists. split; [exact E3|]. right. exists signature.
  match goal with |- context [run h ?p s3] => set (rest := run h p s3) end.
  enough (signedDigests (trace_of rest) = []
          /\ ((transactions (trace_of rest) = [] /\ outcome_of rest <> Returned tt)
              \/ exists first second,
                   deploySubCall Viem.DEPLOYED_ADDRESSES initData salt = Some first
                   /\ attestedSubCall Viem.DEPLOYED_ADDRESSES account batch
                        (addressOf (MockToken Viem.DEPLOYED_ADDRESSES))
                        TOTAL_PERCENTAGE (now / 1000) signature = Some second
                   /\ transactions (trace_of rest) = [atomicSubmission first second]))
    as [-> Hrest] by (split; [reflexivity | exact Hrest]).
  subst rest.
  pure as batchExecutionData E4; [|split; [reflexivity|left; split; [reflexivity|discriminate]]].
  pure as deployArgs E5; [|split; [reflexivity|left; split; [reflexivity|discriminate]]].
  assert (Hfirst : deploySubCall Viem.DEPLOYED_ADDRESSES initData salt
                   = Some {| Call3.target := addressOf (BiconomyMetaFactory Viem.DEPLOYED_ADDRESSES);
                             Call3.allowFailure := false;
                             Call3.callData := selector "deployWithFactory(address,bytes)" ++ deployArgs |}).
  { unfold deploySubCall, encodeFunctionData. rewrite E1, E5. reflexivity. }
  assert (Hsecond : attestedSubCall Viem.DEPLOYED_ADDRESSES account batch
                      (addressOf (MockToken Viem.DEPLOYED_ADDRESSES))
                      TOTAL_PERCENTAGE (now / 1000) signature
                    = Some {| Call3.target := addressOf (BondModule Viem.DEPLOYED_ADDRESSES);
                              Call3.allowFailure := false;
                              Call3.callData :=
                                selector "executeBatchWithAttestation(address,bytes,address,uint256,uint256,bytes)"
                                ++ batchExecutionData |}).
  { unfold attestedSubCall, encodeFunctionData. rewrite E4. reflexivity. }
  rewrite run_bind_call.
  match goal with |- context [h _ ?ev s3] => destruct (h _ ev s3) as [[hash|] s4] end.
  2:{ halt. split; [reflexivity|]. right; do 2 eexists; split; [exact Hfirst | split; [exact Hsecond | reflexivity]]. }
  observe.
  rewrite run_bind_call.
  match goal with |- context [h _ ?ev s4] => destruct (h _ ev s4) as [[receipt|] s5] end.
  2:{ halt. split; [reflexivity|]. right; do 2 eexists; split; [exact Hfirst | split; [exact Hsecond | reflexivity]]. }
  observe.
  destruct (status receipt); halt;
    (split; [reflexivity|]; right; do 2 eexists; split; [exact Hfirst | split; [exact Hsecond | reflexivity]]).
Qed.

(** ** The hash is 32 bytes long *)

Transparent keccak256.

Lemma round_length a rc : length (Keccak.round a rc) = 25%nat.
Proof.
  unfold Keccak.round, Keccak.iota.
  destruct (Keccak.chi (Keccak.rho_pi (Keccak.theta a))) as [|x r] eqn:E.
  - apply (f_equal (@length Z)) in E. unfold Keccak.chi in E.
    rewrite length_map in E. discriminate.
  - apply (f_equal (@length Z)) in E. unfold Keccak.chi in E.
    rewrite length_map in E. simpl in *. congruence.
Qed.

Lemma fold_round_length rcs : forall a,
  length a = 25%nat -> length (fold_left Keccak.round rcs a) = 25%nat.
Proof.
  induction rcs as [|rc r IH]; intros a Ha; simpl; [exact Ha|].
  apply IH, round_length.
Qed.

Lemma absorb_length st block : length (Keccak.absorb st block) = 25%nat.
Proof.
  unfold Keccak.absorb, Keccak.keccak_f. apply fold_round_length.
  now rewrite length_map.
Qed.

Lemma fold_absorb_length blocks : forall st,
  length st = 25%nat -> length (fold_left Keccak.absorb blocks st) = 25%nat.
Proof.
  induction blocks as [|b r IH]; intros st Hst; simpl; [exact Hst|].
  apply IH, absorb_length.
Qed.

Lemma le_bytes_length n x : length (Keccak.le_bytes n x) = n.
Proof. revert x. induction n; intros x; simpl; [reflexivity|]. now rewrite IHn. Qed.

Lemma keccak256_length m : length (keccak256 m) = 32%nat.
Proof.
  unfold keccak256, Keccak.keccak256.
  set (st := fold_left Keccak.absorb _ _).
  assert (Hst : length st = 25%nat) by (apply fold_absorb_length; reflexivity).
  destruct st as [|a [|b [|c [|d r]]]]; try discriminate.
  cbn [firstn flat_map]. rewrite !length_app, !le_bytes_length. reflexivity.
Qed.

Opaque keccak256.

(** viem's [hashMessage] of a 32-byte digest applies the prefix once. *)
Lemma hashMessage_digest m : hashMessage (keccak256 m) = personalDigest (keccak256 m).
Proof.
  unfold hashMessage, personalDigest, len. now rewrite keccak256_length.
Qed.

Lemma attestationDigest_hash c a t cap n b d :
  attestationDigest c a t cap n b = Some d -> exists p, d = keccak256 p.
Proof.
  unfold attestationDigest. destruct (encodePacked _) as [p|]; [|discriminate].
  intros E. apply Some_inj in E. eauto.
Qed.

Lemma index_executions_cases b :
  (exists l, Index.executions b = Ret l) \/ Index.executions b = Throw EncodingError.
Proof.
  unfold Index.executions.
  repeat match goal with
         | |- context [lift ?o] => destruct o; cbn [lift bind]; [|now right]
         end.
  left. eexists. reflexivity.
Qed.

Lemma hardhat_executions_cases b :
  (exists l, Hardhat.executions b = Ret l) \/ Hardhat.executions b = Throw EncodingError.
Proof.
  unfold Hardhat.executions.
  repeat match goal with
         | |- context [lift ?o] => destruct o; cbn [lift bind]; [|now right]
         end.
  left. eexists. reflexivity.
Qed.

(** The requests after the transaction submit nothing and sign nothing. *)
Ltac after_submission h :=
  repeat match goal with
         | |- context [run h (bind (call ?ev) _) ?s] =>
             rewrite run_bind_call;
             let r := fresh "r" in let s' := fresh "s" in
             destruct (h _ ev s) as [[r|] s']; [observe | halt]
         | |- context [match ?c with [] => _ | _ :: _ => _ end] => destruct c
         | |- context [if status ?r then _ else _] => destruct (status r)
         | |- context [bind (Throw _) _] => cbn [bind]
         | |- context [run h (Throw _) _] => halt
         | |- context [run h (Ret _) _] => halt
         end.

Lemma index_deploy_shape {S} (h : Handler S) s account initData salt owner :
  let r := run h (Index.deployAccountAndExecuteDistribution account initData salt owner) s in
  DeployShape Index.DEPLOYED_ADDRESSES (fun d => hashMessage (personalDigest d))
    account initData salt
    (signedDigests (trace_of r)) (transactions (trace_of r)) (outcome_of r).
Proof.
  cbv zeta. unfold Index.deployAccountAndExecuteDistribution.
  pure as factoryData E1.
  ask h s as balance s1.
  destruct (index_executions_cases balance) as [[execs ->] | ->]; cbn [bind]; [|stopped].
  pure as batch E2.
  ask h s1 as now s2.
  ask h s2 as chainId s3.
  pure as packed E3.
  apply attestationDigest_packed in E3.
  unfold signMessage. rewrite run_bind_call.
  match goal with |- context [h _ ?ev s3] => destruct (h _ ev s3) as [[signature|] s4] end.
  2:{ halt. right. do 4 eexists. split; [exact E3|]. left. repeat split. discriminate. }
  observe. right. do 4 eexists. split; [exact E3|]. right. exists signature.
  match goal with |- context [run h ?p s4] => set (rest := run h p s4) end.
  enough (signedDigests (trace_of rest) = []
          /\ ((transactions (trace_of rest) = [] /\ outcome_of rest <> Returned tt)
              \/ exists first second,
                   deploySubCall Index.DEPLOYED_ADDRESSES initData salt = Some first
                   /\ attestedSubCall Index.DEPLOYED_ADDRESSES account batch
                        (addressOf (MockToken Index.DEPLOYED_ADDRESSES))
                        TOTAL_PERCENTAGE (now / 1000) signature = Some second
                   /\ transactions (trace_of rest) = [atomicSubmission first second]))
    as [-> Hrest] by (split; [reflexivity | exact Hrest]).
  subst rest.
  pure as batchExecutionData E4; [|split; [reflexivity|left; split; [reflexivity|discriminate]]].
  pure as deployData E5; [|split; [reflexivity|left; split; [reflexivity|discriminate]]].
  assert (Hfirst : deploySubCall Index.DEPLOYED_ADDRESSES initData salt
                   = Some {| Call3.target := addressOf (BiconomyMetaFactory Index.DEPLOYED_ADDRESSES);
                             Call3.allowFailure := false;
                             Call3.callData := deployData |}).
  { unfold deploySubCall. rewrite E1, E5. reflexivity. }
  assert (Hsecond : attestedSubCall Index.DEPLOYED_ADDRESSES account batch
                      (addressOf (MockToken Index.DEPLOYED_ADDRESSES))
                      TOTAL_PERCENTAGE (now / 1000) signature
                    = Some {| Call3.target := addressOf (BondModule Index.DEPLOYED_ADDRESSES);
                              Call3.allowFailure := false;
                              Call3.callData := batchExecutionData |}).
  { unfold attestedSubCall. rewrite E4. reflexivity. }
  rewrite run_bind_call.
  match goal with |- context [h _ ?ev s4] => destruct (h _ ev s4) as [[hash|] s5] end.
  2:{ halt. split; [reflexivity|]. right; do 2 eexists; split; [exact Hfirst | split; [exact Hsecond | reflexivity]]. }
  observe.
  after_submission h;
    (split; [reflexivity|]; right; do 2 eexists; split; [exact Hfirst | split; [exact Hsecond | reflexivity]]).
Qed.

Lemma run_bind_wait {S A} (h : Handler S) hash (f : Receipt -> Prog A) s :
  run h (bind (Hardhat.wait hash) f) s =
  match h _ (WaitForTransactionReceipt hash 1) s with
  | (None, s') => ([step (WaitForTransactionReceipt hash 1) None], Raised Rejected, s')
  | (Some r, s') =>
      prefixed (step (WaitForTransactionReceipt hash 1) (Some r))
               (run h (bind (if status r then Ret r else Throw CallException) f) s')
  end.
Proof. unfold Hardhat.wait, call. cbn [bind]. apply run_vis. Qed.

Lemma hardhat_deploy_shape {S} (h : Handler S) s account initData salt owner :
  let r := run h (Hardhat.deployAccountAndExecuteDistribution account initData salt owner) s in
  DeployShape Hardhat.DEPLOYED_ADDRESSES personalDigest account initData salt
    (signedDigests (trace_of r)) (transactions (trace_of r)) (outcome_of r).
Proof.
  cbv zeta. unfold Hardhat.deployAccountAndExecuteDistribution.
  pure as factoryData E1.
  ask h s as balance s1.
  destruct (hardhat_executions_cases balance) as [[execs ->] | ->]; cbn [bind]; [|stopped].
  pure as batch E2.
  ask h s1 as now s2.
  ask h s2 as chainId s3.
  pure as packed E3.
  apply attestationDigest_packed in E3.
  rewrite run_bind_call.
  match goal with |- context [h _ ?ev s3] => destruct (h _ ev s3) as [[signature|] s4] end.
  2:{ halt. right. do 4 eexists. split; [exact E3|]. left. repeat split. discriminate. }
  observe. right. do 4 eexists. split; [exact E3|]. right. exists signature.
  match goal with |- context [run h ?p s4] => set (rest := run h p s4) end.
  enough (signedDigests (trace_of rest) = []
          /\ ((transactions (trace_of rest) = [] /\ outcome_of rest <> Returned tt)
              \/ exists first second,
                   deploySubCall Hardhat.DEPLOYED_ADDRESSES initData salt = Some first
                   /\ attestedSubCall Hardhat.DEPLOYED_ADDRESSES account batch
                        (addressOf (MockToken Hardhat.DEPLOYED_ADDRESSES))
                        TOTAL_PERCENTAGE (now / 1000) signature = Some second
                   /\ transactions (trace_of rest) = [atomicSubmission first second]))
    as [-> Hrest] by (split; [reflexivity | exact Hrest]).
  subst rest.
  pure as batchExecutionData E4; [|split; [reflexivity|left; split; [reflexivity|discriminate]]].
  pure as deployData E5; [|split; [reflexivity|left; split; [reflexivity|discriminate]]].
  assert (Hfirst : deploySubCall Hardhat.DEPLOYED_ADDRESSES initData salt
                   = Some {| Call3.target := addressOf (BiconomyMetaFactory Hardhat.DEPLOYED_ADDRESSES);
                             Call3.allowFailure := false;
                             Call3.callData := deployData |}).
  { unfold deploySubCall. rewrite E1, E5. reflexivity. }
  assert (Hsecond : attestedSubCall Hardhat.DEPLOYED_ADDRESSES account batch
                      (addressOf (MockToken Hardhat.DEPLOYED_ADDRESSES))
                      TOTAL_PERCENTAGE (now / 1000) signature
                    = Some {| Call3.target := addressOf (BondModule Hardhat.DEPLOYED_ADDRESSES);
                              Call3.allowFailure := false;
                              Call3.callData := batchExecutionData |}).
  { unfold attestedSubCall. rewrite E4. reflexivity. }
  rewrite run_bind_call.
  match goal with |- context [h _ ?ev s4] => destruct (h _ ev s4) as [[hash|] s5] end.
  2:{ halt. split; [reflexivity|]. right; do 2 eexists; split; [exact Hfirst | split; [exact Hsecond | reflexivity]]. }
  observe.
  rewrite run_bind_wait.
  match goal with |- context [h _ ?ev s5] => destruct (h _ ev s5) as [[receipt|] s6] end.
  2:{ halt. split; [reflexivity|]. right; do 2 eexists; split; [exact Hfirst | split; [exact Hsecond | reflexivity]]. }
  observe. destruct (status receipt); cbn [bind].
  2:{ halt. split; [reflexivity|]. right; do 2 eexists; split; [exact Hfirst | split; [exact Hsecond | reflexivity]]. }
  after_submission h;
    (split; [reflexivity|]; right; do 2 eexists; split; [exact Hfirst | split; [exact Hsecond | reflexivity]]).
Qed.

(** ** The executor *)




Lemma shape_binds D wrap account initData salt S T o :
  DeployShape D wrap account initData salt S T o ->
  AttestationBinds D wrap account S T o.
Proof.
  intros [(_ & HT & Ho) | (chainId & nonce & batch & digest & Hd & H)].
  - left. auto.
  - destruct H as [(_ & HT & Ho) | (signature & HS & H)]; [left; auto|].
    destruct H as [(HT & Ho) | (first & second & H1 & H2 & HT)]; [left; auto|].
    right. exists chainId, nonce, batch, digest, signature, first, second. auto.
Qed.

Lemma shape_wrap D wrap wrap' account initData salt S T o :
  (forall m, wrap (keccak256 m) = wrap' (keccak256 m)) ->
  DeployShape D wrap account initData salt S T o ->
  DeployShape D wrap' account initData salt S T o.
Proof.
  intros Hw [H | (chainId & nonce & batch & digest & Hd & H)]; [left; exact H|].
  right. exists chainId, nonce, batch, digest. split; [exact Hd|].
  destruct (attestationDigest_hash _ _ _ _ _ _ _ Hd) as [m ->].
  rewrite <- Hw. exact H.
Qed.

(** C10. In each script the batch, token, cap and nonce hashed into the
    digest that is handed to the key are the ones the
    executeBatchWithAttestation sub-call of the same run carries, with the
    signature the key returned; the cap is 10000, the sum of the plan's shares. *)
Theorem attestation_binds_executed_call
    {S : Type} (h : Handler S) (s : S) (account : Address) (initData salt : bytes)
    (owner : Address) :
  let v := run h (Viem.deployAccountAndExecuteDistribution account initData salt owner) s in
  let i := run h (Index.deployAccountAndExecuteDistribution account initData salt owner) s in
  let e := run h (Hardhat.deployAccountAndExecuteDistribution account initData salt owner) s in
  AttestationBinds Viem.DEPLOYED_ADDRESSES hashMessage account
    (signedDigests (trace_of v)) (transactions (trace_of v)) (outcome_of v)
  /\ AttestationBinds Index.DEPLOYED_ADDRESSES (fun d => hashMessage (personalDigest d)) account
    (signedDigests (trace_of i)) (transactions (trace_of i)) (outcome_of i)
  /\ AttestationBinds Hardhat.DEPLOYED_ADDRESSES personalDigest account
    (signedDigests (trace_of e)) (transactions (trace_of e)) (outcome_of e)
  /\ TOTAL_PERCENTAGE = 10000
  /\ sumZ (map snd (allocationPlan Viem.DEPLOYED_ADDRESSES)) = TOTAL_PERCENTAGE
  /\ sumZ (map snd (allocationPlan Hardhat.DEPLOYED_ADDRESSES)) = TOTAL_PERCENTAGE.
Proof.
  cbv zeta. repeat split.
  - eapply shape_binds, viem_deploy_shape.
  - eapply shape_binds, index_deploy_shape.
  - eapply shape_binds, hardhat_deploy_shape.
Qed.

(** ** What the key signs *)

(** C2. The stand-alone viem script and the hardhat script hand the key the
    attestation digest under the personal-message prefix, once; index.ts
    computes that prefixed hash itself and then passes it to [signMessage],
    which applies the prefix again: at the same inputs (chain 84532, the
    same account, token, cap, nonce and batch) the digest signed by index.ts
    differs from the one signed by the viem script. *)
Theorem index_signs_twice_prefixed_digest :
  (forall (S : Type) (h : Handler S) (s : S) account initData salt owner,
      let v := run h (Viem.deployAccountAndExecuteDistribution account initData salt owner) s in
      let i := run h (Index.deployAccountAndExecuteDistribution account initData salt owner) s in
      let e := run h (Hardhat.deployAccountAndExecuteDistribution account initData salt owner) s in
      DeployShape Viem.DEPLOYED_ADDRESSES personalDigest account initData salt
        (signedDigests (trace_of v)) (transactions (trace_of v)) (outcome_of v)
      /\ DeployShape Hardhat.DEPLOYED_ADDRESSES personalDigest account initData salt
        (signedDigests (trace_of e)) (transactions (trace_of e)) (outcome_of e)
      /\ DeployShape Index.DEPLOYED_ADDRESSES (fun d => personalDigest (personalDigest d))
        account initData salt
        (signedDigests (trace_of i)) (transactions (trace_of i)) (outcome_of i))
  /\ (let account := sim_account sim0 in
      let salt := repeat 0 32 in
      let v := run simulate
                 (Viem.deployAccountAndExecuteDistribution account [] salt (sim_owner sim0)) sim0 in
      let i := run simulate
                 (Index.deployAccountAndExecuteDistribution account [] salt (sim_owner sim0)) sim0 in
      exists batch digest,
        encodeAbiParameters
          [VArray (map Execution.to_abi
                     (planBatch (addressOf (MockToken Viem.DEPLOYED_ADDRESSES))
                                (allocationPlan Viem.DEPLOYED_ADDRESSES) 10000000000))]
          = Some batch
        /\ attestationDigest 84532 account (addressOf (MockToken Viem.DEPLOYED_ADDRESSES))
             10000 1762000000 batch = Some digest
        /\ map fst (signedDigests (trace_of v)) = [personalDigest digest]
        /\ map fst (signedDigests (trace_of i)) = [personalDigest (personalDigest digest)]
        /\ personalDigest (personalDigest digest) <> personalDigest digest).
Proof.
  split.
  - intros S h s account initData salt owner. cbv zeta. repeat split.
    + eapply shape_wrap; [|apply viem_deploy_shape]. apply hashMessage_digest.
    + apply hardhat_deploy_shape.
    + eapply shape_wrap; [|apply index_deploy_shape].
      intros m. unfold personalDigest at 2. apply hashMessage_digest.
  - cbv zeta. do 2 eexists. split; [vm_compute; reflexivity|].
    split; [vm_compute; reflexivity|].
    split; [vm_compute; reflexivity|]. split; [vm_compute; reflexivity|].
    vm_compute. discriminate.
Qed.

(** ** Sequencing *)

Lemma run_bind {S A B} (h : Handler S) (p : Prog A) (f : A -> Prog B) :
  forall s,
    run h (bind p f) s =
    match run h p s with
    | (tr, Returned a, s') =>
        let x := run h (f a) s' in (tr ++ trace_of x, outcome_of x, state_of x)
    | (tr, Raised e, s') => (tr, Raised e, s')
    end.
Proof.
  induction p as [a | e | R ev k IH]; intros s.
  - cbn [bind run app]. now destruct (run h (f a) s) as [[tr o] s'].
  - reflexivity.
  - cbn [bind run]. destruct (h R ev s) as [[r|] s']; [|reflexivity].
    rewrite IH. destruct (run h (k r) s') as [[tr [a|e]] s'']; reflexivity.
Qed.

Lemma balanceReads_cons st tr : balanceReads (st :: tr) = balanceAnswer st ++ balanceReads tr.
Proof. reflexivity. Qed.

(** ** Balance confirmation after the mint *)

Lemma last_cons_default {A} (l : list A) : forall x d, last (x :: l) d = last l x.
Proof.
  induction l as [|y l IH]; intros x d; [reflexivity|].
  change (last (x :: y :: l) d) with (last (y :: l) d).
  now rewrite !IH.
Qed.

(** The retry loop reads at most [i] times and stops at the first positive
    balance; what it returns is the last value read. *)
Lemma retryBalance_reads {S} (h : Handler S) account : forall i balance s,
  let r := run h (Viem.retryBalance i balance account) s in
  (length (balanceReads (trace_of r)) <= i)%nat
  /\ forall b, outcome_of r = Returned b ->
               b = last (balanceReads (trace_of r)) balance
               /\ (0 < b \/ length (balanceReads (trace_of r)) = i).
Proof.
  induction i as [|i IH]; intros balance s; cbv zeta.
  - cbn. split; [lia|]. intros b E. injection E as <-. auto.
  - cbn [Viem.retryBalance]. rewrite run_bind_call.
    destruct (h _ _ s) as [[b'|] s1].
    2:{ cbn. split; [lia|]. discriminate. }
    rewrite trace_prefixed, outcome_prefixed, balanceReads_cons. cbn [balanceAnswer app].
    destruct (b' >? 0) eqn:Hpos.
    + cbn. split; [lia|]. intros b E. injection E as <-. split; [reflexivity|]. left. lia.
    + rewrite run_bind_call. destruct (h _ _ s1) as [[[]|] s2].
      2:{ cbn. split; [lia|]. discriminate. }
      rewrite trace_prefixed, outcome_prefixed, balanceReads_cons. cbn [balanceAnswer app].
      specialize (IH b' s2). cbv zeta in IH. destruct IH as [IH1 IH2].
      cbn [length]. split; [lia|].
      intros b E. destruct (IH2 b E) as [Hb Hn]. split.
      * rewrite Hb. symmetry. apply last_cons_default.
      * destruct Hn; [left; assumption | right; lia].
Qed.

Ltac walk h :=
  repeat match goal with
         | |- context [run h (bind (call ?ev) _) ?s] =>
             rewrite run_bind_call;
             let r := fresh "r" in let s' := fresh "s" in
             destruct (h _ ev s) as [[r|] s'];
             [rewrite ?trace_prefixed, ?outcome_prefixed | ]
         | |- context [run h (bind (Hardhat.wait ?hash) _) ?s] =>
             rewrite run_bind_wait;
             let r := fresh "r" in let s' := fresh "s" in
             destruct (h _ (WaitForTransactionReceipt hash 1) s) as [[r|] s'];
             [rewrite ?trace_prefixed, ?outcome_prefixed; destruct (status r); cbn [bind] | ]
         end.

(** C7. Only the stand-alone viem script confirms the minted balance by
    polling: at most ten reads, two seconds apart, and it returns normally
    only when the last read is not zero.  index.ts and the hardhat script
    read the balance once and never raise an error about it: where every
    read answers zero, the viem script fails after ten reads and the other
    two return normally after one. *)
Theorem mint_confirmation_polls_only_in_viem_script :
  (forall (S : Type) (h : Handler S) (s : S) account,
      let v := run h (Viem.mintTokensToAccount account) s in
      (length (balanceReads (trace_of v)) <= 10)%nat
      /\ (outcome_of v = Returned tt -> last (balanceReads (trace_of v)) 0 <> 0))
  /\ (forall (S : Type) (h : Handler S) (s : S) account message,
      let i := run h (Index.mintTokensToAccount account) s in
      let e := run h (Hardhat.mintTokensToAccount account) s in
      (length (balanceReads (trace_of i)) <= 1)%nat
      /\ outcome_of i <> Raised (Error message)
      /\ (length (balanceReads (trace_of e)) <= 1)%nat
      /\ outcome_of e <> Raised (Error message))
  /\ (let s := with_balances sim0 [0] in
      let account := sim_account sim0 in
      let v := run simulate (Viem.mintTokensToAccount account) s in
      let i := run simulate (Index.mintTokensToAccount account) s in
      let e := run simulate (Hardhat.mintTokensToAccount account) s in
      outcome_of v = Raised (Error "Balance still 0 after retries - state propagation issue")
      /\ balanceReads (trace_of v) = repeat 0 10
      /\ sleeps (trace_of v) = 3000 :: repeat 2000 10
      /\ outcome_of i = Returned tt
      /\ balanceReads (trace_of i) = [0]
      /\ sleeps (trace_of i) = [1000]
      /\ outcome_of e = Returned tt
      /\ balanceReads (trace_of e) = [0]
      /\ sleeps (trace_of e) = []).
Proof.
  split; [|split].
  - intros S h s account. cbv zeta. unfold Viem.mintTokensToAccount.
    walk h; try (cbn; split; [lia | discriminate]).
    rewrite !balanceReads_cons. cbn [balanceAnswer app].
    rewrite run_bind.
    pose proof (retryBalance_reads h account 10 0 s2) as [H1 H2].
    destruct (run h (Viem.retryBalance 10 0 account) s2) as [[tr [b|e]] s3].
    + cbn [trace_of outcome_of fst snd] in *.
      destruct (H2 b eq_refl) as [Hb _].
      destruct (b =? 0) eqn:E; cbn; rewrite ?app_nil_r.
      * split; [exact H1 | discriminate].
      * split; [exact H1|]. intros _. rewrite <- Hb. now apply Z.eqb_neq.
    + cbn [trace_of outcome_of fst snd] in *. split; [exact H1 | discriminate].
  - intros S h s account message. cbv zeta.
    unfold Index.mintTokensToAccount, Hardhat.mintTokensToAccount.
    repeat split; walk h; cbn; try lia; discriminate.
  - cbv zeta. repeat split; vm_compute; reflexivity.
Qed.

(** ** The run as a whole *)

Lemma existingCode_cons st tr :
  existingCode (st :: tr) =
  match codeAnswer st with
  | c :: _ => Some c
  | [] => existingCode tr
  end.
Proof. unfold existingCode. cbn [flat_map]. now destruct (codeAnswer st). Qed.

Lemma ledgerWrites_cons st tr : ledgerWrites (st :: tr) = written st ++ ledgerWrites tr.
Proof. reflexivity. Qed.

Ltac look :=
  rewrite ?trace_prefixed, ?outcome_prefixed, ?signedDigests_cons, ?transactions_cons,
    ?ledgerWrites_cons, ?existingCode_cons;
  cbn [signed submitted written codeAnswer app].

Ltac finish :=
  cbn [run trace_of outcome_of fst snd signedDigests transactions ledgerWrites existingCode
       flat_map signed submitted written codeAnswer app hd_error].

(** One request of the run, answered or not. *)
Ltac next h :=
  cbn [bind call];
  match goal with
  | |- context [run h (Vis ?ev _) ?s] =>
      rewrite run_vis;
      let r := fresh "r" in let s' := fresh "s" in
      destruct (h _ ev s) as [[r|] s']; [look | finish]
  end.

(** The encoding the run is about to do. *)
Ltac head_lift p :=
  lazymatch p with
  | bind ?q _ => head_lift q
  | lift ?o => constr:(o)
  end.







(** ** Funding, then the executor *)

Lemma transactions_app tr tr' : transactions (tr ++ tr') = transactions tr ++ transactions tr'.
Proof. apply flat_map_app. Qed.

Lemma retryBalance_submits_nothing {S} (h : Handler S) account : forall i balance s,
  transactions (trace_of (run h (Viem.retryBalance i balance account) s)) = [].
Proof.
  induction i as [|i IH]; intros balance s; [reflexivity|].
  cbn [Viem.retryBalance]. rewrite run_bind_call.
  destruct (h _ _ s) as [[b'|] s1]; [|reflexivity].
  rewrite trace_prefixed, transactions_cons. cbn [submitted app].
  destruct (b' >? 0); [reflexivity|].
  rewrite run_bind_call. destruct (h _ _ s1) as [[[]|] s2]; [|reflexivity].
  rewrite trace_prefixed, transactions_cons. cbn [submitted app]. apply IH.
Qed.

Lemma outcome_bind {S A B} (h : Handler S) (p : Prog A) (f : A -> Prog B) s b :
  outcome_of (run h (bind p f) s) = Returned b ->
  exists a, outcome_of (run h p s) = Returned a
            /\ outcome_of (run h (f a) (state_of (run h p s))) = Returned b.
Proof.
  rewrite run_bind. destruct (run h p s) as [[tr [a|e]] s']; cbn; [|discriminate].
  intros E. exists a. split; [reflexivity | exact E].
Qed.

Lemma transactions_bind {S A B} (h : Handler S) (p : Prog A) (f : A -> Prog B) s :
  transactions (trace_of (run h (bind p f) s)) =
  transactions (trace_of (run h p s))
  ++ match outcome_of (run h p s) with
     | Returned a => transactions (trace_of (run h (f a) (state_of (run h p s))))
     | Raised _ => []
     end.
Proof.
  rewrite run_bind. destruct (run h p s) as [[tr [a|e]] s']; cbn.
  - apply transactions_app.
  - now rewrite app_nil_r.
Qed.

Lemma viem_mint_submits {S} (h : Handler S) s account :
  transactions (trace_of (run h (Viem.mintTokensToAccount account) s))
  = [mintSubmission Viem.DEPLOYED_ADDRESSES account].
Proof.
  unfold Viem.mintTokensToAccount, mintSubmission.
  rewrite run_bind_call. destruct (h _ _ s) as [[hash|] s1]; [|reflexivity].
  rewrite trace_prefixed, transactions_cons. cbn [submitted app]. f_equal.
  rewrite run_bind_call. destruct (h _ _ s1) as [[receipt|] s2]; [|reflexivity].
  rewrite trace_prefixed, transactions_cons. cbn [submitted app].
  rewrite run_bind_call. destruct (h _ _ s2) as [[[]|] s3]; [|reflexivity].
  rewrite trace_prefixed, transactions_cons. cbn [submitted app].
  rewrite transactions_bind, retryBalance_submits_nothing.
  destruct (outcome_of _) as [b|e]; [|reflexivity].
  destruct (b =? 0); reflexivity.
Qed.

















(** On the funded account of the scripted environment the three executors
    run to the end. *)
Example executor_returns_on_funded_account :
  let account := sim_account sim0 in
  let salt := repeat 0 32 in
  outcome_of (run simulate
                (Viem.deployAccountAndExecuteDistribution account [] salt (sim_owner sim0))
                sim0) = Returned tt
  /\ outcome_of (run simulate
                   (Index.deployAccountAndExecuteDistribution account [] salt (sim_owner sim0))
                   sim0) = Returned tt
  /\ outcome_of (run simulate
                   (Hardhat.deployAccountAndExecuteDistribution account [] salt (sim_owner sim0))
                   sim0) = Returned tt.
Proof. cbv zeta. repeat split; vm_compute; reflexivity. Qed.

Local Open Scope string_scope.



(** ** The ledger *)

Local Close Scope string_scope.

Lemma parsed_object fs : parsed (JObject fs) <-> parsed_fields fs.
Proof.
  unfold parsed, parsed_fields. cbn [stringified]. split; intros E.
  - injection E as E. exact E.
  - now rewrite E.
Qed.

Lemma parsed_lookup k fs v : parsed_fields fs -> lookup k fs = Some v -> parsed v.
Proof.
  unfold parsed_fields, parsed.
  induction fs as [|[k' v'] r IH]; intros E L; [discriminate|].
  cbn [map fst snd] in E. injection E as Ev Er.
  cbn [lookup] in L. destruct (String.eqb k k').
  - apply Some_inj in L. now subst v'.
  - auto.
Qed.




(** A parsed value with a property is an object holding it. *)
Lemma parsed_getProp d k v :
  parsed d -> getProp (Some d) k = inr (Some v) ->
  exists fs, d = JObject fs /\ parsed_fields fs /\ lookup k fs = Some v.
Proof.
  intros P G. destruct d as [| b | n | s | es ps | fs]; cbn [getProp] in G; try discriminate.
  - unfold parsed in P. cbn [stringified] in P. injection P as _ <-.
    discriminate.
  - exists fs. split; [reflexivity|]. split; [now apply parsed_object|].
    injection G as G. exact G.
Qed.

Lemma getPath_cons d p r : getPath d (p :: r) =
  match getProp d p with inl e => inl e | inr v => getPath v r end.
Proof. reflexivity. Qed.

Lemma getPath_undefined path k : getPath None (path ++ [k]) = inl TypeError.
Proof. destruct path; reflexivity. Qed.


Lemma json_induction (P : json -> Prop) :
  P JNull -> (forall b, P (JBool b)) -> (forall n, P (JNumber n)) ->
  (forall s, P (JString s)) ->
  (forall es ps, Forall P es -> P (JArray es ps)) ->
  (forall fs, Forall (fun kv : string * json => P (snd kv)) fs -> P (JObject fs)) ->
  forall d, P d.
Proof.
  intros HN HB HZ HS HA HO. fix IH 1. intros [| b | n | s | es ps | fs].
  - exact HN.
  - apply HB.
  - apply HZ.
  - apply HS.
  - apply HA. induction es as [|e r IHr]; constructor; [apply IH | exact IHr].
  - apply HO. induction fs as [|[k v] r IHr]; constructor; [apply IH | exact IHr].
Qed.

Lemma stringified_parsed d : parsed (stringified d).
Proof.
  unfold parsed. induction d as [| b | n | s | es ps IH | fs IH] using json_induction;
    try reflexivity.
  - cbn [stringified]. f_equal. rewrite map_map.
    apply map_ext_in. intros e He. rewrite Forall_forall in IH. now apply IH.
  - cbn [stringified]. f_equal. rewrite map_map.
    apply map_ext_in. intros [k v] He. rewrite Forall_forall in IH. cbn [fst snd].
    f_equal. exact (IH _ He).
Qed.

Lemma upsert_parsed D iso a d d' : upsert D iso a d = inr d' -> parsed d'.
Proof.
  unfold upsert. destruct (ensureModules d) as [e|d0]; [discriminate|].
  destruct (setBondModule d0 _) as [e|d1]; [discriminate|].
  intros E. injection E as <-. apply stringified_parsed.
Qed.


(** In a parsed document, a path that leads to a value leads through objects. *)
Lemma getPath_snoc_object : forall path d k v,
  parsed d ->
  getPath (Some d) (path ++ [k]) = inr (Some v) ->
  exists fs, getPath (Some d) path = inr (Some (JObject fs)) /\ lookup k fs = Some v.
Proof.
  induction path as [|p r IH]; intros d k v P G.
  - cbn [app getPath] in G.
    destruct (getProp (Some d) k) as [e|[v'|]] eqn:E; try discriminate.
    destruct (parsed_getProp _ _ _ P E) as (fs & -> & _ & L).
    injection G as <-. exists fs. split; [reflexivity | exact L].
  - cbn [app] in G. rewrite getPath_cons in G. rewrite getPath_cons.
    destruct (getProp (Some d) p) as [e|[child|]] eqn:E; try discriminate.
    2:{ rewrite getPath_undefined in G. discriminate. }
    destruct (parsed_getProp _ _ _ P E) as (fs & -> & Pfs & L).
    eapply IH; [eapply parsed_lookup; eassumption | exact G].
Qed.

Lemma ensureObject_present d path k fs :
  getPath (Some d) (path ++ [k]) = inr (Some (JObject fs)) ->
  ensureObject d path k = inr d.
Proof. intros G. unfold ensureObject. now rewrite G. Qed.

(** On a parsed document that holds a module record the guards change nothing. *)
Lemma ensureModules_present d r :
  parsed d -> storedRecord d = Some r -> ensureModules d = inr d.
Proof.
  intros P H. unfold storedRecord in H.
  destruct (getPath (Some d) (modulesPath ++ ["bondModule"%string])) as [e|[v|]] eqn:G;
    try discriminate.
  destruct (getPath_snoc_object modulesPath d _ _ P G) as (fs3 & G3 & _).
  destruct (getPath_snoc_object ["networks"%string; "baseSepolia"%string] d
              "modules"%string _ P G3) as (fs2 & G2 & _).
  destruct (getPath_snoc_object ["networks"%string] d "baseSepolia"%string _ P G2)
    as (fs1 & G1 & _).
  unfold ensureModules.
  rewrite (ensureObject_present d [] "networks"%string fs1 G1).
  rewrite (ensureObject_present d ["networks"%string] "baseSepolia"%string fs2 G2).
  exact (ensureObject_present d ["networks"%string; "baseSepolia"%string]
           "modules"%string fs3 G3).
Qed.


Local Open Scope string_scope.



Local Close Scope string_scope.


Lemma executions_follow_plan_witness :
  Viem.executions 10000000000 =
    Ret (planBatch (addressOf (MockToken Viem.DEPLOYED_ADDRESSES))
                   (allocationPlan Viem.DEPLOYED_ADDRESSES) 10000000000)
  /\ length (planBatch (addressOf (MockToken Viem.DEPLOYED_ADDRESSES))
                       (allocationPlan Viem.DEPLOYED_ADDRESSES) 10000000000) = 6%nat.
Proof.
  destruct (executions_follow_plan 10000000000) as (Hv & _ & _).
  - split; [discriminate | reflexivity].
  - split; [exact Hv | reflexivity].
Defined.

(** * Further properties *)

(** ** The ledger document *)

Lemma assign_same k x fs : lookup k fs = Some x -> assign k x fs = fs.
Proof.
  induction fs as [|[k' v'] r IH]; intros L; [discriminate|].
  cbn [lookup] in L. cbn [assign]. destruct (String.eqb k k') eqn:E.
  - apply String.eqb_eq in E. apply Some_inj in L. now subst.
  - now rewrite IH.
Qed.


(** Writing back the value a path already leads to changes nothing. *)
Lemma setPath_same : forall path d k x,
  parsed d ->
  getPath (Some d) (path ++ [k]) = inr (Some x) ->
  setPath (Some d) path k x = inr d.
Proof.
  induction path as [|p r IH]; intros d k x P G.
  - cbn [app getPath] in G.
    destruct (getProp (Some d) k) as [e|[v'|]] eqn:E; try discriminate.
    destruct (parsed_getProp _ _ _ P E) as (fs & -> & _ & L).
    injection G as <-. cbn [setPath setProp]. now rewrite (assign_same _ _ _ L).
  - cbn [app] in G. rewrite getPath_cons in G.
    destruct (getProp (Some d) p) as [e|[child|]] eqn:E; try discriminate.
    2:{ rewrite getPath_undefined in G. discriminate. }
    destruct (parsed_getProp _ _ _ P E) as (fs & -> & Pfs & L).
    assert (Pc : parsed child) by (eapply parsed_lookup; eassumption).
    cbn [setPath getProp]. rewrite L, (IH child k x Pc G). cbn [setProp].
    now rewrite (assign_same _ _ _ L).
Qed.

(** X1: the upsert is idempotent.  Once a record is stored, the upsert with the
    same date and account writes back the document it read. *)
Theorem upsert_idempotent (D : DeployedAddresses) (iso a : string) (d d1 : json) :
  upsert D iso a d = inr d1 ->
  storedRecord d1 = Some (bondModuleRecord D iso a) ->
  upsert D iso a d1 = inr d1.
Proof.
  intros U R. pose proof (upsert_parsed _ _ _ _ _ U) as P.
  unfold upsert. rewrite (ensureModules_present d1 _ P R).
  assert (G : getPath (Some d1) (modulesPath ++ ["bondModule"%string])
              = inr (Some (bondModuleRecord D iso a))).
  { unfold storedRecord in R.
    destruct (getPath (Some d1) (modulesPath ++ ["bondModule"%string])) as [e|[v|]];
      try discriminate. apply Some_inj in R. now subst v. }
  unfold setBondModule. rewrite (setPath_same modulesPath d1 _ _ P G).
  now rewrite P.
Qed.

Lemma upsert_idempotent_witness :
  let D := Hardhat.DEPLOYED_ADDRESSES in
  let d1 := ledgerOf D "2025-11-01T12:26:40.123Z" "0x2222222222222222222222222222222222222222" in
  upsert D "2025-11-01T12:26:40.123Z" "0x2222222222222222222222222222222222222222" d1 = inr d1.
Proof.
  cbv zeta.
  apply (upsert_idempotent Hardhat.DEPLOYED_ADDRESSES "2025-11-01T12:26:40.123Z"
           "0x2222222222222222222222222222222222222222" (JObject [])); reflexivity.
Defined.





Local Open Scope string_scope.


Local Close Scope string_scope.








Local Open Scope string_scope.


Local Close Scope string_scope.

(** ** Ledger values the guards do not repair *)

Lemma truthyPrimitive_truthy v : truthyPrimitive v = true -> truthy (Some v) = true.
Proof. destruct v; cbn; congruence. Qed.

Lemma truthyPrimitive_getProp v k : truthyPrimitive v = true -> getProp (Some v) k = inr None.
Proof. destruct v; cbn; congruence. Qed.

Lemma truthyPrimitive_setProp v k x :
  truthyPrimitive v = true -> setProp (Some v) k x = inl TypeError.
Proof. destruct v; cbn; congruence. Qed.

Lemma getProp_truthy d k v : getProp d k = inr v -> truthy v = true -> truthy d = true.
Proof. destruct d as [[]|]; cbn; intros H; try discriminate; reflexivity || (injection H as <-; cbn; congruence). Qed.

(** X4: a slot on the way to the record that holds [true], a non-zero number
    or a non-empty string passes its guard and then cannot take a property:
    the upsert fails with a TypeError, and [updateDeploymentsJson] writes
    nothing and does not return. *)
Theorem ledger_truthy_primitive_type_error
    (D : DeployedAddresses) (path account : string) (d v : json) (slot : list string) :
  In slot guardedSlots ->
  getPath (Some d) slot = inr (Some v) ->
  truthyPrimitive v = true ->
  (forall iso, upsert D iso account d = inl TypeError)
  /\ forall (S : Type) (h : Handler S) (s : S),
       let r := run h (writeDeployments D path d account) s in
       ledgerWrites (trace_of r) = []
       /\ (outcome_of r = Raised TypeError \/ outcome_of r = Raised Rejected).
Proof.
  intros Hin G T.
  pose proof (truthyPrimitive_truthy _ T) as Tt.
  assert (C : ensureModules d = inl TypeError
              \/ (ensureModules d = inr d
                  /\ forall x, setBondModule d x = inl TypeError)).
  { unfold guardedSlots in Hin. cbn [In] in Hin.
    destruct Hin as [<- | [<- | [<- | []]]].
    - left. cbn [getPath] in G.
      destruct (getProp (Some d) "networks") as [e|n] eqn:G1; [discriminate|].
      injection G as ->.
      unfold ensureModules, ensureObject. cbn [app getPath]. rewrite G1, Tt.
      rewrite G1. rewrite (truthyPrimitive_getProp _ _ T). cbn [truthy].
      cbn [setPath]. rewrite G1. cbn [setPath].
      now rewrite (truthyPrimitive_setProp _ _ _ T).
    - left. cbn [getPath] in G.
      destruct (getProp (Some d) "networks") as [e|n] eqn:G1; [discriminate|].
      destruct (getProp n "baseSepolia") as [e|b] eqn:G2; [discriminate|].
      injection G as ->.
      pose proof (getProp_truthy _ _ _ G2 Tt) as Tn.
      unfold ensureModules, ensureObject. cbn [app getPath]. rewrite G1, Tn.
      rewrite G1, G2, Tt. rewrite G1, G2.
      rewrite (truthyPrimitive_getProp _ _ T). cbn [truthy].
      cbn [setPath]. rewrite G1, G2. cbn [setPath].
      now rewrite (truthyPrimitive_setProp _ _ _ T).
    - right. unfold modulesPath in G. cbn [getPath] in G.
      destruct (getProp (Some d) "networks") as [e|n] eqn:G1; [discriminate|].
      destruct (getProp n "baseSepolia") as [e|b] eqn:G2; [discriminate|].
      destruct (getProp b "modules") as [e|m] eqn:G3; [discriminate|].
      injection G as ->.
      pose proof (getProp_truthy _ _ _ G3 Tt) as Tb.
      pose proof (getProp_truthy _ _ _ G2 Tb) as Tn.
      split.
      + unfold ensureModules, ensureObject. cbn [app getPath]. rewrite G1, Tn.
        rewrite G1, G2, Tb. now rewrite G1, G2, G3, Tt.
      + intros x. unfold setBondModule, modulesPath. cbn [setPath].
        rewrite G1, G2, G3. cbn [setPath].
        now rewrite (truthyPrimitive_setProp _ _ _ T). }
  split.
  - intros iso. unfold upsert. destruct C as [-> | [-> C]]; [reflexivity|].
    now rewrite C.
  - intros S h s. cbv zeta. unfold writeDeployments.
    destruct C as [-> | [-> C]]; cbn [liftE bind].
    + finish. split; [reflexivity | now left].
    + next h; [|split; [reflexivity | now right]].
      rewrite C. cbn [liftE bind]. finish. split; [reflexivity | now left].
Qed.

Local Open Scope string_scope.

Lemma ledger_truthy_primitive_type_error_witness :
  let d := JObject [("networks", JObject [("baseSepolia", JString "archived")])] in
  upsert Index.DEPLOYED_ADDRESSES "2025-11-01T12:26:40.123Z"
         "0x2222222222222222222222222222222222222222" d = inl TypeError.
Proof.
  cbv zeta.
  refine (proj1 (ledger_truthy_primitive_type_error Index.DEPLOYED_ADDRESSES
           "deployments.json" "0x2222222222222222222222222222222222222222"
           (JObject [("networks", JObject [("baseSepolia", JString "archived")])])
           (JString "archived") ["networks"; "baseSepolia"] _ _ _) _).
  - right. left. reflexivity.
  - reflexivity.
  - reflexivity.
Defined.

Local Close Scope string_scope.

(** ** Kinds of requests *)

Lemma emits_bind {A B} P (p : Prog A) (f : A -> Prog B) :
  Emits P p -> (forall a, Emits P (f a)) -> Emits P (bind p f).
Proof.
  intros Hp Hf. induction Hp as [a | e | R ev k Hev Hk IH]; cbn [bind].
  - apply Hf.
  - constructor.
  - constructor; assumption.
Qed.

Lemma emits_call {R} (P : forall R : Type, Event R -> bool) (ev : Event R) :
  P R ev = true -> Emits P (call ev).
Proof. intros H. unfold call. constructor; [exact H | intros r; constructor]. Qed.

Lemma emits_lift {A} P (o : option A) : Emits P (lift o).
Proof. destruct o; constructor. Qed.

Lemma emits_liftE {A} P (r : Exn + A) : Emits P (liftE r).
Proof. destruct r; constructor. Qed.

Lemma emits_confined {A} P (p : Prog A) : Emits P p -> Confined P p.
Proof.
  intros Hp S h. induction Hp as [a | e | R ev k Hev Hk IH]; intros s.
  - reflexivity.
  - reflexivity.
  - rewrite run_vis. destruct (h R ev s) as [[r|] s'].
    + rewrite trace_prefixed. unfold within in *. cbn [forallb].
      now rewrite Hev, IH.
    + unfold within. cbn. now rewrite Hev.
Qed.


(** One step of a program in sequence. *)
Ltac emits :=
  repeat match goal with
         | |- Emits _ (bind _ _) => apply emits_bind; [ | intros ? ]
         | |- Emits _ (lift _) => apply emits_lift
         | |- Emits _ (liftE _) => apply emits_liftE
         | |- Emits _ (call _) => apply emits_call; reflexivity
         | |- Emits _ (Ret _) => apply emits_ret
         | |- Emits _ (Throw _) => apply emits_throw
         | |- Emits _ (if ?c then _ else _) => destruct c
         | |- Emits _ (match ?c with [] => _ | _ :: _ => _ end) => destruct c
         end.

Lemma viem_precompute_emits owner : Emits clockOrFactory (Viem.preComputeAccountAddress owner).
Proof. unfold Viem.preComputeAccountAddress. emits. Qed.

Lemma index_precompute_emits owner : Emits clockOrFactory (Index.preComputeAccountAddress owner).
Proof. unfold Index.preComputeAccountAddress. emits. Qed.

Lemma hardhat_precompute_emits enc owner :
  Emits clockOrFactory (Hardhat.preComputeAccountAddress enc owner).
Proof. unfold Hardhat.preComputeAccountAddress. emits. Qed.














Lemma writeDeployments_emits D path d account : Emits localOnly (writeDeployments D path d account).
Proof. unfold writeDeployments. emits. Qed.

Lemma index_update_emits account : Emits localOnly (Index.updateDeploymentsJson account).
Proof. unfold Index.updateDeploymentsJson. emits. apply writeDeployments_emits. Qed.

Lemma hardhat_update_emits account : Emits localOnly (Hardhat.updateDeploymentsJson account).
Proof. unfold Hardhat.updateDeploymentsJson. emits. apply writeDeployments_emits. Qed.



(** ** The address pre-computation *)

Lemma Returned_inj {A} (a b : A) : Returned a = Returned b -> a = b.
Proof. congruence. Qed.

(** One request of a run whose outcome is compared with a result. *)
Ltac answer h :=
  cbn [bind call];
  match goal with
  | |- context [run h (Vis ?ev _) ?s] =>
      rewrite run_vis;
      let r := fresh "r" in let s' := fresh "s" in
      destruct (h _ ev s) as [[r|] s'];
      [ rewrite ?trace_prefixed, ?outcome_prefixed
      | cbn [trace_of outcome_of fst snd]; try (intros; discriminate) ]
  end.

Ltac encoded h :=
  match goal with
  | |- context [run h ?p _] =>
      let o := head_lift p in
      let x := fresh "x" in
      destruct o as [x|]; cbn [lift bind];
      [ | cbn [run trace_of outcome_of fst snd]; try (intros; discriminate) ]
  end.

Ltac precomputed h :=
  cbv zeta; intros account initData salt;
  repeat first [answer h | encoded h];
  cbn [run trace_of outcome_of fst snd];
  intros E; apply Returned_inj in E;
  match goal with
  | now : Z |- _ =>
      exists now; inversion E; subst;
      cbn [clockReads factoryQueries flat_map clockAnswer computed app];
      split; [reflexivity | split; [reflexivity | split; [apply keccak256_length | reflexivity]]]
  end.

(** X6: the address pre-computation of each script, when it returns, has asked
    the clock once and the account factory once, about the very
    initialisation data and salt it returns; the salt is the 32-byte
    Keccak-256 hash of a fixed prefix followed by the clock's second, so two
    runs within one second ask about the same salt.  index.ts uses the
    prefix of the hardhat script, not the one of the stand-alone viem
    script. *)
Theorem precompute_salt_from_clock_second
    (S : Type) (h : Handler S) (s : S) (owner : Address)
    (encodeInitCall : Address -> bytes -> option bytes) :
  let v := run h (Viem.preComputeAccountAddress owner) s in
  let i := run h (Index.preComputeAccountAddress owner) s in
  let e := run h (Hardhat.preComputeAccountAddress encodeInitCall owner) s in
  PreComputed Viem.DEPLOYED_ADDRESSES "nexus-bondmodule-viem-" (trace_of v) (outcome_of v)
  /\ PreComputed Index.DEPLOYED_ADDRESSES "nexus-bondmodule-hardhat-" (trace_of i) (outcome_of i)
  /\ PreComputed Hardhat.DEPLOYED_ADDRESSES "nexus-bondmodule-hardhat-"
       (trace_of e) (outcome_of e).
Proof.
  cbv zeta. split; [|split]; unfold PreComputed.
  - unfold Viem.preComputeAccountAddress. precomputed h.
  - unfold Index.preComputeAccountAddress. precomputed h.
  - unfold Hardhat.preComputeAccountAddress. precomputed h.
Qed.

(** ** The mint *)

Lemma sleeps_cons st tr : sleeps (st :: tr) = slept st ++ sleeps tr.
Proof. reflexivity. Qed.

Lemma sumZ_repeat x n : sumZ (repeat x n) = x * Z.of_nat n.
Proof.
  induction n as [|n IH]; [cbn; lia|].
  cbn [repeat sumZ fold_right]. fold (sumZ (repeat x n)). lia.
Qed.

(** The retry loop pauses two seconds after every read that is not positive,
    and only then reads again. *)
Lemma retryBalance_polls {S} (h : Handler S) account : forall i balance s,
  let r := run h (Viem.retryBalance i balance account) s in
  Forall (fun b => b <= 0) (removelast (balanceReads (trace_of r)))
  /\ (exists n, (n <= i)%nat /\ sleeps (trace_of r) = repeat 2000 n
                /\ forall b, outcome_of r = Returned b -> b <= 0 ->
                             n = i /\ length (balanceReads (trace_of r)) = i).
Proof.
  induction i as [|i IH]; intros balance s; cbv zeta.
  - cbn. split; [constructor|]. exists 0%nat. repeat split; lia.
  - cbn [Viem.retryBalance]. rewrite run_bind_call.
    destruct (h _ _ s) as [[b'|] s1].
    2:{ cbn. split; [constructor|]. exists 0%nat. split; [lia|]. split; [reflexivity|].
        discriminate. }
    rewrite trace_prefixed, outcome_prefixed, balanceReads_cons, sleeps_cons.
    cbn [balanceAnswer slept app].
    destruct (b' >? 0) eqn:Hpos.
    + cbn. split; [constructor|]. exists 0%nat. split; [lia|]. split; [reflexivity|].
      intros b E Hb. injection E as <-. lia.
    + rewrite run_bind_call. destruct (h _ _ s1) as [[[]|] s2].
      2:{ cbn. split; [constructor|]. exists 1%nat. split; [lia|]. split; [reflexivity|].
          discriminate. }
      rewrite trace_prefixed, outcome_prefixed, balanceReads_cons, sleeps_cons.
      cbn [balanceAnswer slept app].
      specialize (IH b' s2). cbv zeta in IH. destruct IH as [IH1 (n & Hn & Hs & Hr)].
      split.
      * destruct (balanceReads (trace_of (run h (Viem.retryBalance i b' account) s2)))
          as [|b0 reads] eqn:R; [constructor|].
        change (removelast (b' :: b0 :: reads)) with (b' :: removelast (b0 :: reads)).
        constructor; [lia | exact IH1].
      * exists (Datatypes.S n). split; [lia|]. split; [now rewrite Hs|].
        intros b E Hb. destruct (Hr b E Hb) as [-> Hl]. cbn [length]. split; lia.
Qed.

(** The retry loop raises nothing of its own. *)
Lemma retryBalance_raises {S} (h : Handler S) account : forall i balance s e,
  outcome_of (run h (Viem.retryBalance i balance account) s) = Raised e -> e = Rejected.
Proof.
  induction i as [|i IH]; intros balance s e; [discriminate|].
  cbn [Viem.retryBalance]. rewrite run_bind_call.
  destruct (h _ _ s) as [[b'|] s1]; [|cbn; congruence].
  rewrite outcome_prefixed. destruct (b' >? 0); [discriminate|].
  rewrite run_bind_call. destruct (h _ _ s1) as [[[]|] s2]; [|cbn; congruence].
  rewrite outcome_prefixed. apply IH.
Qed.

(** X7: the balance confirmation of the stand-alone viem script.  Every read
    but the last found nothing, the pauses add up to at most 23 seconds, and
    the error about the balance is raised only after ten reads, the last of
    them zero, and the full 23 seconds of pauses. *)
Theorem viem_mint_polls_until_positive
    (S : Type) (h : Handler S) (s : S) (account : Address) :
  let r := run h (Viem.mintTokensToAccount account) s in
  let reads := balanceReads (trace_of r) in
  Forall (fun b => b <= 0) (removelast reads)
  /\ sumZ (sleeps (trace_of r)) <= 23000
  /\ forall message,
       outcome_of r = Raised (Error message) ->
       length reads = 10%nat
       /\ last reads 0 = 0
       /\ sleeps (trace_of r) = 3000 :: repeat 2000 10.
Proof.
  cbv zeta. unfold Viem.mintTokensToAccount.
  walk h; try (cbn; split; [constructor | split; [lia | discriminate]]).
  rewrite !balanceReads_cons, !sleeps_cons. cbn [balanceAnswer slept app].
  rewrite run_bind.
  pose proof (retryBalance_polls h account 10 0 s2) as [H1 (n & Hn & Hs & Hr)].
  pose proof (retryBalance_reads h account 10 0 s2) as [_ H2].
  pose proof (retryBalance_raises h account 10 0 s2) as Hx.
  destruct (run h (Viem.retryBalance 10 0 account) s2) as [[tr [b|e]] s3].
  - cbn [trace_of outcome_of fst snd] in *.
    destruct (b =? 0) eqn:E; cbn [run trace_of outcome_of state_of fst snd];
      rewrite ?app_nil_r.
    + apply Z.eqb_eq in E. subst b.
      destruct (Hr 0 eq_refl ltac:(lia)) as [-> Hl].
      destruct (H2 0 eq_refl) as [Hb _].
      split; [exact H1|]. rewrite Hs. split.
      * cbn [sumZ fold_right]. fold (sumZ (repeat 2000 10)). rewrite sumZ_repeat. lia.
      * intros message _. split; [exact Hl|]. split; [now rewrite <- Hb | reflexivity].
    + split; [exact H1|]. rewrite Hs. split; [|discriminate].
      cbn [sumZ fold_right]. fold (sumZ (repeat 2000 n)). rewrite sumZ_repeat. lia.
  - cbn [trace_of outcome_of fst snd] in *.
    split; [exact H1|]. rewrite Hs. split.
    + cbn [sumZ fold_right]. fold (sumZ (repeat 2000 n)). rewrite sumZ_repeat. lia.
    + intros message E. now rewrite (Hx e eq_refl) in E.
Qed.

Lemma receipts_cons st tr : receipts (st :: tr) = receiptStatus st ++ receipts tr.
Proof. reflexivity. Qed.

Lemma codeReads_cons st tr : codeReads (st :: tr) = codeAnswer st ++ codeReads tr.
Proof. reflexivity. Qed.

Lemma moduleChecks_cons st tr : moduleChecks (st :: tr) = moduleAnswer st ++ moduleChecks tr.
Proof. reflexivity. Qed.

Ltac seen :=
  rewrite ?receipts_cons, ?codeReads_cons, ?moduleChecks_cons, ?balanceReads_cons,
    ?transactions_cons, ?ledgerWrites_cons, ?signedDigests_cons;
  cbn [receiptStatus codeAnswer moduleAnswer balanceAnswer submitted written signed app
       run trace_of outcome_of state_of fst snd
       receipts codeReads moduleChecks balanceReads transactions ledgerWrites signedDigests
       flat_map length].

(** The requests of a run, one after the other, with the status of each
    receipt kept. *)
Ltac stride h :=
  repeat match goal with
         | |- context [run h (bind (call ?ev) _) ?s] =>
             rewrite run_bind_call;
             let r := fresh "r" in let s' := fresh "s" in
             destruct (h _ ev s) as [[r|] s'];
             [rewrite ?trace_prefixed, ?outcome_prefixed | ]
         | |- context [run h (bind (Hardhat.wait ?hash) _) ?s] =>
             rewrite run_bind_wait;
             let r := fresh "r" in let s' := fresh "s" in
             let E := fresh "E" in
             destruct (h _ (WaitForTransactionReceipt hash 1) s) as [[r|] s'];
             [rewrite ?trace_prefixed, ?outcome_prefixed;
              destruct (status r) eqn:E; cbn [bind] | ]
         end;
  seen;
  repeat match goal with
         | E : status _ = _ |- _ => rewrite E in *; clear E
         end.

(** X8: a reverted mint.  The hardhat script stops with the exception of
    [tx.wait()] exactly when the receipt of the mint reports failure, and
    then reads no balance; index.ts never looks at the status: it returns
    exactly when it got to read the balance, whatever the receipt and the
    balance say. *)
Theorem mint_receipt_status_checked_only_by_hardhat
    (S : Type) (h : Handler S) (s : S) (account : Address) :
  let i := run h (Index.mintTokensToAccount account) s in
  let e := run h (Hardhat.mintTokensToAccount account) s in
  (outcome_of i = Returned tt <-> length (balanceReads (trace_of i)) = 1%nat)
  /\ (outcome_of e = Raised CallException <-> receipts (trace_of e) = [false])
  /\ (outcome_of e = Returned tt
      <-> receipts (trace_of e) = [true] /\ length (balanceReads (trace_of e)) = 1%nat)
  /\ (length (balanceReads (trace_of e)) <= length (filter id (receipts (trace_of e))))%nat.
Proof.
  cbv zeta. unfold Index.mintTokensToAccount, Hardhat.mintTokensToAccount.
  split; [|split; [|split]].
  - stride h; split; congruence.
  - stride h; split; congruence.
  - stride h; split; try congruence; try (intros [? ?]; congruence); auto.
  - stride h; cbn; lia.
Qed.

(** ** The executor's own checks *)

(** The requests and encodings of an executor, one after the other. *)
Ltac through h :=
  repeat match goal with
         | |- context [run h (bind (call ?ev) _) ?s] =>
             rewrite run_bind_call;
             let r := fresh "r" in let s' := fresh "s" in
             destruct (h _ ev s) as [[r|] s'];
             [rewrite ?trace_prefixed, ?outcome_prefixed | ]
         | |- context [run h (bind (Hardhat.wait ?hash) _) ?s] =>
             rewrite run_bind_wait;
             let r := fresh "r" in let s' := fresh "s" in
             let E := fresh "E" in
             destruct (h _ (WaitForTransactionReceipt hash 1) s) as [[r|] s'];
             [rewrite ?trace_prefixed, ?outcome_prefixed;
              destruct (status r) eqn:E; cbn [bind] | ]
         | |- context [bind (Viem.executions ?b) _] =>
             destruct (viem_executions_cases b) as [[? ->] | ->]; cbn [bind]
         | |- context [bind (Index.executions ?b) _] =>
             destruct (index_executions_cases b) as [[? ->] | ->]; cbn [bind]
         | |- context [bind (Hardhat.executions ?b) _] =>
             destruct (hardhat_executions_cases b) as [[? ->] | ->]; cbn [bind]
         | |- context [run h ?p _] =>
             let o := head_lift p in
             let x := fresh "x" in destruct o as [x|]; cbn [lift bind]
         | |- context [run h (match ?c with [] => _ | _ :: _ => _ end) _] => destruct c
         | |- context [run h (if status ?r then _ else _) _] =>
             let E := fresh "E" in destruct (status r) eqn:E
         end;
  seen;
  repeat match goal with
         | E : status _ = _ |- _ => rewrite E in *; clear E
         end.

(** Both directions of a condition on what a finished run shows. *)
Ltac settle :=
  split;
  [ let E := fresh in
    intros E; try discriminate E; repeat split; repeat eexists
  | let H := fresh in
    intros H; decompose record H; try discriminate; try reflexivity ].

(** X9: what each executor checks before it reports success.  The stand-alone
    viem script returns exactly when the receipt of the multi-call reports
    success, and looks neither at the code of the account nor at the module.
    index.ts returns exactly when it found code at the account afterwards and
    got the two answers of the module, whatever they are and whatever the
    receipt says.  The hardhat script requires the successful receipt as
    well. *)
Theorem executor_success_conditions
    (S : Type) (h : Handler S) (s : S) (account : Address) (initData salt : bytes)
    (owner : Address) :
  let v := run h (Viem.deployAccountAndExecuteDistribution account initData salt owner) s in
  let i := run h (Index.deployAccountAndExecuteDistribution account initData salt owner) s in
  let e := run h (Hardhat.deployAccountAndExecuteDistribution account initData salt owner) s in
  (outcome_of v = Returned tt <-> receipts (trace_of v) = [true])
  /\ codeReads (trace_of v) = [] /\ moduleChecks (trace_of v) = []
  /\ (outcome_of i = Returned tt
      <-> exists c cs b1 b2,
            codeReads (trace_of i) = [c :: cs] /\ moduleChecks (trace_of i) = [b1; b2])
  /\ (outcome_of e = Returned tt
      <-> receipts (trace_of e) = [true]
          /\ exists c cs b1 b2,
               codeReads (trace_of e) = [c :: cs] /\ moduleChecks (trace_of e) = [b1; b2]).
Proof.
  cbv zeta. split; [|split; [|split; [|split]]].
  - unfold Viem.deployAccountAndExecuteDistribution, signMessage. through h; settle.
  - unfold Viem.deployAccountAndExecuteDistribution, signMessage. through h; reflexivity.
  - unfold Viem.deployAccountAndExecuteDistribution, signMessage. through h; reflexivity.
  - unfold Index.deployAccountAndExecuteDistribution, signMessage. through h; settle.
  - unfold Hardhat.deployAccountAndExecuteDistribution. through h; settle.
Qed.

(** ** The run as a whole: when the ledger is written *)

Lemma within_flat_map {B} (P : forall R : Type, Event R -> bool) (f : Step -> list B) :
  (forall st, within P [st] = true -> f st = []) ->
  forall tr, within P tr = true -> flat_map f tr = [].
Proof.
  intros Hf. induction tr as [|st tr IH]; [reflexivity|].
  unfold within in *. cbn [forallb flat_map]. intros H.
  apply andb_true_iff in H as [H1 H2].
  rewrite Hf, IH; [reflexivity | exact H2 | cbn [forallb]; now rewrite H1].
Qed.

Ltac by_kind :=
  apply within_flat_map; intros [R ev answer]; destruct ev; cbn; congruence.

Lemma offFile_writes tr : within offFile tr = true -> ledgerWrites tr = [].
Proof. unfold ledgerWrites. by_kind. Qed.

Lemma clockOrFactory_shows tr :
  within clockOrFactory tr = true ->
  ledgerWrites tr = [] /\ codeReads tr = [] /\ transactions tr = []
  /\ moduleChecks tr = [] /\ receipts tr = [].
Proof.
  intros H. repeat split; revert tr H;
    [unfold ledgerWrites | unfold codeReads | unfold transactions
     | unfold moduleChecks | unfold receipts]; by_kind.
Qed.

Lemma localOnly_shows tr :
  within localOnly tr = true ->
  codeReads tr = [] /\ transactions tr = [] /\ moduleChecks tr = [] /\ receipts tr = [].
Proof.
  intros H. repeat split; revert tr H;
    [unfold codeReads | unfold transactions | unfold moduleChecks | unfold receipts]; by_kind.
Qed.

Lemma ledgerWrites_app a b : ledgerWrites (a ++ b) = ledgerWrites a ++ ledgerWrites b.
Proof. apply flat_map_app. Qed.

Lemma codeReads_app a b : codeReads (a ++ b) = codeReads a ++ codeReads b.
Proof. apply flat_map_app. Qed.

Lemma moduleChecks_app a b : moduleChecks (a ++ b) = moduleChecks a ++ moduleChecks b.
Proof. apply flat_map_app. Qed.

Lemma receipts_app a b : receipts (a ++ b) = receipts a ++ receipts b.
Proof. apply flat_map_app. Qed.

Lemma index_mint_shows {S} (h : Handler S) s account :
  let r := run h (Index.mintTokensToAccount account) s in
  ledgerWrites (trace_of r) = [] /\ moduleChecks (trace_of r) = []
  /\ (outcome_of r = Returned tt ->
      exists c0, codeReads (trace_of r) = [c0] /\ length (transactions (trace_of r)) = 1%nat).
Proof.
  cbv zeta. unfold Index.mintTokensToAccount.
  stride h; (split; [reflexivity | split; [reflexivity|]]); intros E; try discriminate E.
  eexists. split; reflexivity.
Qed.

Lemma hardhat_mint_shows {S} (h : Handler S) s account :
  let r := run h (Hardhat.mintTokensToAccount account) s in
  ledgerWrites (trace_of r) = [] /\ moduleChecks (trace_of r) = []
  /\ (outcome_of r = Returned tt ->
      exists c0, codeReads (trace_of r) = [c0] /\ length (transactions (trace_of r)) = 1%nat
                 /\ receipts (trace_of r) = [true]).
Proof.
  cbv zeta. unfold Hardhat.mintTokensToAccount.
  stride h; (split; [reflexivity | split; [reflexivity|]]); intros E; try discriminate E.
  eexists. repeat split; reflexivity.
Qed.

Lemma index_deploy_shows {S} (h : Handler S) s account initData salt owner :
  let r := run h (Index.deployAccountAndExecuteDistribution account initData salt owner) s in
  ledgerWrites (trace_of r) = []
  /\ (outcome_of r = Returned tt ->
      exists c cs, codeReads (trace_of r) = [c :: cs]
                   /\ length (transactions (trace_of r)) = 1%nat
                   /\ length (moduleChecks (trace_of r)) = 2%nat).
Proof.
  cbv zeta. unfold Index.deployAccountAndExecuteDistribution, signMessage.
  through h; (split; [reflexivity|]); intros E; try discriminate E.
  do 2 eexists. repeat split; reflexivity.
Qed.

Lemma hardhat_deploy_shows {S} (h : Handler S) s account initData salt owner :
  let r := run h (Hardhat.deployAccountAndExecuteDistribution account initData salt owner) s in
  ledgerWrites (trace_of r) = []
  /\ (outcome_of r = Returned tt ->
      exists c cs, codeReads (trace_of r) = [c :: cs]
                   /\ length (transactions (trace_of r)) = 1%nat
                   /\ length (moduleChecks (trace_of r)) = 2%nat
                   /\ receipts (trace_of r) = [true]).
Proof.
  cbv zeta. unfold Hardhat.deployAccountAndExecuteDistribution.
  through h; (split; [reflexivity|]); intros E; try discriminate E.
  do 2 eexists. repeat split; reflexivity.
Qed.

(** The trace of two programs in sequence. *)
Lemma trace_bind {S A B} (h : Handler S) (p : Prog A) (f : A -> Prog B) s :
  trace_of (run h (bind p f) s)
  = trace_of (run h p s)
    ++ match outcome_of (run h p s) with
       | Returned a => trace_of (run h (f a) (state_of (run h p s)))
       | Raised _ => []
       end.
Proof.
  rewrite run_bind. destruct (run h p s) as [[tr [a|e]] s']; cbn [trace_of outcome_of state_of fst snd].
  - reflexivity.
  - now rewrite app_nil_r.
Qed.

(** What a trace put together from parts shows. *)
Ltac spread :=
  repeat progress
    (rewrite ?ledgerWrites_cons, ?ledgerWrites_app, ?codeReads_cons, ?codeReads_app,
       ?transactions_cons, ?transactions_app, ?moduleChecks_cons, ?moduleChecks_app,
       ?receipts_cons, ?receipts_app;
     cbn [written codeAnswer submitted moduleAnswer receiptStatus app]).

Lemma index_main_ledger {S} (h : Handler S) s key :
  WroteLedgerAfter false (trace_of (run h (Index.main key) s)).
Proof.
  unfold Index.main. destruct (unset key); [now left|].
  rewrite run_bind_call. destruct (h _ _ s) as [[owner|] s1]; [|now left].
  rewrite trace_prefixed.
  rewrite run_bind_call. destruct (h _ _ s1) as [[chainId|] s2]; [|now left].
  rewrite trace_prefixed.
  rewrite trace_bind.
  pose proof (emits_confined _ _ (index_precompute_emits owner) S h s2) as Hpre.
  apply clockOrFactory_shows in Hpre. destruct Hpre as (P1 & P2 & P3 & P4 & P5).
  set (pre := run h (Index.preComputeAccountAddress owner) s2) in *.
  destruct (outcome_of pre) as [[[account initData] salt]|e].
  2:{ left. spread. now rewrite P1. }
  rewrite run_bind_call. destruct (h _ _ (state_of pre)) as [[code|] s3].
  2:{ left. spread. now rewrite P1. }
  rewrite trace_prefixed.
  destruct code as [|c cs].
  - rewrite trace_bind.
    pose proof (index_mint_shows h s3 account) as (M1 & M2 & M3). cbv zeta in M1, M2, M3.
    set (mint := run h (Index.mintTokensToAccount account) s3) in *.
    destruct (outcome_of mint) as [[]|e].
    2:{ left. spread. now rewrite P1, M1. }
    destruct (M3 eq_refl) as (c0 & M4 & M5).
    rewrite trace_bind.
    pose proof (index_deploy_shows h (state_of mint) account initData salt owner)
      as (D1 & D2). cbv zeta in D1, D2.
    set (deploy := run h (Index.deployAccountAndExecuteDistribution account initData salt owner)
                     (state_of mint)) in *.
    destruct (outcome_of deploy) as [[]|e].
    2:{ left. spread. now rewrite P1, M1, D1. }
    destruct (D2 eq_refl) as (c & cs & D3 & D4 & D5).
    pose proof (emits_confined _ _ (index_update_emits (addressText account)) S h
                  (state_of deploy)) as U.
    apply localOnly_shows in U. destruct U as (U1 & U2 & U3 & U4).
    right. right. exists c0, c, cs. spread.
    rewrite P2, P3, P4, M2, M4, D3, U1, U2, U3.
    cbn [app]. rewrite !app_nil_r, !length_app, M5, D4, D5.
    repeat split; reflexivity.
  - pose proof (emits_confined _ _ (index_update_emits (addressText account)) S h s3) as U.
    apply localOnly_shows in U. destruct U as (U1 & U2 & U3 & U4).
    right. left. exists c, cs. spread.
    rewrite P2, P3, U1, U2. split; reflexivity.
Qed.

Lemma hardhat_main_ledger {S} (h : Handler S) s encodeInitCall key :
  WroteLedgerAfter true (trace_of (run h (Hardhat.main encodeInitCall key) s)).
Proof.
  unfold Hardhat.main. destruct (unset key); [now left|].
  rewrite run_bind_call. destruct (h _ _ s) as [[owner|] s0]; [|now left].
  rewrite trace_prefixed.
  rewrite run_bind_call. destruct (h _ _ s0) as [[teeServer|] s1]; [|now left].
  rewrite trace_prefixed.
  rewrite run_bind_call. destruct (h _ _ s1) as [[chainId|] s2]; [|now left].
  rewrite trace_prefixed.
  rewrite trace_bind.
  pose proof (emits_confined _ _ (hardhat_precompute_emits encodeInitCall owner) S h s2) as Hpre.
  apply clockOrFactory_shows in Hpre. destruct Hpre as (P1 & P2 & P3 & P4 & P5).
  set (pre := run h (Hardhat.preComputeAccountAddress encodeInitCall owner) s2) in *.
  destruct (outcome_of pre) as [[[account initData] salt]|e].
  2:{ left. spread. now rewrite P1. }
  rewrite run_bind_call. destruct (h _ _ (state_of pre)) as [[code|] s3].
  2:{ left. spread. now rewrite P1. }
  rewrite trace_prefixed.
  destruct code as [|c cs].
  - rewrite trace_bind.
    pose proof (hardhat_mint_shows h s3 account) as (M1 & M2 & M3). cbv zeta in M1, M2, M3.
    set (mint := run h (Hardhat.mintTokensToAccount account) s3) in *.
    destruct (outcome_of mint) as [[]|e].
    2:{ left. spread. now rewrite P1, M1. }
    destruct (M3 eq_refl) as (c0 & M4 & M5 & M6).
    rewrite trace_bind.
    pose proof (hardhat_deploy_shows h (state_of mint) account initData salt owner)
      as (D1 & D2). cbv zeta in D1, D2.
    set (deploy := run h (Hardhat.deployAccountAndExecuteDistribution
                            account initData salt owner) (state_of mint)) in *.
    destruct (outcome_of deploy) as [[]|e].
    2:{ left. spread. now rewrite P1, M1, D1. }
    destruct (D2 eq_refl) as (c & cs & D3 & D4 & D5 & D6).
    pose proof (emits_confined _ _ (hardhat_update_emits (addressText account)) S h
                  (state_of deploy)) as U.
    apply localOnly_shows in U. destruct U as (U1 & U2 & U3 & U4).
    right. right. exists c0, c, cs. spread.
    rewrite P2, P3, P4, P5, M2, M4, M6, D3, D6, U1, U2, U3, U4.
    cbn [app]. rewrite !app_nil_r, !length_app, M5, D4, D5.
    repeat split; reflexivity.
  - pose proof (emits_confined _ _ (hardhat_update_emits (addressText account)) S h s3) as U.
    apply localOnly_shows in U. destruct U as (U1 & U2 & U3 & U4).
    right. left. exists c, cs. spread.
    rewrite P2, P3, U1, U2. split; reflexivity.
Qed.

(** X10: when the ledger is written.  A run of index.ts or of the hardhat
    script writes the ledger only in two situations: the first look at the
    account found code, and then nothing was submitted; or it found none,
    and then the mint and the multi-call were both submitted and the
    executor found code at the account and got the module's two answers
    before the write (in the hardhat script both receipts reported success
    as well).  A failed mint or a failed deployment leaves the ledger
    untouched. *)
Theorem ledger_written_only_after_deployment
    (S : Type) (h : Handler S) (s : S) (key : option string)
    (encodeInitCall : Address -> bytes -> option bytes) :
  WroteLedgerAfter false (trace_of (run h (Index.main key) s))
  /\ WroteLedgerAfter true (trace_of (run h (Hardhat.main encodeInitCall key) s)).
Proof. split; [apply index_main_ledger | apply hardhat_main_ledger]. Qed.

(** ** The ledger file *)

Lemma probes_cons st tr : probes (st :: tr) = probed st ++ probes tr.
Proof. reflexivity. Qed.

Lemma fileReads_cons st tr : fileReads (st :: tr) = readFile st ++ fileReads tr.
Proof. reflexivity. Qed.

(** What is written is the upsert of the document handed over, with the date
    of this run; and nothing is probed or read on the way. *)
Lemma writeDeployments_writes {S} (h : Handler S) s D path d account :
  let r := run h (writeDeployments D path d account) s in
  probes (trace_of r) = [] /\ fileReads (trace_of r) = []
  /\ ((ledgerWrites (trace_of r) = [] /\ outcome_of r <> Returned tt)
      \/ exists iso d', upsert D iso account d = inr d'
                        /\ ledgerWrites (trace_of r) = [(path, d')]).
Proof.
  cbv zeta. unfold writeDeployments.
  destruct (ensureModules d) as [e|d1] eqn:E1; cbn [liftE bind].
  { cbn. repeat split. left. split; [reflexivity | discriminate]. }
  rewrite run_bind_call. destruct (h _ _ s) as [[iso|] s1].
  2:{ cbn. repeat split. left. split; [reflexivity | discriminate]. }
  rewrite trace_prefixed, outcome_prefixed.
  destruct (setBondModule d1 _) as [e|d2] eqn:E2; cbn [liftE bind].
  { cbn. repeat split. left. split; [reflexivity | discriminate]. }
  unfold call. rewrite run_vis. destruct (h _ _ s1) as [[[]|] s2];
    (split; [reflexivity | split; [reflexivity|]]); right;
    exists iso, (stringified d2); (split; [unfold upsert; now rewrite E1, E2 | reflexivity]).
Qed.

(** X11: a missing ledger file.  index.ts asks whether the file exists and,
    when it does not, reads nothing and writes a file holding just the
    record of this run.  The hardhat script never asks: it reads first, and
    when the read fails it stops there without writing. *)
Theorem missing_ledger_file_created_by_index_only
    (S : Type) (h : Handler S) (s : S) (account : string) :
  let i := run h (Index.updateDeploymentsJson account) s in
  let e := run h (Hardhat.updateDeploymentsJson account) s in
  (exists answer,
      probes (trace_of i) = [("deployments.json"%string, answer)]
      /\ (answer = Some false ->
          fileReads (trace_of i) = []
          /\ ((ledgerWrites (trace_of i) = [] /\ outcome_of i <> Returned tt)
              \/ exists iso,
                   ledgerWrites (trace_of i)
                   = [("deployments.json"%string,
                       ledgerOf Index.DEPLOYED_ADDRESSES iso account)])))
  /\ probes (trace_of e) = []
  /\ exists answer,
       fileReads (trace_of e) = [("../../deployments.json"%string, answer)]
       /\ (answer = None ->
           ledgerWrites (trace_of e) = [] /\ outcome_of e = Raised Rejected).
Proof.
  cbv zeta. split; [|split].
  - unfold Index.updateDeploymentsJson.
    rewrite run_bind_call. destruct (h _ _ s) as [[b|] s1].
    2:{ exists None. split; [reflexivity | discriminate]. }
    rewrite trace_prefixed, outcome_prefixed, probes_cons, fileReads_cons, ledgerWrites_cons.
    cbn [probed readFile written app].
    exists (Some b). destruct b; cbn [bind].
    + rewrite run_bind_call. destruct (h _ _ s1) as [[d|] s2].
      * rewrite trace_prefixed, probes_cons. cbn [probed app].
        destruct (writeDeployments_writes h s2 Index.DEPLOYED_ADDRESSES
                    Index.deploymentsPath d account) as (-> & _).
        split; [reflexivity | discriminate].
      * split; [reflexivity | discriminate].
    + destruct (writeDeployments_writes h s1 Index.DEPLOYED_ADDRESSES
                  Index.deploymentsPath (JObject []) account) as (-> & -> & W).
      split; [reflexivity|]. intros _. split; [reflexivity|].
      destruct W as [W | (iso & d' & U & W)]; [now left|].
      right. exists iso. rewrite W.
      change (upsert Index.DEPLOYED_ADDRESSES iso account (JObject []))
        with (@inr Exn json (ledgerOf Index.DEPLOYED_ADDRESSES iso account)) in U.
      now injection U as <-.
  - unfold Hardhat.updateDeploymentsJson.
    rewrite run_bind_call. destruct (h _ _ s) as [[d|] s1]; [|reflexivity].
    rewrite trace_prefixed, probes_cons. cbn [probed app].
    now destruct (writeDeployments_writes h s1 Hardhat.DEPLOYED_ADDRESSES
                    Hardhat.deploymentsPath d account) as (-> & _).
  - unfold Hardhat.updateDeploymentsJson.
    rewrite run_bind_call. destruct (h _ _ s) as [[d|] s1].
    + exists (Some d). rewrite trace_prefixed, fileReads_cons. cbn [readFile app].
      destruct (writeDeployments_writes h s1 Hardhat.DEPLOYED_ADDRESSES
                  Hardhat.deploymentsPath d account) as (_ & -> & _).
      split; [reflexivity | discriminate].
    + exists None. split; [reflexivity|]. intros _. split; reflexivity.
Qed.

(** ** The ABI loader *)

Section Loader.

Variable positive : json -> bool.

Lemma offered_cons st tr :
  offered positive (st :: tr)
  = flat_map (fun r : string * option json =>
                match snd r with
                | Some artifact => abiOf positive artifact
                | None => []
                end) (readFile st)
    ++ offered positive tr.
Proof. unfold offered. rewrite fileReads_cons. apply flat_map_app. Qed.

Lemma nonEmptyAbi_some abi : nonEmptyAbi positive abi = true -> exists a, abi = Some a.
Proof. destruct abi as [a|]; [now exists a | discriminate]. Qed.

Lemma loadFrom_first_offer {S} (h : Handler S) : forall paths s,
  let r := run h (loadFrom positive paths) s in
  (exists rest, paths = (map fst (probes (trace_of r)) ++ rest)%list)
  /\ map fst (fileReads (trace_of r)) = map fst (filter found (probes (trace_of r)))
  /\ (length (offered positive (trace_of r)) <= 1)%nat
  /\ forall abi, outcome_of r = Returned abi ->
       offered positive (trace_of r) = [abi]
       \/ (offered positive (trace_of r) = [] /\ abi = JArray [] []
           /\ map fst (probes (trace_of r)) = paths).
Proof.
  induction paths as [|p rest IH]; intros s; cbv zeta.
  - cbn. split; [now exists []|]. split; [reflexivity|]. split; [lia|].
    intros abi E. injection E as <-. right. auto.
  - cbn [loadFrom]. rewrite run_bind_call. destruct (h _ _ s) as [[b|] s1].
    2:{ cbn. split; [now exists rest|]. split; [reflexivity|]. split; [lia|]. discriminate. }
    rewrite trace_prefixed, outcome_prefixed, probes_cons, fileReads_cons, offered_cons.
    cbn [probed readFile flat_map app map filter found fst snd].
    destruct b.
    + rewrite run_bind_call. destruct (h _ _ s1) as [[artifact|] s2].
      2:{ cbn. split; [now exists rest|]. split; [reflexivity|]. split; [lia|]. discriminate. }
      rewrite trace_prefixed, outcome_prefixed, probes_cons, fileReads_cons, offered_cons.
      cbn [probed readFile flat_map app map filter found fst snd].
      unfold abiOf.
      destruct (getProp (Some artifact) "abi") as [e|abi]; cbn [liftE bind].
      { cbn. split; [now exists rest|]. split; [reflexivity|]. split; [lia|]. discriminate. }
      destruct (nonEmptyAbi positive abi) eqn:N.
      * destruct (nonEmptyAbi_some _ N) as [a ->]. rewrite N.
        cbn. split; [now exists rest|]. split; [reflexivity|]. split; [lia|].
        intros abi E. injection E as <-. now left.
      * assert (O : match abi with
                    | Some a => if nonEmptyAbi positive (Some a) then [a] else []
                    | None => []
                    end = []).
        { destruct abi; [now rewrite N | reflexivity]. }
        rewrite O. cbn [app].
        specialize (IH s2). cbv zeta in IH. destruct IH as ([rest' Hp] & Hr & Hl & Ho).
        split; [exists rest'; cbn [app]; now rewrite <- Hp|].
        split; [now rewrite Hr|]. split; [exact Hl|].
        intros a E. destruct (Ho a E) as [Ha | (Ha & Hb & Hc)]; [now left|].
        right. split; [exact Ha|]. split; [exact Hb|]. now rewrite Hc.
    + specialize (IH s1). cbv zeta in IH. destruct IH as ([rest' Hp] & Hr & Hl & Ho).
      split; [exists rest'; cbn [app]; now rewrite <- Hp|].
      split; [exact Hr|]. split; [exact Hl|].
      intros a E. destruct (Ho a E) as [Ha | (Ha & Hb & Hc)]; [now left|].
      right. split; [exact Ha|]. split; [exact Hb|]. now rewrite Hc.
Qed.

(** X12: the ABI loader of index.ts.  It probes the six candidate paths in
    their order, reads exactly the files its probes found, and stops at the
    first artifact that offers a non-empty [abi]: that one is returned.  It
    returns the empty ABI only after all six candidates were probed and none
    of the artifacts read offered one. *)
Theorem loadABI_returns_first_offer
    (S : Type) (h : Handler S) (s : S) (contractName : string) :
  let r := run h (loadABI positive contractName) s in
  (exists rest, artifactPaths contractName = (map fst (probes (trace_of r)) ++ rest)%list)
  /\ map fst (fileReads (trace_of r)) = map fst (filter found (probes (trace_of r)))
  /\ (length (offered positive (trace_of r)) <= 1)%nat
  /\ forall abi, outcome_of r = Returned abi ->
       offered positive (trace_of r) = [abi]
       \/ (offered positive (trace_of r) = [] /\ abi = JArray [] []
           /\ map fst (probes (trace_of r)) = artifactPaths contractName).
Proof. apply loadFrom_first_offer. Qed.

End Loader.

(** ** Connecting without build artifacts *)

Lemma probes_app a b : probes (a ++ b) = probes a ++ probes b.
Proof. apply flat_map_app. Qed.

Lemma fileReads_app a b : fileReads (a ++ b) = fileReads a ++ fileReads b.
Proof. apply flat_map_app. Qed.

Lemma nothingFound_app a b :
  nothingFound (a ++ b) = nothingFound a && nothingFound b.
Proof. unfold nothingFound. now rewrite probes_app, forallb_app. Qed.

Lemma fallsBack_bind {S A B} (h : Handler S) (p : Prog A) (f : A -> Prog B) a b P1 P2 :
  FallsBack h p a P1 -> FallsBack h (f a) b P2 -> FallsBack h (bind p f) b (P1 ++ P2).
Proof.
  intros Hp Hf s. rewrite trace_bind, nothingFound_app. intros N.
  apply andb_true_iff in N as [N1 N2].
  destruct (Hp s N1) as (O1 & R1 & Q1).
  rewrite run_bind. rewrite O1 in N2.
  destruct (run h p s) as [[tr o] s']. cbn [trace_of outcome_of state_of fst snd] in *.
  subst o. cbn [trace_of outcome_of state_of fst snd].
  destruct (Hf s' N2) as (O2 & R2 & Q2).
  rewrite O2, fileReads_app, probes_app, map_app, R1, R2, Q1, Q2. auto.
Qed.

Section Fallback.

Variable positive : json -> bool.

Lemma loadFrom_fallsBack {S} (h : Handler S) : forall paths,
  FallsBack h (loadFrom positive paths) (JArray [] []) paths.
Proof.
  induction paths as [|p rest IH]; intros s.
  - cbn. auto.
  - cbn [loadFrom]. rewrite run_bind_call. destruct (h _ _ s) as [[b|] s1].
    2:{ cbn. discriminate. }
    rewrite trace_prefixed, outcome_prefixed, fileReads_cons, probes_cons.
    unfold nothingFound. rewrite probes_cons. cbn [probed readFile app forallb snd map fst].
    destruct b; [discriminate|]. cbn [andb]. intros N.
    destruct (IH s1 N) as (O & R & Q). rewrite O, R, Q. auto.
Qed.

(** X13: index.ts without build artifacts.  Where none of the probed artifact
    files exists, [connectToDeployedContracts] reads nothing, probes the six
    candidates of each of the seven contracts in order, and returns every
    contract with its configured address and the empty ABI: the script goes
    on instead of stopping. *)
Theorem connect_without_artifacts_falls_back
    (S : Type) (h : Handler S) (s : S) :
  let r := run h (connectToDeployedContracts positive) s in
  nothingFound (trace_of r) = true ->
  outcome_of r = Returned (withoutAbis Index.DEPLOYED_ADDRESSES)
  /\ fileReads (trace_of r) = []
  /\ map fst (probes (trace_of r)) = flat_map artifactPaths contractNames.
Proof.
  cbv zeta. revert s.
  change (FallsBack h (connectToDeployedContracts positive)
            (withoutAbis Index.DEPLOYED_ADDRESSES) (flat_map artifactPaths contractNames)).
  unfold connectToDeployedContracts, contractNames, loadABI. cbn [flat_map].
  repeat (eapply fallsBack_bind; [apply loadFrom_fallsBack|]).
  intros s _. split; [reflexivity | split; reflexivity].
Qed.

End Fallback.

Lemma connect_without_artifacts_falls_back_witness :
  outcome_of (run simulate (connectToDeployedContracts (fun _ => false)) sim0)
  = Returned (withoutAbis Index.DEPLOYED_ADDRESSES).
Proof.
  refine (proj1 (connect_without_artifacts_falls_back (fun _ => false) Sim simulate sim0 _)).
  vm_compute. reflexivity.
Defined.

(** ** How transactions are sent and awaited *)

Lemma retryBalance_kind (P : forall R : Type, Event R -> bool) account :
  (forall token a, P _ (BalanceOf token a) = true) ->
  P _ (Sleep 2000) = true ->
  forall i balance, Emits P (Viem.retryBalance i balance account).
Proof.
  intros Hb Hs. induction i as [|i IH]; intros balance; cbn [Viem.retryBalance].
  - constructor.
  - apply emits_bind; [apply emits_call, Hb | intros b].
    destruct (b >? 0); [constructor|].
    apply emits_bind; [apply emits_call, Hs | intros _; apply IH].
Qed.

(** The requests of a script, function by function. *)
Ltac scripted :=
  repeat (emits;
          match goal with
          | |- Emits _ (Viem.executions _) => unfold Viem.executions
          | |- Emits _ (Index.executions _) => unfold Index.executions
          | |- Emits _ (Hardhat.executions _) => unfold Hardhat.executions
          | |- Emits _ (Hardhat.wait _) => unfold Hardhat.wait
          | |- Emits _ (signMessage _) => unfold signMessage
          | |- Emits _ (Viem.preComputeAccountAddress _) =>
              unfold Viem.preComputeAccountAddress
          | |- Emits _ (Index.preComputeAccountAddress _) =>
              unfold Index.preComputeAccountAddress
          | |- Emits _ (Hardhat.preComputeAccountAddress _ _) =>
              unfold Hardhat.preComputeAccountAddress
          | |- Emits _ (Viem.mintTokensToAccount _) => unfold Viem.mintTokensToAccount
          | |- Emits _ (Index.mintTokensToAccount _) => unfold Index.mintTokensToAccount
          | |- Emits _ (Hardhat.mintTokensToAccount _) => unfold Hardhat.mintTokensToAccount
          | |- Emits _ (Viem.deployAccountAndExecuteDistribution _ _ _ _) =>
              unfold Viem.deployAccountAndExecuteDistribution
          | |- Emits _ (Index.deployAccountAndExecuteDistribution _ _ _ _) =>
              unfold Index.deployAccountAndExecuteDistribution
          | |- Emits _ (Hardhat.deployAccountAndExecuteDistribution _ _ _ _) =>
              unfold Hardhat.deployAccountAndExecuteDistribution
          | |- Emits _ (Index.updateDeploymentsJson _) => unfold Index.updateDeploymentsJson
          | |- Emits _ (Hardhat.updateDeploymentsJson _) =>
              unfold Hardhat.updateDeploymentsJson
          | |- Emits _ (writeDeployments _ _ _ _) => unfold writeDeployments
          | |- Emits _ (Viem.retryBalance _ _ _) =>
              apply retryBalance_kind; [intros; reflexivity | reflexivity]
          | |- Emits _ (let (_, _) := ?p in _) => destruct p
          end).

(** X14: how the scripts send and await their transactions.  The stand-alone
    viem script sets no gas limit and awaits every receipt with two
    confirmations.  index.ts and the hardhat script send the multi-call with
    a gas limit of 5000000 and the mint with none, and await every receipt
    with one confirmation. *)
Theorem transaction_gas_and_confirmations
    (key : option string) (encodeInitCall : Address -> bytes -> option bytes) :
  Confined viemPolicy (Viem.main key)
  /\ Confined indexPolicy (Index.main key)
  /\ Confined indexPolicy (Hardhat.main encodeInitCall key).
Proof.
  split; [|split]; apply emits_confined.
  - unfold Viem.main. scripted.
  - unfold Index.main. scripted.
  - unfold Hardhat.main. scripted.
Qed.

(** ** A run without a key *)

(** X15: without PRIVATE_KEY (missing or empty) no script makes a single
    request: nothing is read, signed, submitted or written, and the run
    fails with the error about the variable.  With a key, the first thing
    every script asks for is the address of the wallet. *)
Theorem main_requires_private_key
    (S : Type) (h : Handler S) (s : S) (key : option string)
    (encodeInitCall : Address -> bytes -> option bytes) :
  let missing := ([], Raised (Error "PRIVATE_KEY environment variable not set"), s) in
  let asksWallet (r : list Step * Outcome unit * S) :=
    exists answer, hd_error (trace_of r) = Some (step WalletAddress answer) in
  if unset key
  then run h (Viem.main key) s = missing
       /\ run h (Index.main key) s = missing
       /\ run h (Hardhat.main encodeInitCall key) s = missing
  else asksWallet (run h (Viem.main key) s)
       /\ asksWallet (run h (Index.main key) s)
       /\ asksWallet (run h (Hardhat.main encodeInitCall key) s).
Proof.
  cbv zeta. unfold Viem.main, Index.main, Hardhat.main.
  destruct (unset key); [repeat split|].
  split; [|split]; rewrite run_bind_call; destruct (h _ _ s) as [[owner|] s1];
    eexists; reflexivity.
Qed.

(** ** What is left in the account *)

(** X16: the remainder of the 30-30-40 split.  For a balance that is not
    negative the three deposits leave 0, 1 or 2 units in the account, and
    nothing exactly when the balance is a multiple of 10; the first two
    deposits are equal and the third is at least as large. *)
Theorem distribution_remainder_by_last_digit (accountBalance : Z) :
  0 <= accountBalance ->
  0 <= undistributed accountBalance <= 2
  /\ (undistributed accountBalance = 0 <-> accountBalance mod 10 = 0)
  /\ undistributed accountBalance = undistributed (accountBalance mod 10)
  /\ amountZyFAI accountBalance = amountGiza accountBalance
  /\ amountGiza accountBalance <= amountCod3x accountBalance.
Proof.
  intros H.
  unfold undistributed, amountZyFAI, amountGiza, amountCod3x,
    ALLOCATION_ZYFAI, ALLOCATION_GIZA, ALLOCATION_COD3X, TOTAL_PERCENTAGE.
  repeat split; Z.to_euclidean_division_equations; lia.
Qed.

Lemma distribution_remainder_by_last_digit_witness :
  undistributed 10000000007 = 1.
Proof.
  destruct (distribution_remainder_by_last_digit 10000000007 ltac:(lia))
    as (_ & _ & E & _).
  rewrite E. reflexivity.
Defined.

(** ** Runs in the scripted environment *)

Example precompute_returns_in_first_second :
  let r := run simulate (Viem.preComputeAccountAddress (sim_owner sim0)) sim0 in
  exists initData,
    outcome_of r
    = Returned (sim_account sim0, initData,
                keccak256 (toBytes "nexus-bondmodule-viem-1762000000"))
    /\ clockReads (trace_of r) = [1762000000123].
Proof. cbv zeta. eexists. split; vm_compute; reflexivity. Qed.

Example index_run_writes_ledger_after_deployment :
  let r := run simulate (Index.main (Some "key"%string)) sim0 in
  outcome_of r = Returned tt
  /\ codeReads (trace_of r) = [[]; []; [0x60; 0x80]]
  /\ receipts (trace_of r) = [true; true]
  /\ moduleChecks (trace_of r) = [true; true]
  /\ probes (trace_of r) = [("deployments.json"%string, Some false)]
  /\ ledgerWrites (trace_of r)
     = [("deployments.json"%string,
         ledgerOf Index.DEPLOYED_ADDRESSES "2025-11-01T12:26:40.123Z"
           (addressText (sim_account sim0)))].
Proof. cbv zeta. repeat split; vm_compute; reflexivity. Qed.

(** ** What a successful run has done *)

Lemma outcome_of_bind {S A B} (h : Handler S) (p : Prog A) (f : A -> Prog B) s :
  outcome_of (run h (bind p f) s)
  = match outcome_of (run h p s) with
    | Returned a => outcome_of (run h (f a) (state_of (run h p s)))
    | Raised e => Raised e
    end.
Proof. rewrite run_bind. now destruct (run h p s) as [[tr [a|e]] s']. Qed.

Lemma signedDigests_app a b : signedDigests (a ++ b) = signedDigests a ++ signedDigests b.
Proof. apply flat_map_app. Qed.

Lemma unchecked_shows tr :
  within unchecked tr = true -> codeReads tr = [] /\ ledgerWrites tr = [].
Proof.
  intros H. split; revert tr H; [unfold codeReads | unfold ledgerWrites]; by_kind.
Qed.

Lemma clockOrFactory_signs tr : within clockOrFactory tr = true -> signedDigests tr = [].
Proof. unfold signedDigests. by_kind. Qed.

Lemma viem_mint_unchecked account : Emits unchecked (Viem.mintTokensToAccount account).
Proof. scripted. Qed.

Lemma viem_deploy_unchecked account initData salt owner :
  Emits unchecked (Viem.deployAccountAndExecuteDistribution account initData salt owner).
Proof. scripted. Qed.

Lemma viem_deploy_receipt {S} (h : Handler S) s account initData salt owner :
  let r := run h (Viem.deployAccountAndExecuteDistribution account initData salt owner) s in
  outcome_of r = Returned tt ->
  receipts (trace_of r) = [true] /\ length (transactions (trace_of r)) = 1%nat.
Proof.
  cbv zeta. unfold Viem.deployAccountAndExecuteDistribution, signMessage.
  through h; intros E; try discriminate E. split; reflexivity.
Qed.

Lemma polling_receipts tr : within polling tr = true -> receipts tr = [].
Proof. unfold receipts. by_kind. Qed.

Lemma viem_mint_receipt {S} (h : Handler S) s account :
  let r := run h (Viem.mintTokensToAccount account) s in
  outcome_of r = Returned tt -> exists minted, receipts (trace_of r) = [minted].
Proof.
  cbv zeta. unfold Viem.mintTokensToAccount.
  walk h; try (cbn; discriminate).
  rewrite outcome_of_bind, trace_bind. intros _.
  pose proof (emits_confined _ _ (retryBalance_kind polling account
                (fun _ _ => eq_refl) eq_refl 10%nat 0) S h s2) as K.
  apply polling_receipts in K.
  exists (status r0). seen. rewrite receipts_app, K. cbn [app].
  destruct (outcome_of _); [|reflexivity]. now destruct (_ =? 0).
Qed.

Lemma viem_main_succeeded {S} (h : Handler S) s key :
  outcome_of (run h (Viem.main key) s) = Returned tt ->
  ViemSucceeded (trace_of (run h (Viem.main key) s)).
Proof.
  unfold Viem.main. destruct (unset key); [discriminate|].
  rewrite run_bind_call. destruct (h _ _ s) as [[owner|] s1]; [|discriminate].
  rewrite trace_prefixed, outcome_prefixed.
  rewrite trace_bind, outcome_of_bind.
  pose proof (emits_confined _ _ (viem_precompute_emits owner) S h s1) as Hpre.
  pose proof (clockOrFactory_signs _ Hpre) as P0.
  apply clockOrFactory_shows in Hpre. destruct Hpre as (P1 & P2 & P3 & P4 & P5).
  set (pre := run h (Viem.preComputeAccountAddress owner) s1) in *.
  destruct (outcome_of pre) as [[[account initData] salt]|e]; [|discriminate].
  rewrite run_bind_call. destruct (h _ _ (state_of pre)) as [[code|] s3]; [|discriminate].
  rewrite trace_prefixed, outcome_prefixed.
  destruct code as [|c cs].
  - rewrite trace_bind, outcome_of_bind.
    pose proof (emits_confined _ _ (viem_mint_unchecked account) S h s3) as Mu.
    apply unchecked_shows in Mu. destruct Mu as (M1 & _).
    pose proof (viem_mint_receipt h s3 account) as M2. cbv zeta in M2.
    pose proof (viem_mint_submits h s3 account) as M3.
    set (mint := run h (Viem.mintTokensToAccount account) s3) in *.
    destruct (outcome_of mint) as [[]|e]; [|discriminate].
    destruct (M2 eq_refl) as (minted & M4).
    rewrite trace_bind, outcome_of_bind.
    pose proof (emits_confined _ _ (viem_deploy_unchecked account initData salt owner) S h
                  (state_of mint)) as Du.
    apply unchecked_shows in Du. destruct Du as (D1 & _).
    pose proof (viem_deploy_receipt h (state_of mint) account initData salt owner) as D2.
    cbv zeta in D2.
    set (deploy := run h (Viem.deployAccountAndExecuteDistribution account initData salt owner)
                     (state_of mint)) in *.
    destruct (outcome_of deploy) as [[]|e]; [|discriminate].
    destruct (D2 eq_refl) as (D3 & D4).
    intros _. right. spread.
    rewrite P2, P3, P5, M1, M3, M4, D1, D3.
    cbn [run trace_of fst app codeReads transactions receipts flat_map length].
    rewrite ?app_nil_r, D4.
    split; [reflexivity|]. split; [reflexivity|]. now exists minted.
  - intros _. left. exists c, cs. spread.
    rewrite signedDigests_cons, signedDigests_app, signedDigests_cons.
    rewrite P0, P2, P3. cbn. auto.
Qed.

Lemma index_update_once {S} (h : Handler S) s account :
  let r := run h (Index.updateDeploymentsJson account) s in
  outcome_of r = Returned tt -> length (ledgerWrites (trace_of r)) = 1%nat.
Proof.
  cbv zeta. unfold Index.updateDeploymentsJson.
  rewrite run_bind_call. destruct (h _ _ s) as [[b|] s1]; [|discriminate].
  rewrite trace_prefixed, outcome_prefixed, ledgerWrites_cons. cbn [written app].
  destruct b; cbn [bind].
  - rewrite run_bind_call. destruct (h _ _ s1) as [[d|] s2]; [|discriminate].
    rewrite trace_prefixed, outcome_prefixed, ledgerWrites_cons. cbn [written app].
    destruct (writeDeployments_writes h s2 Index.DEPLOYED_ADDRESSES Index.deploymentsPath
                d account) as (_ & _ & [[_ N] | (iso & d' & _ & ->)]);
      [intros E; contradiction | reflexivity].
  - destruct (writeDeployments_writes h s1 Index.DEPLOYED_ADDRESSES Index.deploymentsPath
                (JObject []) account) as (_ & _ & [[_ N] | (iso & d' & _ & ->)]);
      [intros E; contradiction | reflexivity].
Qed.

Lemma hardhat_update_once {S} (h : Handler S) s account :
  let r := run h (Hardhat.updateDeploymentsJson account) s in
  outcome_of r = Returned tt -> length (ledgerWrites (trace_of r)) = 1%nat.
Proof.
  cbv zeta. unfold Hardhat.updateDeploymentsJson.
  rewrite run_bind_call. destruct (h _ _ s) as [[d|] s1]; [|discriminate].
  rewrite trace_prefixed, outcome_prefixed, ledgerWrites_cons. cbn [written app].
  destruct (writeDeployments_writes h s1 Hardhat.DEPLOYED_ADDRESSES Hardhat.deploymentsPath
              d account) as (_ & _ & [[_ N] | (iso & d' & _ & ->)]);
    [intros E; contradiction | reflexivity].
Qed.

Lemma index_main_writes_once {S} (h : Handler S) s key :
  outcome_of (run h (Index.main key) s) = Returned tt ->
  length (ledgerWrites (trace_of (run h (Index.main key) s))) = 1%nat.
Proof.
  unfold Index.main. destruct (unset key); [discriminate|].
  rewrite run_bind_call. destruct (h _ _ s) as [[owner|] s1]; [|discriminate].
  rewrite trace_prefixed, outcome_prefixed.
  rewrite run_bind_call. destruct (h _ _ s1) as [[chainId|] s2]; [|discriminate].
  rewrite trace_prefixed, outcome_prefixed.
  rewrite trace_bind, outcome_of_bind.
  pose proof (emits_confined _ _ (index_precompute_emits owner) S h s2) as Hpre.
  apply clockOrFactory_shows in Hpre. destruct Hpre as (P1 & _).
  set (pre := run h (Index.preComputeAccountAddress owner) s2) in *.
  destruct (outcome_of pre) as [[[account initData] salt]|e]; [|discriminate].
  rewrite run_bind_call. destruct (h _ _ (state_of pre)) as [[code|] s3]; [|discriminate].
  rewrite trace_prefixed, outcome_prefixed.
  destruct code as [|c cs].
  - rewrite trace_bind, outcome_of_bind.
    pose proof (index_mint_shows h s3 account) as (M1 & _). cbv zeta in M1.
    set (mint := run h (Index.mintTokensToAccount account) s3) in *.
    destruct (outcome_of mint) as [[]|e]; [|discriminate].
    rewrite trace_bind, outcome_of_bind.
    pose proof (index_deploy_shows h (state_of mint) account initData salt owner) as (D1 & _).
    cbv zeta in D1.
    set (deploy := run h (Index.deployAccountAndExecuteDistribution account initData salt owner)
                     (state_of mint)) in *.
    destruct (outcome_of deploy) as [[]|e]; [|discriminate].
    intros E. apply index_update_once in E. spread.
    now rewrite P1, M1, D1.
  - intros E. apply index_update_once in E. spread. now rewrite P1.
Qed.

Lemma hardhat_main_writes_once {S} (h : Handler S) s encodeInitCall key :
  outcome_of (run h (Hardhat.main encodeInitCall key) s) = Returned tt ->
  length (ledgerWrites (trace_of (run h (Hardhat.main encodeInitCall key) s))) = 1%nat.
Proof.
  unfold Hardhat.main. destruct (unset key); [discriminate|].
  rewrite run_bind_call. destruct (h _ _ s) as [[owner|] s0]; [|discriminate].
  rewrite trace_prefixed, outcome_prefixed.
  rewrite run_bind_call. destruct (h _ _ s0) as [[teeServer|] s1]; [|discriminate].
  rewrite trace_prefixed, outcome_prefixed.
  rewrite run_bind_call. destruct (h _ _ s1) as [[chainId|] s2]; [|discriminate].
  rewrite trace_prefixed, outcome_prefixed.
  rewrite trace_bind, outcome_of_bind.
  pose proof (emits_confined _ _ (hardhat_precompute_emits encodeInitCall owner) S h s2)
    as Hpre.
  apply clockOrFactory_shows in Hpre. destruct Hpre as (P1 & _).
  set (pre := run h (Hardhat.preComputeAccountAddress encodeInitCall owner) s2) in *.
  destruct (outcome_of pre) as [[[account initData] salt]|e]; [|discriminate].
  rewrite run_bind_call. destruct (h _ _ (state_of pre)) as [[code|] s3]; [|discriminate].
  rewrite trace_prefixed, outcome_prefixed.
  destruct code as [|c cs].
  - rewrite trace_bind, outcome_of_bind.
    pose proof (hardhat_mint_shows h s3 account) as (M1 & _). cbv zeta in M1.
    set (mint := run h (Hardhat.mintTokensToAccount account) s3) in *.
    destruct (outcome_of mint) as [[]|e]; [|discriminate].
    rewrite trace_bind, outcome_of_bind.
    pose proof (hardhat_deploy_shows h (state_of mint) account initData salt owner)
      as (D1 & _).
    cbv zeta in D1.
    set (deploy := run h (Hardhat.deployAccountAndExecuteDistribution
                            account initData salt owner) (state_of mint)) in *.
    destruct (outcome_of deploy) as [[]|e]; [|discriminate].
    intros E. apply hardhat_update_once in E. spread.
    now rewrite P1, M1, D1.
  - intros E. apply hardhat_update_once in E. spread. now rewrite P1.
Qed.

(** X17: what a run that ends normally has done.  The stand-alone viem script
    ends normally only when it found code at the account and then submitted
    and signed nothing, or when it found none, submitted the mint and the
    multi-call, and the receipt of the multi-call reported success.  index.ts
    and the hardhat script end normally only after exactly one write of the
    ledger. *)
Theorem successful_run_has_deployed_or_skipped
    (S : Type) (h : Handler S) (s : S) (key : option string)
    (encodeInitCall : Address -> bytes -> option bytes) :
  let v := run h (Viem.main key) s in
  let i := run h (Index.main key) s in
  let e := run h (Hardhat.main encodeInitCall key) s in
  (outcome_of v = Returned tt -> ViemSucceeded (trace_of v))
  /\ (outcome_of i = Returned tt -> length (ledgerWrites (trace_of i)) = 1%nat)
  /\ (outcome_of e = Returned tt -> length (ledgerWrites (trace_of e)) = 1%nat).
Proof.
  cbv zeta. split; [|split].
  - apply viem_main_succeeded.
  - apply index_main_writes_once.
  - apply hardhat_main_writes_once.
Qed.
